(** * Idempotency simulation: order, payment and fulfilment services

    A shallow embedding of the Go services of the repository
    (internal-order, internal-payment, external-order-fulfilment, the
    [pkg/] helpers and the simulator in [tooling/main.go]) together with
    the properties stated about them.

    Conventions of the embedding:
    - a Go [int] is a [Z]; every value computed here stays far inside
      the 64-bit range, so no wrap-around is written out;
    - the MySQL store is a record of tables, each a list of rows in
      insertion order together with its AUTO_INCREMENT counter;
    - whatever a handler reads from the outside world (the clock, the
      random draw, whether a storage or broker call reports an error,
      the answer of a remote service) is an explicit argument, gathered
      in one record per handler;
    - a statement that reports an error leaves the store as it was. *)

From Stdlib Require Import ZArith List String Ascii Bool Lia DecimalString
  Permutation.
Import ListNotations.

Local Open Scope string_scope.
Local Open Scope Z_scope.

(** ** Go runtime helpers *)

Module Go.

(** [strconv.Itoa] and the [%d] verb. *)
Definition itoa (n : Z) : string := NilZero.string_of_int (Z.to_int n).

(** The [%02d] verb: zero padding up to width two. *)
Definition pad02 (n : Z) : string :=
  let s := itoa n in
  if (String.length s <? 2)%nat then "0" ++ s else s.

(** The [%03d]-like padding used by the [.000] element of a time layout. *)
Definition pad03 (n : Z) : string :=
  let s := itoa n in
  if (String.length s <? 2)%nat then "00" ++ s
  else if (String.length s <? 3)%nat then "0" ++ s else s.

Definition pad04 (n : Z) : string :=
  let s := itoa n in
  if (String.length s <? 2)%nat then "000" ++ s
  else if (String.length s <? 3)%nat then "00" ++ s
  else if (String.length s <? 4)%nat then "0" ++ s else s.

(** [strings.Contains]. *)
Fixpoint contains (s sub : string) : bool :=
  if String.prefix sub s then true
  else match s with
       | EmptyString => false
       | String _ rest => contains rest sub
       end.

(** [a % b] on Go integers truncates towards zero. *)
Definition rem (a b : Z) : Z := Z.rem a b.

(** Indexing a slice: a negative or too large index panics ([None]). *)
Definition index {A : Type} (l : list A) (i : Z) : option A :=
  if i <? 0 then None else nth_error l (Z.to_nat i).

(** [http.StatusOK] and friends. *)
Definition StatusOK : Z := 200.
Definition StatusBadRequest : Z := 400.
Definition StatusMethodNotAllowed : Z := 405.
Definition StatusInternalServerError : Z := 500.

Inductive Method : Type := GET | POST | PUT | DELETE.

Definition is_post (m : Method) : bool :=
  match m with POST => true | _ => false end.

End Go.

(** ** [time.Time] *)

Module Time.

(** An instant (nanoseconds since the Unix epoch, as [UnixNano] returns
    it) together with the offset of its location, in seconds east of
    UTC. *)
Record t : Type := mk { unix_nano : Z; zone_offset : Z }.

Definition UnixNano (x : t) : Z := unix_nano x.

Definition eqb (a b : t) : bool :=
  (unix_nano a =? unix_nano b) && (zone_offset a =? zone_offset b).

(** Civil date of a day number counted from 1970-01-01 (proleptic
    Gregorian calendar). *)
Definition civil_from_days (days : Z) : Z * Z * Z :=
  let z := days + 719468 in
  let era := z / 146097 in
  let doe := z - era * 146097 in
  let yoe := (doe - doe / 1460 + doe / 36524 - doe / 146096) / 365 in
  let y := yoe + era * 400 in
  let doy := doe - (365 * yoe + yoe / 4 - yoe / 100) in
  let mp := (5 * doy + 2) / 153 in
  let d := doy - (153 * mp + 2) / 5 + 1 in
  let m := if mp <? 10 then mp + 3 else mp - 9 in
  (if m <=? 2 then y + 1 else y, m, d).

(** The zone element [-07:00] of a layout. *)
Definition format_zone (off : Z) : string :=
  let a := Z.abs off in
  (if off <? 0 then "-" else "+")
    ++ Go.pad02 (a / 3600) ++ ":" ++ Go.pad02 ((a mod 3600) / 60).

(** The date and clock elements [2006-01-02 15:04:05] in the instant's
    own location. *)
Definition format_seconds (x : t) : string :=
  let secs := unix_nano x / 1000000000 + zone_offset x in
  let '(y, m, d) := civil_from_days (secs / 86400) in
  let sod := secs mod 86400 in
  Go.pad04 y ++ "-" ++ Go.pad02 m ++ "-" ++ Go.pad02 d ++ " "
    ++ Go.pad02 (sod / 3600) ++ ":" ++ Go.pad02 ((sod mod 3600) / 60)
    ++ ":" ++ Go.pad02 (sod mod 60).

(** [x.Format("2006-01-02 15:04:05.000 -07:00")]. *)
Definition Format_millis_zone (x : t) : string :=
  format_seconds x
    ++ "." ++ Go.pad03 ((unix_nano x / 1000000) mod 1000)
    ++ " " ++ format_zone (zone_offset x).

End Time.

(** ** [pkg/models] *)

Module Models.

Record Order : Type := mkOrder {
  ID : string;
  Amount : Z;
  AdminFee : Z;
  Type_ : string;
  Operator : string;
  DestinationPhone : string;
  Total : Z;
  Status : string;
  CreatedAt : Time.t
}.

Record CreateOrderResponse : Type := mkCreateOrderResponse {
  cor_ID : string;
  cor_Status : string;
  cor_Amount : Z;
  cor_AdminFee : Z;
  cor_Total : Z;
  cor_Operator : string;
  cor_DestinationPhone : string
}.

Record PaymentRequest : Type := mkPaymentRequest {
  pr_OrderID : string;
  pr_PaidAmount : Z;
  pr_CorrelationID : string
}.

Record PaymentResponse : Type := mkPaymentResponse {
  presp_Status : string
}.

Record PaymentPaidMessage : Type := mkPaymentPaidMessage {
  ppm_OrderID : string;
  ppm_PaidAmount : Z;
  ppm_PaidAt : Time.t;
  ppm_CorrelationID : string
}.

Record ExternalFulfillmentRequest : Type := mkExternalFulfillmentRequest {
  efr_OrderID : string;
  efr_DestinationPhone : string;
  efr_Amount : Z;
  efr_CorrelationID : string
}.

Record SuccessData : Type := mkSuccessData {
  sd_OrderID : string;
  sd_VendorOrderID : Z;
  sd_ProcessedAt : string
}.

(** [Data] is an [interface{}]: either nil or a [SuccessData]. *)
Record ExternalFulfillmentResponse : Type := mkExternalFulfillmentResponse {
  resp_Status : string;
  resp_Error : string;
  resp_Data : option SuccessData
}.

Record ExtOrder : Type := mkExtOrder {
  eo_ID : Z;
  eo_OrderID : string;
  eo_DestinationPhone : string;
  eo_Amount : Z;
  eo_Status : string;
  eo_Error : string;
  eo_ProcessedAt : Time.t
}.

Record InternalPayment : Type := mkInternalPayment {
  ip_ID : Z;
  ip_OrderID : string;
  ip_PaidAmount : Z;
  ip_PaidAt : Time.t
}.

Record FulfillmentAttempt : Type := mkFulfillmentAttempt {
  fa_ID : Z;
  fa_OrderID : string;
  fa_AttemptNumber : Z;
  fa_Payload : string;
  fa_AttemptedAt : Time.t
}.

End Models.

Import Models.

(** ** [pkg/utils] *)

Module Utils.

(** What [GenerateRandomOrder] reads from its environment: the clock,
    once per call of [time.Now], and the result of [uuid.NewV7]
    ([None] when it reports an error). *)
Record OrderEntropy : Type := mkOrderEntropy {
  now_operator : Time.t;
  now_amount : Time.t;
  now_phone : Time.t;
  new_v7 : option string;
  now_created : Time.t
}.

Definition GenerateUUID7 (new_v7 : option string) : string :=
  match new_v7 with
  | None => ""
  | Some u => u
  end.

Definition operators : list string := ["indosat"; "xl"; "three"].

Definition amounts : list Z :=
  [1000; 2000; 3000; 4000; 5000; 6000; 7000; 8000; 9000].

(** The two [switch operator] statements; no case matches leaves the
    variable at its zero value. *)
Definition adminFee_of (operator : string) : Z :=
  if (operator =? "indosat")%string then 100
  else if (operator =? "xl")%string then 200
  else if (operator =? "three")%string then 300
  else 0.

Definition phonePrefix_of (operator : string) : string :=
  if (operator =? "indosat")%string then "0815-000-00"
  else if (operator =? "xl")%string then "0817-000-00"
  else if (operator =? "three")%string then "0896-000-00"
  else "".

(** [None] is the run-time panic of an index out of range, which a
    clock before the epoch would cause. *)
Definition GenerateRandomOrder (e : OrderEntropy) : option Order :=
  match Go.index operators (Go.rem (Time.UnixNano (now_operator e)) 3) with
  | None => None
  | Some operator =>
    let adminFee := adminFee_of operator in
    match Go.index amounts (Go.rem (Time.UnixNano (now_amount e)) 9) with
    | None => None
    | Some amount =>
      let phonePrefix := phonePrefix_of operator in
      let phoneSuffix :=
        Go.pad02 (Go.rem (Time.UnixNano (now_phone e)) 99 + 1) in
      let destinationPhone := phonePrefix ++ phoneSuffix in
      Some {| ID := GenerateUUID7 (new_v7 e);
              Amount := amount;
              AdminFee := adminFee;
              Type_ := "phone_credit";
              Operator := operator;
              DestinationPhone := destinationPhone;
              Total := amount + adminFee;
              Status := "pending";
              CreatedAt := now_created e |}
    end
  end.

(** [DeterminePublishCount], as a function of the draw [r.Intn(100)]. *)
Definition DeterminePublishCount (chance : Z) : Z :=
  if chance <? 70 then 1
  else if chance <? 90 then 2
  else 3.

End Utils.

(** ** [pkg/database] *)

Module Database.

(** The four relations of [CreateTables]. Rows are kept in insertion
    order; [*_seq] is the next AUTO_INCREMENT value of the table. *)
Record DB : Type := mkDB {
  internal_orders : list Order;
  internal_payments : list InternalPayment;
  internal_payments_seq : Z;
  ext_orders : list ExtOrder;
  ext_orders_seq : Z;
  fulfillment_attempts : list FulfillmentAttempt;
  fulfillment_attempts_seq : Z
}.

(** The store right after [CreateTables] on an empty database. *)
Definition created : DB :=
  {| internal_orders := [];
     internal_payments := []; internal_payments_seq := 1;
     ext_orders := []; ext_orders_seq := 1;
     fulfillment_attempts := []; fulfillment_attempts_seq := 1 |}.

(** Every statement takes a flag [fails]: the statement reports an
    error to the caller for a reason outside the data (connection,
    server) and changes nothing. The second component of a result is
    the Go [err != nil]. *)

(** A [TIMESTAMP] column without fractional digits keeps whole seconds
    (the server rounds), and the driver reads it back in the location
    of the connection string, Asia/Jakarta. *)
Definition jakarta_offset : Z := 25200.

Definition timestamp_column (x : Time.t) : Time.t :=
  Time.mk (((Time.unix_nano x + 500000000) / 1000000000) * 1000000000)
          jakarta_offset.

Definition has_order (id : string) (db : DB) : bool :=
  existsb (fun o => (ID o =? id)%string) (internal_orders db).

(** [INSERT INTO internal_orders (...) VALUES (...)]; [id] is the
    primary key. *)
Definition insert_order (fails : bool) (o : Order) (db : DB) : DB * bool :=
  if fails || has_order (ID o) db then (db, true)
  else
    ({| internal_orders :=
          internal_orders db
            ++ [{| ID := ID o; Amount := Amount o; AdminFee := AdminFee o;
                   Type_ := Type_ o; Operator := Operator o;
                   DestinationPhone := DestinationPhone o;
                   Total := Total o; Status := Status o;
                   CreatedAt := timestamp_column (CreatedAt o) |}];
        internal_payments := internal_payments db;
        internal_payments_seq := internal_payments_seq db;
        ext_orders := ext_orders db;
        ext_orders_seq := ext_orders_seq db;
        fulfillment_attempts := fulfillment_attempts db;
        fulfillment_attempts_seq := fulfillment_attempts_seq db |}, false).

Definition set_status (status : string) (o : Order) : Order :=
  {| ID := ID o; Amount := Amount o; AdminFee := AdminFee o;
     Type_ := Type_ o; Operator := Operator o;
     DestinationPhone := DestinationPhone o; Total := Total o;
     Status := status; CreatedAt := CreatedAt o |}.

(** [UPDATE internal_orders SET status = ? WHERE id = ?]; matching no
    row is not an error. *)
Definition update_order_status (fails : bool) (status id : string) (db : DB)
  : DB * bool :=
  if fails then (db, true)
  else
    ({| internal_orders :=
          map (fun o => if (ID o =? id)%string then set_status status o else o)
              (internal_orders db);
        internal_payments := internal_payments db;
        internal_payments_seq := internal_payments_seq db;
        ext_orders := ext_orders db;
        ext_orders_seq := ext_orders_seq db;
        fulfillment_attempts := fulfillment_attempts db;
        fulfillment_attempts_seq := fulfillment_attempts_seq db |}, false).

(** [SELECT id, amount, destination_phone FROM internal_orders WHERE
    id = ?] scanned by [QueryRow]: [None] is any error, no row
    included. *)
Definition select_order (fails : bool) (id : string) (db : DB)
  : option (string * Z * string) :=
  if fails then None
  else match find (fun o => (ID o =? id)%string) (internal_orders db) with
       | None => None
       | Some o => Some (ID o, Amount o, DestinationPhone o)
       end.

Definition has_payment (order_id : string) (db : DB) : bool :=
  existsb (fun p => (ip_OrderID p =? order_id)%string) (internal_payments db).

(** The [ON DUPLICATE KEY UPDATE order_id = order_id] branch: the row
    that holds the key is assigned its own key. *)
Definition reassign_order_id (order_id : string) (p : InternalPayment)
  : InternalPayment :=
  if (ip_OrderID p =? order_id)%string
  then {| ip_ID := ip_ID p; ip_OrderID := ip_OrderID p;
          ip_PaidAmount := ip_PaidAmount p; ip_PaidAt := ip_PaidAt p |}
  else p.

(** [INSERT INTO internal_payments (order_id, paid_amount, paid_at)
    VALUES (?, ?, ?) ON DUPLICATE KEY UPDATE order_id = order_id], with
    [UNIQUE KEY unique_order (order_id)]. *)
Definition upsert_payment (fails : bool) (order_id : string) (paid_amount : Z)
    (paid_at : Time.t) (db : DB) : DB * bool :=
  if fails then (db, true)
  else if has_payment order_id db then
    ({| internal_orders := internal_orders db;
        internal_payments := map (reassign_order_id order_id)
                                 (internal_payments db);
        internal_payments_seq := internal_payments_seq db;
        ext_orders := ext_orders db;
        ext_orders_seq := ext_orders_seq db;
        fulfillment_attempts := fulfillment_attempts db;
        fulfillment_attempts_seq := fulfillment_attempts_seq db |}, false)
  else
    ({| internal_orders := internal_orders db;
        internal_payments :=
          internal_payments db
            ++ [{| ip_ID := internal_payments_seq db;
                   ip_OrderID := order_id;
                   ip_PaidAmount := paid_amount;
                   ip_PaidAt := timestamp_column paid_at |}];
        internal_payments_seq := internal_payments_seq db + 1;
        ext_orders := ext_orders db;
        ext_orders_seq := ext_orders_seq db;
        fulfillment_attempts := fulfillment_attempts db;
        fulfillment_attempts_seq := fulfillment_attempts_seq db |}, false).

(** [SELECT ... FROM ext_orders WHERE order_id = ?] scanned by
    [QueryRow], which keeps the first row: [None] is any error, no row
    included. *)
Definition select_ext_order (fails : bool) (order_id : string) (db : DB)
  : option ExtOrder :=
  if fails then None
  else find (fun r => (eo_OrderID r =? order_id)%string) (ext_orders db).

(** [INSERT INTO ext_orders (order_id, destination_phone, amount,
    status, error, processed_at) VALUES (...)]: a plain insert; the
    result carries [LastInsertId]. *)
Definition insert_ext_order (fails : bool) (order_id destination_phone : string)
    (amount : Z) (status error : string) (processed_at : Time.t) (db : DB)
  : DB * option Z :=
  if fails then (db, None)
  else
    ({| internal_orders := internal_orders db;
        internal_payments := internal_payments db;
        internal_payments_seq := internal_payments_seq db;
        ext_orders :=
          ext_orders db
            ++ [{| eo_ID := ext_orders_seq db;
                   eo_OrderID := order_id;
                   eo_DestinationPhone := destination_phone;
                   eo_Amount := amount;
                   eo_Status := status;
                   eo_Error := error;
                   eo_ProcessedAt := timestamp_column processed_at |}];
        ext_orders_seq := ext_orders_seq db + 1;
        fulfillment_attempts := fulfillment_attempts db;
        fulfillment_attempts_seq := fulfillment_attempts_seq db |},
     Some (ext_orders_seq db)).

Definition attempts_of (order_id : string) (db : DB) : list FulfillmentAttempt :=
  filter (fun a => (fa_OrderID a =? order_id)%string) (fulfillment_attempts db).

(** [SELECT COUNT( * ) FROM fulfillment_attempts WHERE order_id = ?]. *)
Definition count_attempts (fails : bool) (order_id : string) (db : DB)
  : option Z :=
  if fails then None
  else Some (Z.of_nat (List.length (attempts_of order_id db))).

(** [INSERT INTO fulfillment_attempts (order_id, attempt_number,
    payload) VALUES (?, ?, ?)]; [attempted_at] defaults to the server
    clock [server_now]. *)
Definition insert_attempt (fails : bool) (order_id : string)
    (attempt_number : Z) (payload : string) (server_now : Time.t) (db : DB)
  : DB * bool :=
  if fails then (db, true)
  else
    ({| internal_orders := internal_orders db;
        internal_payments := internal_payments db;
        internal_payments_seq := internal_payments_seq db;
        ext_orders := ext_orders db;
        ext_orders_seq := ext_orders_seq db;
        fulfillment_attempts :=
          fulfillment_attempts db
            ++ [{| fa_ID := fulfillment_attempts_seq db;
                   fa_OrderID := order_id;
                   fa_AttemptNumber := attempt_number;
                   fa_Payload := payload;
                   fa_AttemptedAt := timestamp_column server_now |}];
        fulfillment_attempts_seq := fulfillment_attempts_seq db + 1 |},
     false).

End Database.

Import Database.

(** ** HTTP replies shared by the three services *)

Module Http.

(** What a handler writes to its [http.ResponseWriter]: a JSON body
    with status 200, or [http.Error]. *)
Inductive Reply (A : Type) : Type :=
| Json (body : A)
| Error (text : string) (code : Z).

Arguments Json {A} body.
Arguments Error {A} text code.

Definition status_code {A : Type} (r : Reply A) : Z :=
  match r with
  | Json _ => Go.StatusOK
  | Error _ code => code
  end.

End Http.

(** ** [pkg/httpclient] *)

Module Httpclient.

(** The answer of [PostJSONWithTimeout]: an error with its text, or a
    response with its status code. *)
Inductive PostResult : Type :=
| PostError (text : string)
| PostResponse (StatusCode : Z).

(** [IsTimeoutError], on the text of a non-nil error. *)
Definition IsTimeoutError (text : string) : bool := Go.contains text "timeout".

End Httpclient.

(** ** [internal-payment/main.go] *)

Module PaymentService.

(** What one request reads from outside: the generated correlation id,
    the draw of [DeterminePublishCount], the clock at [paidAt], whether
    the [i]-th [nats.Publish] and the final [Exec] report an error. *)
Record Env : Type := mkEnv {
  fresh_correlation : string;
  chance : Z;
  now_paid : Time.t;
  publish_fails : Z -> bool;
  store_fails : bool
}.

(** What the handler does to the outside, in program order. Logging at
    level Info is left out. *)
Inductive Effect : Type :=
| Sleep (ms : Z)
| Publish (subject : string) (message : PaymentPaidMessage) (failed : bool)
| Exec_upsert (order_id : string) (failed : bool)
| LogError (text : string).

Record Outcome : Type := mkOutcome {
  store : DB;
  effects : list Effect;
  reply : Http.Reply PaymentResponse
}.

(** The loop [for i := 0; i < publishCount; i++]; [fuel] bounds the
    number of iterations and is given as [publishCount] by the
    caller. *)
Fixpoint publish_loop (fuel : nat) (i publishCount : Z)
    (message : PaymentPaidMessage) (e : Env) : list Effect :=
  match fuel with
  | O => []
  | S fuel' =>
    if i <? publishCount then
      (if publish_fails e i
       then [Publish "payment.paid" message true;
             LogError "Failed to publish message"]
       else [Publish "payment.paid" message false])
        ++ publish_loop fuel' (i + 1) publishCount message e
    else []
  end.

(** [body] is the decoded request, [None] when [Decode] fails. *)
Definition triggerPaymentPaid (timeoutMs : Z) (e : Env) (method : Go.Method)
    (body : option PaymentRequest) (db : DB) : Outcome :=
  if negb (Go.is_post method) then
    mkOutcome db [] (Http.Error "Method not allowed" Go.StatusMethodNotAllowed)
  else
    match body with
    | None =>
      mkOutcome db [] (Http.Error "Invalid request body" Go.StatusBadRequest)
    | Some req =>
      let correlationID :=
        if (pr_CorrelationID req =? "")%string
        then fresh_correlation e else pr_CorrelationID req in
      let publishCount := Utils.DeterminePublishCount (chance e) in
      let paidAt := now_paid e in
      let message :=
        {| ppm_OrderID := pr_OrderID req;
           ppm_PaidAmount := pr_PaidAmount req;
           ppm_PaidAt := paidAt;
           ppm_CorrelationID := correlationID |} in
      let published :=
        publish_loop (Z.to_nat publishCount) 0 publishCount message e in
      let '(db', err) :=
        upsert_payment (store_fails e) (pr_OrderID req) (pr_PaidAmount req)
                       paidAt db in
      let stored :=
        Exec_upsert (pr_OrderID req) err
          :: (if err then [LogError "Failed to store payment"] else []) in
      mkOutcome db'
                (Sleep timeoutMs :: published ++ stored)
                (Http.Json {| presp_Status := "success" |})
    end.

End PaymentService.

(** ** [external-order-fulfilment/main.go] *)

Module ExternalService.

(** What one request reads from outside: the generated correlation id,
    whether the lookup and the insert report an error, the draw
    [rng.Intn(100)], and the clock at each of the three [time.Now]. *)
Record Env : Type := mkEnv {
  fresh_correlation : string;
  select_fails : bool;
  chance : Z;
  now_draw : Time.t;
  now_processed : Time.t;
  insert_fails : bool;
  now_reply : Time.t
}.

(** The reply built from a stored row. *)
Definition stored_response (existingOrder : ExtOrder)
  : ExternalFulfillmentResponse :=
  let responseData :=
    if (eo_Status existingOrder =? "success")%string
    then Some {| sd_OrderID := eo_OrderID existingOrder;
                 sd_VendorOrderID := eo_ID existingOrder;
                 sd_ProcessedAt :=
                   Time.Format_millis_zone (eo_ProcessedAt existingOrder) |}
    else None in
  {| resp_Status := eo_Status existingOrder;
     resp_Error := eo_Error existingOrder;
     resp_Data := responseData |}.

(** The part of [processOrder] after the idempotency block: draw,
    insert, reply. *)
Definition process_fresh (e : Env) (req : ExternalFulfillmentRequest) (db : DB)
  : DB * Http.Reply ExternalFulfillmentResponse :=
  let chance := chance e in
  let '(status, errorMsg, responseData) :=
    if chance <? 10
    then ("error", "Random error occurred", None)
    else ("success", "",
          Some {| sd_OrderID := efr_OrderID req;
                  sd_VendorOrderID := 0;
                  sd_ProcessedAt := Time.Format_millis_zone (now_draw e) |}) in
  let processedAt := now_processed e in
  match insert_ext_order (insert_fails e) (efr_OrderID req)
          (efr_DestinationPhone req) (efr_Amount req) status errorMsg
          processedAt db with
  | (db', None) =>
    (db', Http.Error "Internal server error" Go.StatusInternalServerError)
  | (db', Some id) =>
    let responseData :=
      if (status =? "success")%string
      then Some {| sd_OrderID := efr_OrderID req;
                   sd_VendorOrderID := id;
                   sd_ProcessedAt := Time.Format_millis_zone (now_reply e) |}
      else responseData in
    (db', Http.Json {| resp_Status := status;
                       resp_Error := errorMsg;
                       resp_Data := responseData |})
  end.

(** [body] is the decoded request, [None] when [Decode] fails. *)
Definition processOrder (externalIdempotencyCheck : bool) (e : Env)
    (method : Go.Method) (body : option ExternalFulfillmentRequest) (db : DB)
  : DB * Http.Reply ExternalFulfillmentResponse :=
  if negb (Go.is_post method) then
    (db, Http.Error "Method not allowed" Go.StatusMethodNotAllowed)
  else
    match body with
    | None => (db, Http.Error "Invalid request body" Go.StatusBadRequest)
    | Some req =>
      if externalIdempotencyCheck then
        match select_ext_order (select_fails e) (efr_OrderID req) db with
        | Some existingOrder => (db, Http.Json (stored_response existingOrder))
        | None => process_fresh e req db
        end
      else process_fresh e req db
    end.

End ExternalService.

(** ** [internal-order/main.go] *)

Module OrderService.

(** The double quote, for the JSON texts below. *)
Definition dq : string := String (Ascii.ascii_of_nat 34) EmptyString.

(** [fmt.Sprintf] with the payload format of [handlePaymentPaid]. *)
Definition handler_payload (order_id : string) (amount : Z)
    (destination_phone : string) : string :=
  "{" ++ dq ++ "order_id" ++ dq ++ ":" ++ dq ++ order_id ++ dq
    ++ "," ++ dq ++ "amount" ++ dq ++ ":" ++ Go.itoa amount
    ++ "," ++ dq ++ "destination_phone" ++ dq ++ ":" ++ dq
    ++ destination_phone ++ dq ++ "}".

(** [json.Marshal] of the request, on field values that need no
    escaping (identifiers, phone numbers, correlation ids). *)
Definition marshal_request (r : ExternalFulfillmentRequest) : string :=
  "{" ++ dq ++ "order-id" ++ dq ++ ":" ++ dq ++ efr_OrderID r ++ dq
    ++ "," ++ dq ++ "destination-phone-no" ++ dq ++ ":" ++ dq
    ++ efr_DestinationPhone r ++ dq
    ++ "," ++ dq ++ "amount" ++ dq ++ ":" ++ Go.itoa (efr_Amount r)
    ++ "," ++ dq ++ "correlation-id" ++ dq ++ ":" ++ dq
    ++ efr_CorrelationID r ++ dq ++ "}".

(** *** [createOrder] *)

Record CreateEnv : Type := mkCreateEnv {
  entropy : Utils.OrderEntropy;
  create_insert_fails : bool
}.

(** [None] is a handler that panicked (see [GenerateRandomOrder]). *)
Definition createOrder (e : CreateEnv) (method : Go.Method) (db : DB)
  : option (DB * Http.Reply CreateOrderResponse) :=
  if negb (Go.is_post method) then
    Some (db, Http.Error "Method not allowed" Go.StatusMethodNotAllowed)
  else
    match Utils.GenerateRandomOrder (entropy e) with
    | None => None
    | Some order =>
      match insert_order (create_insert_fails e) order db with
      | (db', true) =>
        Some (db', Http.Error "Internal server error"
                              Go.StatusInternalServerError)
      | (db', false) =>
        Some (db', Http.Json {| cor_ID := ID order;
                                cor_Status := Status order;
                                cor_Amount := Amount order;
                                cor_AdminFee := AdminFee order;
                                cor_Total := Total order;
                                cor_Operator := Operator order;
                                cor_DestinationPhone :=
                                  DestinationPhone order |})
      end
    end.

(** *** [handlePaymentPaid] *)

(** The arguments of [go processFulfillment(orderID, correlationID)]. *)
Record Task : Type := mkTask {
  task_orderID : string;
  task_correlationID : string
}.

(** What one delivery reads from outside: the generated correlation id,
    whether the update, the insert and the count report an error, and
    the server clock that stamps the inserted row. *)
Record HandlerEnv : Type := mkHandlerEnv {
  h_fresh_correlation : string;
  h_update_fails : bool;
  h_insert_fails : bool;
  h_count_fails : bool;
  h_server_now : Time.t
}.

(** [data] is the unmarshalled message, [None] when [json.Unmarshal]
    fails. The result is the new store and the goroutine started by the
    final [go] statement, if control reaches it. *)
Definition handlePaymentPaid (idempotencyCheck : bool) (e : HandlerEnv)
    (data : option PaymentPaidMessage) (db : DB) : DB * option Task :=
  match data with
  | None => (db, None)
  | Some paymentMsg =>
    let correlationID :=
      if (ppm_CorrelationID paymentMsg =? "")%string
      then h_fresh_correlation e else ppm_CorrelationID paymentMsg in
    match update_order_status (h_update_fails e) "paid"
            (ppm_OrderID paymentMsg) db with
    | (db1, true) => (db1, None)
    | (db1, false) =>
      let fulfillmentPayload :=
        handler_payload (ppm_OrderID paymentMsg) 0 "" in
      let '(db2, _) :=
        insert_attempt (h_insert_fails e) (ppm_OrderID paymentMsg) 1
                       fulfillmentPayload (h_server_now e) db1 in
      let spawn := Some (mkTask (ppm_OrderID paymentMsg) correlationID) in
      if idempotencyCheck then
        match count_attempts (h_count_fails e) (ppm_OrderID paymentMsg) db2 with
        | Some attemptCount =>
          if 1 <? attemptCount then (db2, None) else (db2, spawn)
        | None => (db2, spawn)
        end
      else (db2, spawn)
    end
  end.

(** *** [processFulfillment] *)

(** What one dispatch reads from outside: whether each statement
    reports an error, the server clock that stamps the inserted row and
    the answer of the outbound call. *)
Record DispatchEnv : Type := mkDispatchEnv {
  d_select_fails : bool;
  d_count_fails : bool;
  d_insert_fails : bool;
  d_server_now : Time.t;
  d_post : Httpclient.PostResult;
  d_update_fails : bool
}.

(** The result is the new store and the request posted to
    [/process-order], if control reaches the call. *)
Definition processFulfillment (e : DispatchEnv) (orderID correlationID : string)
    (db : DB) : DB * option ExternalFulfillmentRequest :=
  match select_order (d_select_fails e) orderID db with
  | None => (db, None)
  | Some (order_ID, order_Amount, order_DestinationPhone) =>
    let fulfillmentReq :=
      {| efr_OrderID := order_ID;
         efr_DestinationPhone := order_DestinationPhone;
         efr_Amount := order_Amount;
         efr_CorrelationID := correlationID |} in
    let attemptNumber :=
      match count_attempts (d_count_fails e) orderID db with
      | None => 1
      | Some n => n + 1
      end in
    let payloadStr := marshal_request fulfillmentReq in
    let '(db1, _) :=
      insert_attempt (d_insert_fails e) orderID attemptNumber payloadStr
                     (d_server_now e) db in
    match d_post e with
    | Httpclient.PostError _ => (db1, Some fulfillmentReq)
    | Httpclient.PostResponse code =>
      if code =? Go.StatusOK then
        let '(db2, _) :=
          update_order_status (d_update_fails e) "fulfilment" orderID db1 in
        (db2, Some fulfillmentReq)
      else (db1, Some fulfillmentReq)
    end
  end.

(** *** The service as a sequential machine

    Deliveries are handled one after the other; a goroutine started by
    a handler waits in [goroutines] until the scheduler picks it, at
    any later point and in any order. [dispatched] and [posted] record
    what has been started and what has been sent so far. *)

Record Service : Type := mkService {
  store : DB;
  goroutines : list Task;
  dispatched : list Task;
  posted : list ExternalFulfillmentRequest
}.

Inductive Event : Type :=
| Deliver (e : HandlerEnv) (data : option PaymentPaidMessage)
| Schedule (n : nat) (e : DispatchEnv).

Definition remove_nth {A : Type} (n : nat) (l : list A) : list A :=
  firstn n l ++ skipn (S n) l.

Definition step (idempotencyCheck : bool) (s : Service) (ev : Event) : Service :=
  match ev with
  | Deliver e data =>
    match handlePaymentPaid idempotencyCheck e data (store s) with
    | (db', Some t) =>
      mkService db' (goroutines s ++ [t]) (dispatched s ++ [t]) (posted s)
    | (db', None) =>
      mkService db' (goroutines s) (dispatched s) (posted s)
    end
  | Schedule n e =>
    match nth_error (goroutines s) n with
    | None => s
    | Some t =>
      match processFulfillment e (task_orderID t) (task_correlationID t)
              (store s) with
      | (db', Some r) =>
        mkService db' (remove_nth n (goroutines s)) (dispatched s)
                  (posted s ++ [r])
      | (db', None) =>
        mkService db' (remove_nth n (goroutines s)) (dispatched s) (posted s)
      end
    end
  end.

Definition run (idempotencyCheck : bool) (s : Service) (evs : list Event)
  : Service :=
  fold_left (step idempotencyCheck) evs s.

Definition start (db : DB) : Service := mkService db [] [] [].

End OrderService.

(** ** [tooling/main.go]: the simulator *)

Module Tooling.

(** [createOrder] of the simulator: the answer of the call and, for a
    response, what decoding its body gives (the error text or the
    decoded value). The status code is not looked at. *)
Inductive CreateAnswer : Type :=
| CreateTransportError (text : string)
| CreateResponse (decoded : string + CreateOrderResponse).

Definition createOrder (a : CreateAnswer) : string + CreateOrderResponse :=
  match a with
  | CreateTransportError text => inl text
  | CreateResponse (inl text) => inl text
  | CreateResponse (inr orderResp) => inr orderResp
  end.

(** [triggerPayment]: the returned error text, [None] for nil. *)
Definition triggerPayment (a : Httpclient.PostResult) : option string :=
  match a with
  | Httpclient.PostError text =>
    if Httpclient.IsTimeoutError text then Some "timeout" else Some text
  | Httpclient.PostResponse code =>
    if negb (code =? Go.StatusOK)
    then Some ("payment service returned status: " ++ Go.itoa code)
    else None
  end.

(** What an iteration does to the outside, in program order: it
    sleeps, calls the payment service, and sends lines on [results]. *)
Inductive Effect : Type :=
| Sleep (ms : Z)
| Trigger (orderID : string) (amount : Z)
| Send (line : string).

Definition prefix_line (iteration : Z) (correlationID : string) : string :=
  "Iteration " ++ Go.itoa iteration ++ " [" ++ correlationID ++ "]: ".

(** The loop [for retry := 0; retry < 3; retry++] with its [break]s;
    [answers retry] is what the payment call of that round gets. The
    boolean is the final value of [success]. *)
Fixpoint payment_loop (fuel : nat) (retry : Z) (iteration : Z)
    (correlationID : string) (orderResp : CreateOrderResponse)
    (answers : Z -> Httpclient.PostResult) : list Effect * bool :=
  match fuel with
  | O => ([], false)
  | S fuel' =>
    if retry <? 3 then
      let wait := if 0 <? retry then [Sleep 100] else [] in
      let call := [Trigger (cor_ID orderResp) (cor_Total orderResp)] in
      match triggerPayment (answers retry) with
      | None =>
        ((wait ++ call
            ++ [Send (prefix_line iteration correlationID
                        ++ "SUCCESS - Order: " ++ cor_ID orderResp
                        ++ ", Amount: " ++ Go.itoa (cor_Total orderResp))])%list,
         true)
      | Some err =>
        if Go.contains err "timeout" then
          let report :=
            if retry =? 2
            then [Send (prefix_line iteration correlationID
                          ++ "TIMEOUT after 3 retries - Order: "
                          ++ cor_ID orderResp)]
            else [] in
          let '(rest, success) :=
            payment_loop fuel' (retry + 1) iteration correlationID
                         orderResp answers in
          ((wait ++ call ++ report ++ rest)%list, success)
        else
          ((wait ++ call
              ++ [Send (prefix_line iteration correlationID
                          ++ "FAILED payment - " ++ err)])%list,
           false)
      end
    else ([], false)
  end.

Definition runSimulationIteration (iteration : Z) (correlationID : string)
    (created : CreateAnswer) (answers : Z -> Httpclient.PostResult)
  : list Effect :=
  match createOrder created with
  | inl err =>
    [Send (prefix_line iteration correlationID
             ++ "FAILED to create order - " ++ err)]
  | inr orderResp =>
    let '(looped, success) :=
      payment_loop 3 0 iteration correlationID orderResp answers in
    Sleep 100 :: (looped
      ++ (if negb success
          then [Send (prefix_line iteration correlationID
                        ++ "FAILED - Order: " ++ cor_ID orderResp)]
          else []))%list
  end.

(** The lines sent on [results] and the number of payment calls. *)
Definition sent (l : list Effect) : list string :=
  flat_map (fun x => match x with Send line => [line] | _ => [] end) l.

Definition calls (l : list Effect) : nat :=
  List.length (filter (fun x => match x with Trigger _ _ => true
                                        | _ => false end) l).

(** The counting loop of [runSimulator] over the received lines:
    [(successCount, timeoutCount)]. *)
Definition tally (lines : list string) : Z * Z :=
  fold_left
    (fun '(successCount, timeoutCount) result =>
       if Go.contains result "SUCCESS" then (successCount + 1, timeoutCount)
       else if Go.contains result "TIMEOUT"
            then (successCount, timeoutCount + 1)
            else (successCount, timeoutCount))
    lines (0, 0).

End Tooling.

(** ** Vocabulary of the properties *)

Module Spec.

(** The fixed operator mapping, as a relation between an operator and
    its fee. *)
Definition operator_fee (operator : string) (fee : Z) : Prop :=
  (operator = "indosat" /\ fee = 100)
  \/ (operator = "xl" /\ fee = 200)
  \/ (operator = "three" /\ fee = 300).

(** A freshly generated order: the arithmetic of its amounts, the
    operator mapping, the amount set and the initial status. *)
Definition fresh_order (amount admin_fee total : Z) (operator status : string)
  : Prop :=
  total = amount + admin_fee
  /\ operator_fee operator admin_fee
  /\ In amount [1000; 2000; 3000; 4000; 5000; 6000; 7000; 8000; 9000]
  /\ status = "pending".

(** *** Payment service *)

Definition publishes (l : list PaymentService.Effect) : nat :=
  List.length (filter (fun x => match x with
                                | PaymentService.Publish _ _ _ => true
                                | _ => false end) l).

Definition failed_publishes (l : list PaymentService.Effect) : nat :=
  List.length (filter (fun x => match x with
                                | PaymentService.Publish _ _ failed => failed
                                | _ => false end) l).

Definition upserts (l : list PaymentService.Effect) : nat :=
  List.length (filter (fun x => match x with
                                | PaymentService.Exec_upsert _ _ => true
                                | _ => false end) l).

Definition failed_upserts (l : list PaymentService.Effect) : nat :=
  List.length (filter (fun x => match x with
                                | PaymentService.Exec_upsert _ failed => failed
                                | _ => false end) l).

Definition logged_errors (l : list PaymentService.Effect) : nat :=
  List.length (filter (fun x => match x with
                                | PaymentService.LogError _ => true
                                | _ => false end) l).

(** The rows of [internal_payments] held for an order. *)
Definition payments_of (order_id : string) (db : DB) : list InternalPayment :=
  filter (fun p => (ip_OrderID p =? order_id)%string) (internal_payments db).


(** One request as the payment service receives it. *)
Record PaymentCall : Type := mkPaymentCall {
  pc_env : PaymentService.Env;
  pc_method : Go.Method;
  pc_body : option PaymentRequest
}.


(** The payment service handling requests one after the other. *)
Definition serve_payments (timeoutMs : Z) (db : DB) (calls : list PaymentCall)
  : DB :=
  fold_left
    (fun db c =>
       PaymentService.store
         (PaymentService.triggerPaymentPaid timeoutMs (pc_env c) (pc_method c)
                                            (pc_body c) db))
    calls db.

(** *** Order service *)

(** The order row [b] is the row [a] with, at most, another status. *)
Definition same_but_status (a b : Order) : Prop :=
  ID b = ID a /\ Amount b = Amount a /\ AdminFee b = AdminFee a
  /\ Type_ b = Type_ a /\ Operator b = Operator a
  /\ DestinationPhone b = DestinationPhone a /\ Total b = Total a
  /\ CreatedAt b = CreatedAt a.

(** The order table [after] holds the rows of [before], in the same
    order, none added and none removed; a row other than [target] is
    untouched, and [target] differs at most in its status. *)
Definition orders_frame (target : string) (before after : DB) : Prop :=
  Forall2 (fun a b => same_but_status a b /\ (ID a <> target -> b = a))
          (internal_orders before) (internal_orders after).

(** The same over a whole run, where several orders are targeted. *)
Definition orders_kept (before after : DB) : Prop :=
  Forall2 same_but_status (internal_orders before) (internal_orders after).

(** The number of attempt rows held for an order. *)
Definition attempts (order_id : string) (db : DB) : nat :=
  List.length (attempts_of order_id db).

(** [after] is [before] with one attempt row appended for [order_id],
    numbered [number]. *)
Definition appended_attempt (order_id : string) (number : Z)
    (before after : DB) : Prop :=
  exists row,
    fulfillment_attempts after = (fulfillment_attempts before ++ [row])%list
    /\ fa_OrderID row = order_id
    /\ fa_AttemptNumber row = number.

(** The goroutines started so far for an order, those still waiting,
    and the requests posted for it. *)
Definition for_order (order_id : string) (l : list OrderService.Task) : nat :=
  List.length
    (filter (fun t => (OrderService.task_orderID t =? order_id)%string) l).

Definition dispatches (order_id : string) (s : OrderService.Service) : nat :=
  for_order order_id (OrderService.dispatched s).

Definition outbound_calls (order_id : string) (s : OrderService.Service)
  : nat :=
  List.length
    (filter (fun r => (efr_OrderID r =? order_id)%string)
            (OrderService.posted s)).

(** The deliveries of a run that carry a readable message for an
    order. *)
Definition is_delivery (order_id : string) (ev : OrderService.Event) : bool :=
  match ev with
  | OrderService.Deliver _ (Some m) => (ppm_OrderID m =? order_id)%string
  | _ => false
  end.

Definition deliveries (order_id : string) (evs : list OrderService.Event)
  : nat :=
  List.length (filter (is_delivery order_id) evs).

(** No storage statement of the message handler reports an error. *)
Definition healthy (e : OrderService.HandlerEnv) : Prop :=
  OrderService.h_update_fails e = false
  /\ OrderService.h_insert_fails e = false
  /\ OrderService.h_count_fails e = false.

Definition healthy_event (ev : OrderService.Event) : Prop :=
  match ev with
  | OrderService.Deliver e _ => healthy e
  | OrderService.Schedule _ _ => True
  end.

(** *** External fulfilment service *)

(** The order identifier has no stored outcome. *)
Definition unprocessed (order_id : string) (db : DB) : Prop :=
  forall r, In r (ext_orders db) -> eo_OrderID r <> order_id.

(** *** Simulator *)

(** The payment call of a round is classified as a timeout. *)
Definition times_out (a : Httpclient.PostResult) : Prop :=
  exists text,
    a = Httpclient.PostError text /\ Httpclient.IsTimeoutError text = true.

Definition indicator (b : bool) : nat := if b then 1%nat else 0%nat.

(** A request is posted only by a goroutine that a delivery started:
    what has been posted for an order, together with what still waits
    for it, never exceeds what has been started for it. *)
Definition accounted (o : string) (s : OrderService.Service) : Prop :=
  (outbound_calls o s + for_order o (OrderService.goroutines s)
   <= dispatches o s)%nat.

End Spec.

Import Spec.

(** ** Sample inputs

    Concrete requests, messages, clock readings and runs on which the
    properties below are exercised. *)

Definition sample_payment_env (chance : Z) : PaymentService.Env :=
  PaymentService.mkEnv "K3X9QA" chance (Time.mk 1762106523456000000 25200)
                       (fun i => i =? 1) false.

Definition sample_request : ExternalFulfillmentRequest :=
  mkExternalFulfillmentRequest "0192f3a1-7c5e-7b21-9d3e-5a1f0c2b4d6e"
                               "0815-000-0042" 5000 "K3X9QA".

(** A request served at 2025-11-03 01:02:03 +07:00 whose reply is built
    one second later. *)
Definition sample_external_env (chance : Z) : ExternalService.Env :=
  ExternalService.mkEnv "ZZ00AA" false chance
                        (Time.mk 1762106522999000000 25200)
                        (Time.mk 1762106523000000000 25200)
                        false
                        (Time.mk 1762106524000000000 25200).

Definition sample_message : PaymentPaidMessage :=
  mkPaymentPaidMessage "0192f3a1-7c5e-7b21-9d3e-5a1f0c2b4d6e" 5100
                       (Time.mk 1762106523456000000 25200) "K3X9QA".

Definition sample_handler_env : OrderService.HandlerEnv :=
  OrderService.mkHandlerEnv "ZZ00AA" false false false
                            (Time.mk 1762106523500000000 25200).

Definition sample_order : Order :=
  {| ID := "0192f3a1-7c5e-7b21-9d3e-5a1f0c2b4d6e";
     Amount := 5000; AdminFee := 100; Type_ := "phone_credit";
     Operator := "indosat"; DestinationPhone := "0815-000-0042";
     Total := 5100; Status := "pending";
     CreatedAt := Time.mk 1762106520000000000 25200 |}.

(** The store after [createOrder] has stored [sample_order]. *)
Definition sample_store : DB := fst (insert_order false sample_order created).

Definition sample_dispatch_env : OrderService.DispatchEnv :=
  OrderService.mkDispatchEnv false false false
                             (Time.mk 1762106523600000000 25200)
                             (Httpclient.PostResponse 200) false.

(** Three deliveries of the same message, the goroutine of the first
    running before the third. *)
Definition sample_run : list OrderService.Event :=
  [OrderService.Deliver sample_handler_env (Some sample_message);
   OrderService.Deliver sample_handler_env (Some sample_message);
   OrderService.Schedule 0 sample_dispatch_env;
   OrderService.Deliver sample_handler_env (Some sample_message)].

Definition sample_created : CreateOrderResponse :=
  mkCreateOrderResponse "0192f3a1-7c5e-7b21-9d3e-5a1f0c2b4d6e" "pending"
                        5000 100 5100 "indosat" "0815-000-0042".

Definition always_timing_out (retry : Z) : Httpclient.PostResult :=
  Httpclient.PostError "dial tcp 127.0.0.1:8001: i/o timeout".

(** ** [pkg/utils]: correlation ids *)

Module Correlation.

Definition charset : string := "ABCDEFGHIJKLMNOPQRSTUVWXYZ0123456789".

(** Indexing a string by byte: out of range panics ([None]). *)
Definition byte_at (s : string) (i : Z) : option ascii :=
  if i <? 0 then None else String.get (Z.to_nat i) s.

(** The loop [for i := range result]; [draws i] is what [rand.Int]
    returns in round [i] ([None] for an error, in which case the index
    falls back to [i * 17 % len(charset)]). *)
Fixpoint fill (fuel : nat) (i : Z) (draws : Z -> option Z) : option string :=
  match fuel with
  | O => Some EmptyString
  | S fuel' =>
    let idx :=
      match draws i with
      | Some v => v
      | None => Go.rem (i * 17) (Z.of_nat (String.length charset))
      end in
    match byte_at charset idx, fill fuel' (i + 1) draws with
    | Some c, Some rest => Some (String c rest)
    | _, _ => None
    end
  end.

Definition GenerateCorrelationID (draws : Z -> option Z) : option string :=
  fill 6 0 draws.

End Correlation.

(** ** [strconv.Atoi] and the configuration read by the [main]s *)

Module Config.

Definition digit_of (c : ascii) : option Z :=
  let n := Z.of_nat (nat_of_ascii c) in
  if (48 <=? n) && (n <=? 57) then Some (n - 48) else None.

Fixpoint digits (s : string) (acc : Z) : option Z :=
  match s with
  | EmptyString => Some acc
  | String c rest =>
    match digit_of c with
    | None => None
    | Some d => digits rest (acc * 10 + d)
    end
  end.

(** [strconv.Atoi] on a 64-bit [int]: an optional sign and decimal
    digits; [None] is a syntax or a range error. *)
Definition Atoi (s : string) : option Z :=
  match s with
  | EmptyString => None
  | String c rest =>
    let '(negative, body) :=
      if Ascii.eqb c "-" then (true, rest)
      else if Ascii.eqb c "+" then (false, rest)
      else (false, s) in
    match body with
    | EmptyString => None
    | _ =>
      match digits body 0 with
      | None => None
      | Some n =>
        let v := if negative then - n else n in
        if (- 2 ^ 63 <=? v) && (v <? 2 ^ 63) then Some v else None
      end
    end
  end.

(** [timeoutMs] as [main] of the payment service sets it from
    [os.Getenv("PAYMENT_TIMEOUT_MS")] (the empty text when unset). *)
Definition payment_timeoutMs (env : string) : Z :=
  let timeoutStr := if (env =? "")%string then "200" else env in
  match Atoi timeoutStr with
  | Some t => t
  | None => 200
  end.

(** [timeoutMs] as [triggerPayment] of the simulator sets it from the
    same variable. *)
Definition simulator_timeoutMs (env : string) : Z :=
  if negb (env =? "")%string then
    match Atoi env with
    | Some t => t
    | None => 200
    end
  else 200.

End Config.

(** ** [tooling/main.go]: workers and reports *)

Module Simulator.

(** [chunkSize] of [runSimulator]. *)
Definition chunkSize (count : Z) : Z :=
  let c := Z.quot count 4 in
  if negb (Z.rem count 4 =? 0) then c + 1 else c.

(** The loop [for j := start; j < end; j++] of one worker: the
    iteration numbers [j + 1] it runs, in order. *)
Fixpoint worker_loop (fuel : nat) (j end_ : Z) : list Z :=
  match fuel with
  | O => []
  | S fuel' =>
    if j <? end_ then (j + 1) :: worker_loop fuel' (j + 1) end_ else []
  end.

(** Worker [i] of the four. *)
Definition worker (count i : Z) : list Z :=
  let start := i * chunkSize count in
  let end0 := start + chunkSize count in
  let end_ := if end0 >? count then count else end0 in
  worker_loop (Z.to_nat (end_ - start)) start end_.

Definition workers (count : Z) : list (list Z) :=
  map (worker count) [0; 1; 2; 3].

(** [truncateString]; [None] is the panic of a negative slice bound. *)
Definition truncateString (s : string) (maxLen : Z) : option string :=
  if Z.of_nat (String.length s) <=? maxLen then Some s
  else if maxLen - 3 <? 0 then None
  else Some (String.substring 0 (Z.to_nat (maxLen - 3)) s ++ "...").

(** The scanning loop of [printExternalSettlement] over the rows of the
    query, a row being [None] when [Scan] fails on it:
    [(totalSettledAmount, totalFailedAmount, orders)]. *)
Definition settle (rows : list (option ExtOrder)) : Z * Z * list ExtOrder :=
  fold_left
    (fun '(totalSettledAmount, totalFailedAmount, orders) row =>
       match row with
       | None => (totalSettledAmount, totalFailedAmount, orders)
       | Some order =>
         if (eo_Status order =? "success")%string
         then (totalSettledAmount + eo_Amount order, totalFailedAmount,
               (orders ++ [order])%list)
         else (totalSettledAmount, totalFailedAmount + eo_Amount order,
               (orders ++ [order])%list)
       end)
    rows (0, 0, []).

End Simulator.

(** ** Vocabulary of the further properties *)

Module Further.

(** What [PRIMARY KEY] guarantees of [internal_orders]. *)
Definition unique_ids (db : DB) : Prop :=
  NoDup (map ID (internal_orders db)).

(** Every row of the order table with this id has this status. *)
Definition status_is (id status : string) (db : DB) : Prop :=
  forall o, In o (internal_orders db) -> ID o = id -> Status o = status.

(** The attempt log of [after] extends that of [before]. *)
Definition log_extends (before after : DB) : Prop :=
  exists more,
    fulfillment_attempts after = (fulfillment_attempts before ++ more)%list.

(** A stored outcome is either a success without error text or the
    random error with its fixed text. *)
Definition outcome_shape (r : ExtOrder) : Prop :=
  (eo_Status r = "success" /\ eo_Error r = "")
  \/ (eo_Status r = "error" /\ eo_Error r = "Random error occurred").

Definition outcomes_shaped (db : DB) : Prop :=
  Forall outcome_shape (ext_orders db).

(** The same of a reply, whose data is present exactly on success. *)
Definition reply_shape (r : ExternalFulfillmentResponse) : Prop :=
  (resp_Status r = "success" /\ resp_Error r = "" /\ resp_Data r <> None)
  \/ (resp_Status r = "error" /\ resp_Error r = "Random error occurred"
      /\ resp_Data r = None).

(** At most one stored outcome per order, and identifiers handed out
    by AUTO_INCREMENT: all below the counter and pairwise distinct. *)
Definition one_outcome_per_order (db : DB) : Prop :=
  NoDup (map eo_OrderID (ext_orders db)).

Definition outcome_ids_fresh (db : DB) : Prop :=
  Forall (fun r => eo_ID r < ext_orders_seq db) (ext_orders db)
  /\ NoDup (map eo_ID (ext_orders db)).

(** The stored outcomes of an order. *)
Definition outcomes_of (order_id : string) (db : DB) : list ExtOrder :=
  filter (fun r => (eo_OrderID r =? order_id)%string) (ext_orders db).

(** One request as the external service receives it. *)
Record ExternalCall : Type := mkExternalCall {
  xc_env : ExternalService.Env;
  xc_method : Go.Method;
  xc_body : option ExternalFulfillmentRequest
}.

(** The external service handling requests one after the other. *)
Definition serve_external (toggle : bool) (db : DB)
    (calls : list ExternalCall) : DB :=
  fold_left
    (fun db c =>
       fst (ExternalService.processOrder toggle (xc_env c) (xc_method c)
                                         (xc_body c) db))
    calls db.

(** A call whose lookup goes through. *)
Definition lookup_healthy (c : ExternalCall) : Prop :=
  ExternalService.select_fails (xc_env c) = false.

(** A POST with a readable body for the order whose insert goes
    through. *)
Definition inserts_for (order_id : string) (c : ExternalCall) : bool :=
  match xc_method c, xc_body c with
  | Go.POST, Some req =>
    (efr_OrderID req =? order_id)%string
    && negb (ExternalService.insert_fails (xc_env c))
  | _, _ => false
  end.

(** The tables a service does not own. *)
Definition payment_foreign (db : DB)
  : list Order * list ExtOrder * Z * list FulfillmentAttempt * Z :=
  (internal_orders db, ext_orders db, ext_orders_seq db,
   fulfillment_attempts db, fulfillment_attempts_seq db).

Definition external_foreign (db : DB)
  : list Order * list InternalPayment * Z * list FulfillmentAttempt * Z :=
  (internal_orders db, internal_payments db, internal_payments_seq db,
   fulfillment_attempts db, fulfillment_attempts_seq db).

Definition order_foreign (db : DB)
  : list InternalPayment * Z * list ExtOrder * Z :=
  (internal_payments db, internal_payments_seq db,
   ext_orders db, ext_orders_seq db).

(** Every character of the text is one of the set. *)
Fixpoint all_in (set : string) (s : string) : bool :=
  match s with
  | EmptyString => true
  | String c rest =>
    (match String.index 0 (String c EmptyString) set with
     | Some _ => true
     | None => false
     end) && all_in set rest
  end.

(** The iteration numbers 1, 2, ..., count. *)
Definition numbered (count : Z) : list Z :=
  map Z.of_nat (seq 1 (Z.to_nat count)).

Definition amounts_sum (l : list ExtOrder) : Z :=
  fold_right (fun r acc => eo_Amount r + acc) 0 l.

(** The rows on which [Scan] went through, in order. *)
Definition scanned {A : Type} (rows : list (option A)) : list A :=
  flat_map (fun r => match r with Some x => [x] | None => [] end) rows.

End Further.

Import Further.

(** ** Vocabulary and sample inputs of the further properties *)

Definition sample_create_env : OrderService.CreateEnv :=
  OrderService.mkCreateEnv
    (Utils.mkOrderEntropy (Time.mk 1762106523456000001 25200)
                          (Time.mk 1762106523456000005 25200)
                          (Time.mk 1762106523456000098 25200)
                          (Some "0192f3a1-7c5e-7b21-9d3e-5a1f0c2b4d6e")
                          (Time.mk 1762106523456000200 25200))
    false.

(** The status of [b] is that of [a] or one of the two values the
    service writes. *)
Definition status_written (a b : Order) : Prop :=
  Status b = Status a \/ Status b = "paid" \/ Status b = "fulfilment".

(** Identifiers handed out by AUTO_INCREMENT: all below the counter
    and pairwise distinct. *)
Definition attempt_ids_fresh (db : DB) : Prop :=
  Forall (fun a => fa_ID a < fulfillment_attempts_seq db)
         (fulfillment_attempts db)
  /\ NoDup (map fa_ID (fulfillment_attempts db)).

Definition sample_external_calls : list ExternalCall :=
  [mkExternalCall (sample_external_env 50) Go.POST (Some sample_request);
   mkExternalCall (sample_external_env 3) Go.POST (Some sample_request);
   mkExternalCall (sample_external_env 99) Go.POST (Some sample_request)].

(** The text holds no occurrence of the character. *)
Fixpoint lacks (c : ascii) (s : string) : bool :=
  match s with
  | EmptyString => true
  | String a rest => negb (Ascii.eqb a c) && lacks c rest
  end.

Definition counts_success (line : string) : bool := Go.contains line "SUCCESS".

Definition counts_timeout (line : string) : bool :=
  negb (Go.contains line "SUCCESS") && Go.contains line "TIMEOUT".

(** ** [processFulfillment], statement by statement

    The goroutine issues its statements one at a time on the shared
    connection pool, with no transaction around them: other handlers
    and goroutines may change the store between any two. *)

Module DispatchSteps.

(** Lines 341-353: the lookup of the order and the request built from
    it; [None] when the lookup fails and the goroutine returns. *)
Definition request_of (e : OrderService.DispatchEnv)
    (orderID correlationID : string) (db : DB)
  : option ExternalFulfillmentRequest :=
  match select_order (OrderService.d_select_fails e) orderID db with
  | None => None
  | Some (order_ID, order_Amount, order_DestinationPhone) =>
    Some {| efr_OrderID := order_ID;
            efr_DestinationPhone := order_DestinationPhone;
            efr_Amount := order_Amount;
            efr_CorrelationID := correlationID |}
  end.

(** Lines 355-361: [attemptNumber], from the count on the store as it
    is when the count runs. *)
Definition number_of (e : OrderService.DispatchEnv) (orderID : string)
    (db : DB) : Z :=
  match count_attempts (OrderService.d_count_fails e) orderID db with
  | None => 1
  | Some n => n + 1
  end.

(** Lines 365-371: the insert of the attempt row, on the store as it
    is when the insert runs. *)
Definition record (e : OrderService.DispatchEnv) (orderID : string)
    (fulfillmentReq : ExternalFulfillmentRequest) (attemptNumber : Z)
    (db : DB) : DB :=
  fst (insert_attempt (OrderService.d_insert_fails e) orderID attemptNumber
         (OrderService.marshal_request fulfillmentReq)
         (OrderService.d_server_now e) db).

(** Lines 375-388: the outbound call and, on status 200, the update. *)
Definition conclude (e : OrderService.DispatchEnv) (orderID : string)
    (db : DB) : DB :=
  match OrderService.d_post e with
  | Httpclient.PostError _ => db
  | Httpclient.PostResponse code =>
    if code =? Go.StatusOK then
      fst (update_order_status (OrderService.d_update_fails e) "fulfilment"
                               orderID db)
    else db
  end.

(** The goroutine with the rest of the service running in between:
    [others1] is what the other handlers and goroutines do to the store
    between the lookup and the count, [others2] between the count and
    the insert, [others3] between the insert and the update. *)
Definition interleaved (e : OrderService.DispatchEnv)
    (orderID correlationID : string) (others1 others2 others3 : DB -> DB)
    (db : DB) : DB * option ExternalFulfillmentRequest :=
  match request_of e orderID correlationID db with
  | None => (db, None)
  | Some fulfillmentReq =>
    let at_count := others1 db in
    let attemptNumber := number_of e orderID at_count in
    let at_insert := others2 at_count in
    let inserted := record e orderID fulfillmentReq attemptNumber at_insert in
    (conclude e orderID (others3 inserted), Some fulfillmentReq)
  end.

(** Nothing in between. *)
Definition undisturbed (db : DB) : DB := db.

End DispatchSteps.

(** ** Vocabulary of the dispatch accounting *)

Module Accounting.

(** The dispatch's lookup of the order reports no error. *)
Definition finds_order (ev : OrderService.Event) : Prop :=
  match ev with
  | OrderService.Deliver _ _ => True
  | OrderService.Schedule _ e => OrderService.d_select_fails e = false
  end.

(** Every goroutine started for the order has posted its request or
    still waits to run. *)
Definition balanced (o : string) (s : OrderService.Service) : Prop :=
  (outbound_calls o s + for_order o (OrderService.goroutines s))%nat
  = dispatches o s.

(** A handler whose insert of the attempt row reports an error, and one
    whose update of the order does. *)
Definition failing_insert_env : OrderService.HandlerEnv :=
  OrderService.mkHandlerEnv "ZZ00AA" false true false
                            (Time.mk 1762106523500000000 25200).

Definition failing_update_env : OrderService.HandlerEnv :=
  OrderService.mkHandlerEnv "ZZ00AA" true false false
                            (Time.mk 1762106523500000000 25200).

(** Three deliveries of the same message, then the goroutines they
    started, each run once. *)
Definition drained_run : list OrderService.Event :=
  [OrderService.Deliver sample_handler_env (Some sample_message);
   OrderService.Deliver sample_handler_env (Some sample_message);
   OrderService.Deliver sample_handler_env (Some sample_message);
   OrderService.Schedule 0 sample_dispatch_env;
   OrderService.Schedule 0 sample_dispatch_env;
   OrderService.Schedule 0 sample_dispatch_env].

(** Two deliveries whose insert fails, then their goroutines. *)
Definition failing_insert_run : list OrderService.Event :=
  [OrderService.Deliver failing_insert_env (Some sample_message);
   OrderService.Deliver failing_insert_env (Some sample_message);
   OrderService.Schedule 0 sample_dispatch_env;
   OrderService.Schedule 0 sample_dispatch_env].

(** Two deliveries, the update of the first failing. *)
Definition failing_update_run : list OrderService.Event :=
  [OrderService.Deliver failing_update_env (Some sample_message);
   OrderService.Deliver sample_handler_env (Some sample_message)].

(** The store after one delivery of the sample message, and after
    two. *)
Definition after_one_delivery : DB :=
  fst (OrderService.handlePaymentPaid true sample_handler_env
         (Some sample_message) sample_store).

Definition after_two_deliveries : DB :=
  fst (OrderService.handlePaymentPaid true sample_handler_env
         (Some sample_message) after_one_delivery).

(** What a delivery of the sample message that is handled while a
    goroutine is between two of its statements does to the store. *)
Definition delivery_in_between (db : DB) : DB :=
  fst (OrderService.handlePaymentPaid true sample_handler_env
         (Some sample_message) db).

End Accounting.

Import Accounting.

(** * Properties *)

(** ** Helper facts on the Go runtime model *)

Lemma index_In {A : Type} (l : list A) (i : Z) (x : A) :
  Go.index l i = Some x -> In x l.
Proof.
  unfold Go.index. destruct (i <? 0); [discriminate|].
  apply nth_error_In.
Qed.

Lemma index_total {A : Type} (l : list A) (i : Z) :
  0 <= i < Z.of_nat (List.length l) -> exists x, Go.index l i = Some x.
Proof.
  intros [Hlo Hhi]. unfold Go.index.
  destruct (Z.ltb_spec i 0) as [Hneg|_]; [lia|].
  destruct (nth_error l (Z.to_nat i)) as [x|] eqn:E.
  - now exists x.
  - apply nth_error_None in E. lia.
Qed.

Lemma operator_fee_adminFee (operator : string) :
  In operator Utils.operators ->
  operator_fee operator (Utils.adminFee_of operator).
Proof.
  unfold Utils.operators, operator_fee. simpl.
  intros [<-|[<-|[<-|[]]]]; cbn; intuition.
Qed.

(** ** C7: generated orders *)

(** C7. Every order that [GenerateRandomOrder] produces has
    total = amount + admin_fee, the admin fee of its operator under the
    fixed mapping (indosat 100, xl 200, three 300), an operator of that
    set, an amount among 1000, 2000, ..., 9000 and the status pending;
    the response of [createOrder] reports the same values; and with a
    clock at or after the epoch an order is always produced. *)
Theorem C7_created_order_well_formed (e : Utils.OrderEntropy) :
  (forall o, Utils.GenerateRandomOrder e = Some o ->
     fresh_order (Amount o) (AdminFee o) (Total o) (Operator o) (Status o))
  /\ (forall c db db' r,
        OrderService.entropy c = e ->
        OrderService.createOrder c Go.POST db = Some (db', Http.Json r) ->
        fresh_order (cor_Amount r) (cor_AdminFee r) (cor_Total r)
                    (cor_Operator r) (cor_Status r))
  /\ (0 <= Time.UnixNano (Utils.now_operator e) ->
      0 <= Time.UnixNano (Utils.now_amount e) ->
      exists o, Utils.GenerateRandomOrder e = Some o).
Proof.
  assert (G : forall o, Utils.GenerateRandomOrder e = Some o ->
     fresh_order (Amount o) (AdminFee o) (Total o) (Operator o) (Status o)).
  { intros o. unfold Utils.GenerateRandomOrder.
    destruct (Go.index Utils.operators _) as [operator|] eqn:Eop;
      [|discriminate].
    destruct (Go.index Utils.amounts _) as [amount|] eqn:Eam;
      [|discriminate].
    intros [= <-]. cbn [Amount AdminFee Total Operator Status].
    repeat split.
    - apply operator_fee_adminFee. eapply index_In; eassumption.
    - apply index_In in Eam. exact Eam. }
  split; [exact G|split].
  - intros c db db' r Hc. unfold OrderService.createOrder. cbn [Go.is_post negb].
    rewrite Hc.
    destruct (Utils.GenerateRandomOrder e) as [o|] eqn:Eo; [|discriminate].
    destruct (insert_order _ o db) as [db1 [|]]; [discriminate|].
    intros [= _ <-]. cbn. now apply G.
  - intros Hop Ham. unfold Utils.GenerateRandomOrder, Go.rem.
    destruct (index_total Utils.operators
                (Z.rem (Time.UnixNano (Utils.now_operator e)) 3))
      as [operator ->].
    { pose proof (Z.rem_bound_pos _ 3 Hop ltac:(lia)). cbn. lia. }
    destruct (index_total Utils.amounts
                (Z.rem (Time.UnixNano (Utils.now_amount e)) 9))
      as [amount ->].
    { pose proof (Z.rem_bound_pos _ 9 Ham ltac:(lia)). cbn. lia. }
    eauto.
Qed.

Lemma C7_witness :
  exists o,
    Utils.GenerateRandomOrder
      (Utils.mkOrderEntropy (Time.mk 1762106523456000001 25200)
                            (Time.mk 1762106523456000005 25200)
                            (Time.mk 1762106523456000098 25200)
                            (Some "0192f3a1-7c5e-7b21-9d3e-5a1f0c2b4d6e")
                            (Time.mk 1762106523456000200 25200)) = Some o
    /\ fresh_order (Amount o) (AdminFee o) (Total o) (Operator o) (Status o).
Proof.
  destruct (C7_created_order_well_formed
              (Utils.mkOrderEntropy (Time.mk 1762106523456000001 25200)
                 (Time.mk 1762106523456000005 25200)
                 (Time.mk 1762106523456000098 25200)
                 (Some "0192f3a1-7c5e-7b21-9d3e-5a1f0c2b4d6e")
                 (Time.mk 1762106523456000200 25200)))
    as [G [_ T]].
  destruct T as [o Ho]; [cbn; lia | cbn; lia |].
  exists o. split; [exact Ho | apply G; exact Ho].
Defined.

(** ** Payment service *)

Ltac count_effects :=
  unfold publishes, failed_publishes, upserts, failed_upserts, logged_errors;
  repeat (rewrite ?filter_app, ?length_app; cbn [filter List.length app]).

Lemma publish_loop_publishes (fuel : nat) (i c : Z) m e :
  fuel = Z.to_nat (c - i) ->
  publishes (PaymentService.publish_loop fuel i c m e) = fuel.
Proof.
  revert i. induction fuel as [|fuel IH]; intros i Hf; [reflexivity|].
  cbn [PaymentService.publish_loop].
  destruct (Z.ltb_spec i c) as [_|Hge]; [|lia].
  specialize (IH (i + 1) ltac:(lia)). revert IH.
  destruct (PaymentService.publish_fails e i); count_effects; intros; lia.
Qed.

Lemma publish_loop_logged (fuel : nat) (i c : Z) m e :
  logged_errors (PaymentService.publish_loop fuel i c m e)
  = failed_publishes (PaymentService.publish_loop fuel i c m e)
  /\ upserts (PaymentService.publish_loop fuel i c m e) = 0%nat
  /\ failed_upserts (PaymentService.publish_loop fuel i c m e) = 0%nat.
Proof.
  revert i. induction fuel as [|fuel IH]; intros i; [repeat split|].
  cbn [PaymentService.publish_loop].
  destruct (i <? c); [|repeat split].
  specialize (IH (i + 1)). revert IH.
  destruct (PaymentService.publish_fails e i); count_effects; intros; lia.
Qed.

(** C8. A POST with a decodable body is always answered with status 200
    and the body [{status: success}], whatever the publishes and the
    storage statement report. The handler sleeps the configured delay
    first, attempts each of the drawn number of publishes once and the
    storage statement once (nothing is retried), and logs one error per
    failed publish and per failed storage statement. *)
Theorem C8_trigger_replies_success (timeoutMs : Z) (e : PaymentService.Env)
    (req : PaymentRequest) (db : DB) :
  let out :=
    PaymentService.triggerPaymentPaid timeoutMs e Go.POST (Some req) db in
  PaymentService.reply out = Http.Json {| presp_Status := "success" |}
  /\ Http.status_code (PaymentService.reply out) = 200
  /\ (exists rest,
        PaymentService.effects out = PaymentService.Sleep timeoutMs :: rest)
  /\ publishes (PaymentService.effects out)
     = Z.to_nat (Utils.DeterminePublishCount (PaymentService.chance e))
  /\ upserts (PaymentService.effects out) = 1%nat
  /\ logged_errors (PaymentService.effects out)
     = (failed_publishes (PaymentService.effects out)
        + failed_upserts (PaymentService.effects out))%nat.
Proof.
  cbv zeta. unfold PaymentService.triggerPaymentPaid. cbn [Go.is_post negb].
  destruct (upsert_payment _ _ _ _ db) as [db' err].
  cbn [PaymentService.reply PaymentService.effects Http.status_code].
  set (c := Utils.DeterminePublishCount (PaymentService.chance e)).
  set (m := {| ppm_OrderID := pr_OrderID req |}).
  pose proof (publish_loop_publishes (Z.to_nat c) 0 c m e
                ltac:(f_equal; lia)) as Hp.
  destruct (publish_loop_logged (Z.to_nat c) 0 c m e) as [Hl [Hu Hf]].
  repeat split; [eauto| | |].
  - revert Hp. destruct err; count_effects; intros; lia.
  - revert Hu. destruct err; count_effects; intros; lia.
  - revert Hl Hf. destruct err; count_effects; intros; lia.
Qed.

Lemma reassign_order_id_same (order_id : string) (p : InternalPayment) :
  reassign_order_id order_id p = p.
Proof.
  unfold reassign_order_id. destruct p as [i o a t]; cbn.
  destruct (o =? order_id)%string; reflexivity.
Qed.




Lemma upsert_keeps fails order_id paid_amount paid_at db (o : string) :
  has_payment o db = true ->
  has_payment o (fst (upsert_payment fails order_id paid_amount paid_at db))
  = true.
Proof.
  intros H. unfold upsert_payment.
  destruct fails; [exact H|].
  destruct (has_payment order_id db).
  - unfold has_payment in *. cbn.
    now rewrite (map_ext _ (fun p => p) (reassign_order_id_same order_id)),
      map_id.
  - unfold has_payment in *. cbn. rewrite existsb_app, H. reflexivity.
Qed.


Lemma trigger_store timeoutMs e method body db :
  PaymentService.store
    (PaymentService.triggerPaymentPaid timeoutMs e method body db)
  = match method, body with
    | Go.POST, Some req =>
      fst (upsert_payment (PaymentService.store_fails e) (pr_OrderID req)
                          (pr_PaidAmount req) (PaymentService.now_paid e) db)
    | _, _ => db
    end.
Proof.
  unfold PaymentService.triggerPaymentPaid.
  destruct method; cbn [Go.is_post negb PaymentService.store]; try reflexivity.
  destruct body as [req|]; [|reflexivity].
  now destruct (upsert_payment _ _ _ _ db).
Qed.


Lemma trigger_keeps timeoutMs c db (o : string) :
  has_payment o db = true ->
  has_payment o
    (PaymentService.store
       (PaymentService.triggerPaymentPaid timeoutMs (pc_env c) (pc_method c)
                                          (pc_body c) db)) = true.
Proof.
  intros H. rewrite trigger_store.
  destruct (pc_method c); try exact H.
  destruct (pc_body c); [now apply upsert_keeps | exact H].
Qed.





(** ** C3: one payment record per order *)



(** ** External fulfilment service *)

Lemma unprocessed_lookup (fails : bool) (order_id : string) (db : DB) :
  unprocessed order_id db -> select_ext_order fails order_id db = None.
Proof.
  intros U. unfold select_ext_order. destruct fails; [reflexivity|].
  destruct (find _ (ext_orders db)) as [r|] eqn:F; [|reflexivity].
  apply find_some in F as [Hin Heq]. apply String.eqb_eq in Heq.
  now apply U in Hin.
Qed.

(** With the toggle on, a request for an order that has a stored
    outcome, whose lookup goes through, is answered from the first
    stored row alone: the store is left as it is and neither the draw
    nor any clock reading of the request has a part in the answer. *)
Lemma stored_outcome_replayed (e : ExternalService.Env)
    (req : ExternalFulfillmentRequest) (db : DB) (row : ExtOrder) :
  select_ext_order (ExternalService.select_fails e) (efr_OrderID req) db
  = Some row ->
  ExternalService.processOrder true e Go.POST (Some req) db
  = (db, Http.Json (ExternalService.stored_response row)).
Proof.
  intros H. unfold ExternalService.processOrder. cbn [Go.is_post negb].
  now rewrite H.
Qed.

Lemma replies_agree_after_first (e1 e2 : ExternalService.Env)
    (r1 r2 : ExternalFulfillmentRequest) (db : DB) (row : ExtOrder) :
  efr_OrderID r1 = efr_OrderID r2 ->
  select_ext_order false (efr_OrderID r1) db = Some row ->
  ExternalService.select_fails e1 = false ->
  ExternalService.select_fails e2 = false ->
  ExternalService.processOrder true e1 Go.POST (Some r1) db
  = ExternalService.processOrder true e2 Go.POST (Some r2) db.
Proof.
  intros Hid H H1 H2.
  rewrite (stored_outcome_replayed e1 r1 db row) by now rewrite H1.
  rewrite (stored_outcome_replayed e2 r2 db row)
    by now rewrite H2, <- Hid.
  reflexivity.
Qed.

Lemma unprocessed_is_fresh (toggle : bool) (e : ExternalService.Env)
    (req : ExternalFulfillmentRequest) (db : DB) :
  unprocessed (efr_OrderID req) db ->
  ExternalService.processOrder toggle e Go.POST (Some req) db
  = ExternalService.process_fresh e req db.
Proof.
  intros U. unfold ExternalService.processOrder. cbn [Go.is_post negb].
  rewrite (unprocessed_lookup _ _ _ U). now destruct toggle.
Qed.

(** ** C10: the server-side toggle without a stored outcome *)

(** C10. For a request whose order identifier has no stored outcome,
    the reply and the resulting store (hence the inserted row) are the
    same with the toggle on and off, under the same draw, clock
    readings and storage behaviour; both are those of the fresh
    processing path. *)
Theorem C10_toggle_needs_stored_outcome (e : ExternalService.Env)
    (method : Go.Method) (req : ExternalFulfillmentRequest) (db : DB) :
  unprocessed (efr_OrderID req) db ->
  ExternalService.processOrder true e method (Some req) db
  = ExternalService.processOrder false e method (Some req) db
  /\ ExternalService.processOrder true e Go.POST (Some req) db
     = ExternalService.process_fresh e req db.
Proof.
  intros U. unfold ExternalService.processOrder.
  rewrite (unprocessed_lookup _ _ _ U).
  split; [|reflexivity].
  destruct (negb (Go.is_post method)); reflexivity.
Qed.

Lemma C10_witness :
  ExternalService.processOrder true (sample_external_env 50) Go.POST
                               (Some sample_request) created
  = ExternalService.processOrder false (sample_external_env 50) Go.POST
                                 (Some sample_request) created
  /\ ExternalService.processOrder true (sample_external_env 50) Go.POST
                                  (Some sample_request) created
     = ExternalService.process_fresh (sample_external_env 50) sample_request
                                     created.
Proof.
  apply (C10_toggle_needs_stored_outcome (sample_external_env 50) Go.POST
                                         sample_request created).
  unfold unprocessed. cbn. intros r [].
Defined.

Lemma find_last {A : Type} (f : A -> bool) (l : list A) (x : A) :
  find f l = None -> f x = true -> find f (l ++ [x]) = Some x.
Proof.
  induction l as [|a l IH]; cbn; intros Hn Hx.
  - now rewrite Hx.
  - destruct (f a); [discriminate | now apply IH].
Qed.

(** ** C2: replay of a stored outcome *)

(** C2. With the toggle on, the first successful processing of an order
    and a later request for the same order are answered with the same
    status and error text, and the later request leaves the store as it
    is; but the first reply carries the clock read when the reply is
    built, while the later one carries the stored [processed_at], so
    the two payloads differ as soon as those two readings are printed
    differently. *)
Theorem C2_first_reply_not_replayed (e1 e2 : ExternalService.Env)
    (req : ExternalFulfillmentRequest) (db : DB) :
  unprocessed (efr_OrderID req) db ->
  10 <= ExternalService.chance e1 ->
  ExternalService.insert_fails e1 = false ->
  ExternalService.select_fails e2 = false ->
  Time.Format_millis_zone (ExternalService.now_reply e1)
  <> Time.Format_millis_zone
       (timestamp_column (ExternalService.now_processed e1)) ->
  exists db1 first second,
    ExternalService.processOrder true e1 Go.POST (Some req) db
    = (db1, Http.Json first)
    /\ ExternalService.processOrder true e2 Go.POST (Some req) db1
       = (db1, Http.Json second)
    /\ resp_Status first = resp_Status second
    /\ resp_Error first = resp_Error second
    /\ first <> second.
Proof.
  intros U Hc Hi Hs Hfmt.
  set (row := {| eo_ID := ext_orders_seq db;
                 eo_OrderID := efr_OrderID req;
                 eo_DestinationPhone := efr_DestinationPhone req;
                 eo_Amount := efr_Amount req;
                 eo_Status := "success";
                 eo_Error := "";
                 eo_ProcessedAt :=
                   timestamp_column (ExternalService.now_processed e1) |}).
  assert (exists db1,
    ExternalService.processOrder true e1 Go.POST (Some req) db
    = (db1, Http.Json
              {| resp_Status := "success"; resp_Error := "";
                 resp_Data :=
                   Some {| sd_OrderID := efr_OrderID req;
                           sd_VendorOrderID := ext_orders_seq db;
                           sd_ProcessedAt :=
                             Time.Format_millis_zone
                               (ExternalService.now_reply e1) |} |})
    /\ select_ext_order false (efr_OrderID req) db1 = Some row)
    as [db1 [H1 Hrow]].
  { rewrite (unprocessed_is_fresh true e1 req db U).
    unfold ExternalService.process_fresh.
    destruct (Z.ltb_spec (ExternalService.chance e1) 10) as [Hlt|_]; [lia|].
    rewrite Hi. unfold insert_ext_order. cbn.
    eexists. split; [reflexivity|].
    unfold select_ext_order. cbn. apply find_last.
    - pose proof (unprocessed_lookup false _ _ U) as Hn. exact Hn.
    - cbn. apply String.eqb_refl. }
  exists db1. do 2 eexists. split; [exact H1|]. split.
  - apply stored_outcome_replayed. rewrite Hs. exact Hrow.
  - cbn. repeat split. intros [= E]. now apply Hfmt.
Qed.

Example first_and_repeated_reply :
  let '(db1, first) :=
    ExternalService.processOrder true (sample_external_env 50) Go.POST
                                 (Some sample_request) created in
  let '(db2, second) :=
    ExternalService.processOrder true (sample_external_env 3) Go.POST
                                 (Some sample_request) db1 in
  first
  = Http.Json
      {| resp_Status := "success"; resp_Error := "";
         resp_Data :=
           Some {| sd_OrderID := "0192f3a1-7c5e-7b21-9d3e-5a1f0c2b4d6e";
                   sd_VendorOrderID := 1;
                   sd_ProcessedAt := "2025-11-03 01:02:04.000 +07:00" |} |}
  /\ second
     = Http.Json
         {| resp_Status := "success"; resp_Error := "";
            resp_Data :=
              Some {| sd_OrderID := "0192f3a1-7c5e-7b21-9d3e-5a1f0c2b4d6e";
                      sd_VendorOrderID := 1;
                      sd_ProcessedAt := "2025-11-03 01:02:03.000 +07:00" |} |}
  /\ db2 = db1
  /\ List.length (ext_orders db1) = 1%nat.
Proof. vm_compute. repeat split. Qed.

Lemma C2_witness :
  exists db1 first second,
    ExternalService.processOrder true (sample_external_env 50) Go.POST
                                 (Some sample_request) created
    = (db1, Http.Json first)
    /\ ExternalService.processOrder true (sample_external_env 3) Go.POST
                                    (Some sample_request) db1
       = (db1, Http.Json second)
    /\ resp_Status first = resp_Status second
    /\ resp_Error first = resp_Error second
    /\ first <> second.
Proof.
  apply (C2_first_reply_not_replayed (sample_external_env 50)
                                     (sample_external_env 3)
                                     sample_request created).
  - unfold unprocessed. cbn. intros r [].
  - cbn. lia.
  - reflexivity.
  - reflexivity.
  - vm_compute. discriminate.
Defined.

(** ** Order service: what each statement touches *)

Lemma same_but_status_refl (a : Order) : same_but_status a a.
Proof. repeat split. Qed.

Lemma same_but_status_trans (a b c : Order) :
  same_but_status a b -> same_but_status b c -> same_but_status a c.
Proof.
  unfold same_but_status. intros H1 H2.
  repeat split; intuition congruence.
Qed.

Lemma same_but_status_set (status : string) (a : Order) :
  same_but_status a (set_status status a).
Proof. repeat split. Qed.

Lemma Forall2_map_self {A : Type} (R : A -> A -> Prop) (f : A -> A)
    (l : list A) :
  (forall a, R a (f a)) -> Forall2 R l (map f l).
Proof. intros H. induction l; cbn; constructor; auto. Qed.

Lemma Forall2_same {A : Type} (R : A -> A -> Prop) (l : list A) :
  (forall a, R a a) -> Forall2 R l l.
Proof. intros H. induction l; constructor; auto. Qed.

Lemma Forall2_compose {A : Type} (R : A -> A -> Prop) :
  (forall a b c, R a b -> R b c -> R a c) ->
  forall l1 l2 l3, Forall2 R l1 l2 -> Forall2 R l2 l3 -> Forall2 R l1 l3.
Proof.
  intros T l1 l2 l3 H12. revert l3.
  induction H12; intros l3 H23; inversion H23; subst; constructor; eauto.
Qed.

Lemma orders_frame_refl (target : string) (db : DB) : orders_frame target db db.
Proof.
  apply Forall2_same. intros a. split; [apply same_but_status_refl | auto].
Qed.

Lemma orders_frame_same (target : string) (db db' : DB) :
  internal_orders db' = internal_orders db -> orders_frame target db db'.
Proof.
  unfold orders_frame. intros ->. apply (orders_frame_refl target db).
Qed.

Lemma orders_frame_kept (target : string) (db db' : DB) :
  orders_frame target db db' -> orders_kept db db'.
Proof.
  unfold orders_frame, orders_kept. intros H.
  induction H; constructor; intuition.
Qed.

Lemma orders_frame_trans (target : string) (a b c : DB) :
  orders_frame target a b -> orders_frame target b c -> orders_frame target a c.
Proof.
  unfold orders_frame. generalize (internal_orders a) (internal_orders b)
    (internal_orders c). intros l1 l2 l3 H12. revert l3.
  induction H12 as [|x y l1 l2 [Hs Hk] H12 IH]; intros l3 H23;
    inversion H23 as [|y' z l2' l3' [Hs' Hk'] H23']; subst; constructor; auto.
  split; [eapply same_but_status_trans; eassumption|].
  intros Hne. rewrite Hk', Hk; auto.
  destruct Hs as [Hid _]. congruence.
Qed.

Lemma update_frame fails (status id : string) (db : DB) :
  orders_frame id db (fst (update_order_status fails status id db)).
Proof.
  unfold update_order_status. destruct fails; [apply orders_frame_refl|].
  unfold orders_frame. cbn. apply Forall2_map_self. intros a.
  destruct (String.eqb_spec (ID a) id) as [Heq|Hne].
  - split; [apply same_but_status_set | congruence].
  - split; [apply same_but_status_refl | auto].
Qed.

Lemma update_attempts fails (status id : string) (db : DB) :
  fulfillment_attempts (fst (update_order_status fails status id db))
  = fulfillment_attempts db.
Proof. unfold update_order_status. now destruct fails. Qed.

Lemma insert_attempt_orders fails order_id number payload now db :
  internal_orders (fst (insert_attempt fails order_id number payload now db))
  = internal_orders db.
Proof. unfold insert_attempt. now destruct fails. Qed.

Lemma insert_attempt_rows order_id number payload now db :
  fulfillment_attempts
    (fst (insert_attempt false order_id number payload now db))
  = (fulfillment_attempts db
       ++ [{| fa_ID := fulfillment_attempts_seq db;
              fa_OrderID := order_id;
              fa_AttemptNumber := number;
              fa_Payload := payload;
              fa_AttemptedAt := timestamp_column now |}])%list.
Proof. reflexivity. Qed.

(** The store left by the message handler, statement by statement. *)
Lemma handler_store cfg e m db :
  fst (OrderService.handlePaymentPaid cfg e (Some m) db)
  = let r := update_order_status (OrderService.h_update_fails e) "paid"
                                 (ppm_OrderID m) db in
    if snd r then fst r
    else fst (insert_attempt (OrderService.h_insert_fails e) (ppm_OrderID m) 1
                (OrderService.handler_payload (ppm_OrderID m) 0 "")
                (OrderService.h_server_now e) (fst r)).
Proof.
  unfold OrderService.handlePaymentPaid.
  destruct (update_order_status _ _ _ db) as [db1 [|]]; [reflexivity|].
  cbn [fst snd]. destruct (insert_attempt _ _ _ _ _ db1) as [db2 err].
  destruct cfg; [|reflexivity].
  destruct (count_attempts _ _ db2) as [n|]; [|reflexivity].
  now destruct (1 <? n).
Qed.

(** The store left by the dispatch, statement by statement. *)
Lemma dispatch_store e orderID cid db :
  fst (OrderService.processFulfillment e orderID cid db)
  = match select_order (OrderService.d_select_fails e) orderID db with
    | None => db
    | Some (order_ID, order_Amount, order_DestinationPhone) =>
      let number :=
        match count_attempts (OrderService.d_count_fails e) orderID db with
        | None => 1
        | Some n => n + 1
        end in
      let db1 :=
        fst (insert_attempt (OrderService.d_insert_fails e) orderID number
               (OrderService.marshal_request
                  {| efr_OrderID := order_ID;
                     efr_DestinationPhone := order_DestinationPhone;
                     efr_Amount := order_Amount;
                     efr_CorrelationID := cid |})
               (OrderService.d_server_now e) db) in
      match OrderService.d_post e with
      | Httpclient.PostError _ => db1
      | Httpclient.PostResponse code =>
        if code =? Go.StatusOK
        then fst (update_order_status (OrderService.d_update_fails e)
                                      "fulfilment" orderID db1)
        else db1
      end
    end.
Proof.
  unfold OrderService.processFulfillment.
  destruct (select_order _ orderID db) as [[[i a] p]|]; [|reflexivity].
  cbv zeta. destruct (insert_attempt _ _ _ _ _ db) as [db1 err].
  cbn [fst]. destruct (OrderService.d_post e) as [t|code]; [reflexivity|].
  destruct (code =? Go.StatusOK); [|reflexivity].
  now destruct (update_order_status _ _ _ db1).
Qed.

Lemma handler_frame cfg e m db :
  orders_frame (ppm_OrderID m) db
               (fst (OrderService.handlePaymentPaid cfg e (Some m) db)).
Proof.
  rewrite handler_store. cbv zeta.
  pose proof (update_frame (OrderService.h_update_fails e) "paid"
                           (ppm_OrderID m) db) as F.
  destruct (update_order_status _ _ _ db) as [db1 [|]]; cbn [fst snd] in *;
    [exact F|].
  eapply orders_frame_trans; [exact F|].
  apply orders_frame_same, insert_attempt_orders.
Qed.

Lemma dispatch_frame e orderID cid db :
  orders_frame orderID db
               (fst (OrderService.processFulfillment e orderID cid db)).
Proof.
  rewrite dispatch_store.
  destruct (select_order _ orderID db) as [[[i a] p]|];
    [|apply orders_frame_refl].
  cbv zeta.
  set (db1 := fst (insert_attempt _ _ _ _ _ db)).
  assert (orders_frame orderID db db1) as F1
    by apply orders_frame_same, insert_attempt_orders.
  destruct (OrderService.d_post e) as [t|code]; [exact F1|].
  destruct (code =? Go.StatusOK); [|exact F1].
  eapply orders_frame_trans; [exact F1 | apply update_frame].
Qed.

Lemma step_kept cfg s ev :
  orders_kept (OrderService.store s)
              (OrderService.store (OrderService.step cfg s ev)).
Proof.
  destruct ev as [e [m|]|n e]; cbn [OrderService.step].
  - pose proof (handler_frame cfg e m (OrderService.store s)) as F.
    destruct (OrderService.handlePaymentPaid cfg e (Some m) _) as [db' [t|]];
      cbn [fst OrderService.store] in *;
      eapply orders_frame_kept; exact F.
  - cbn. apply (orders_frame_kept "" _ _), orders_frame_refl.
  - destruct (nth_error (OrderService.goroutines s) n) as [t|];
      [|apply (orders_frame_kept "" _ _), orders_frame_refl].
    pose proof (dispatch_frame e (OrderService.task_orderID t)
                  (OrderService.task_correlationID t) (OrderService.store s))
      as F.
    destruct (OrderService.processFulfillment e _ _ _) as [db' [r|]];
      cbn [fst OrderService.store] in *;
      eapply orders_frame_kept; exact F.
Qed.

(** ** C9: order rows change in their status only *)

(** C9. The message handler and the dispatch leave the order table with
    the same rows in the same order, none deleted and none added; a row
    other than the targeted one is untouched and the targeted one keeps
    its id, amount, admin fee, type, operator, destination phone, total
    and creation time. The same holds between the start and the end of
    any run of the service. *)
Theorem C9_order_updates_only_touch_status :
  (forall cfg e m db,
     orders_frame (ppm_OrderID m) db
                  (fst (OrderService.handlePaymentPaid cfg e (Some m) db)))
  /\ (forall cfg e db,
        fst (OrderService.handlePaymentPaid cfg e None db) = db)
  /\ (forall e orderID cid db,
        orders_frame orderID db
                     (fst (OrderService.processFulfillment e orderID cid db)))
  /\ (forall cfg evs s,
        orders_kept (OrderService.store s)
                    (OrderService.store (OrderService.run cfg s evs))).
Proof.
  split; [exact handler_frame|]. split; [reflexivity|].
  split; [exact dispatch_frame|].
  intros cfg evs. unfold OrderService.run.
  induction evs as [|ev evs IH]; intros s; cbn [fold_left].
  - apply (orders_frame_kept "" _ _), orders_frame_refl.
  - eapply Forall2_compose; [exact same_but_status_trans | | apply IH].
    apply step_kept.
Qed.

(** ** C6: attempt numbers *)

(** C6, handler side: on the second delivery for an order the table
    already holds one attempt row for it, yet the row the handler
    appends is numbered 1 and not 2, so the handler's row does not
    carry the count plus one. *)
Lemma C6_counterexample :
  let db1 :=
    fst (OrderService.handlePaymentPaid true sample_handler_env
           (Some sample_message) sample_store) in
  let db2 :=
    fst (OrderService.handlePaymentPaid true sample_handler_env
           (Some sample_message) db1) in
  attempts (ppm_OrderID sample_message) db1 = 1%nat
  /\ ~ appended_attempt (ppm_OrderID sample_message)
         (Z.of_nat (attempts (ppm_OrderID sample_message) db1) + 1) db1 db2.
Proof.
  cbv zeta. split; [reflexivity|].
  intros [row [Hrows [_ Hnum]]].
  vm_compute in Hrows.
  injection Hrows as Hrow. subst row.
  vm_compute in Hnum. discriminate.
Qed.

(** ** Order service: counting attempts and dispatches *)

Lemma insert_attempt_count fails order_id number payload now db (o : string) :
  attempts o (fst (insert_attempt fails order_id number payload now db))
  = (attempts o db
     + indicator (negb fails && (order_id =? o)%string))%nat.
Proof.
  unfold attempts, attempts_of, insert_attempt.
  destruct fails; cbn [fst negb andb indicator]; [lia|].
  cbn [fulfillment_attempts]. rewrite filter_app, length_app. cbn.
  destruct (order_id =? o)%string; reflexivity.
Qed.

Lemma update_attempts_count fails (status id : string) (db : DB) (o : string) :
  attempts o (fst (update_order_status fails status id db)) = attempts o db.
Proof. unfold attempts, attempts_of. now rewrite update_attempts. Qed.

Lemma handler_attempts cfg e m db (o : string) :
  healthy e ->
  attempts o (fst (OrderService.handlePaymentPaid cfg e (Some m) db))
  = (attempts o db + indicator (ppm_OrderID m =? o)%string)%nat.
Proof.
  intros [Hu [Hi _]]. rewrite handler_store. cbv zeta. rewrite Hu, Hi.
  cbn [update_order_status snd fst].
  rewrite insert_attempt_count. reflexivity.
Qed.

Lemma handler_attempts_mono cfg e data db (o : string) :
  (attempts o db
   <= attempts o (fst (OrderService.handlePaymentPaid cfg e data db)))%nat.
Proof.
  destruct data as [m|]; [|cbn; lia].
  rewrite handler_store. cbv zeta.
  pose proof (update_attempts_count (OrderService.h_update_fails e) "paid"
                                    (ppm_OrderID m) db o) as U.
  destruct (update_order_status _ _ _ db) as [db1 [|]]; cbn [fst snd] in *;
    [lia|].
  rewrite insert_attempt_count. lia.
Qed.

Lemma dispatch_attempts_mono e orderID cid db (o : string) :
  (attempts o db
   <= attempts o (fst (OrderService.processFulfillment e orderID cid db)))%nat
  /\ ((orderID =? o)%string = false ->
      attempts o (fst (OrderService.processFulfillment e orderID cid db))
      = attempts o db).
Proof.
  rewrite dispatch_store.
  destruct (select_order _ orderID db) as [[[i a] p]|]; [|split; lia].
  cbv zeta.
  set (db1 := fst (insert_attempt _ _ _ _ _ db)).
  assert (attempts o db1
          = (attempts o db
             + indicator (negb (OrderService.d_insert_fails e)
                          && (orderID =? o)%string))%nat) as H1
    by apply insert_attempt_count.
  assert (attempts o
            (match OrderService.d_post e with
             | Httpclient.PostError _ => db1
             | Httpclient.PostResponse code =>
               if code =? Go.StatusOK
               then fst (update_order_status (OrderService.d_update_fails e)
                                             "fulfilment" orderID db1)
               else db1
             end) = attempts o db1) as H2.
  { destruct (OrderService.d_post e) as [t|code]; [reflexivity|].
    destruct (code =? Go.StatusOK); [|reflexivity].
    apply update_attempts_count. }
  rewrite H2, H1. split; [lia|].
  intros ->. rewrite andb_false_r. cbn. lia.
Qed.

(** Whether the handler starts the goroutine. *)
Lemma handler_decision_on e m db :
  healthy e ->
  snd (OrderService.handlePaymentPaid true e (Some m) db)
  = if (attempts (ppm_OrderID m) db =? 0)%nat
    then Some (OrderService.mkTask (ppm_OrderID m)
                 (if (ppm_CorrelationID m =? "")%string
                  then OrderService.h_fresh_correlation e
                  else ppm_CorrelationID m))
    else None.
Proof.
  intros [Hu [Hi Hc]].
  pose proof (handler_attempts true e m db (ppm_OrderID m)
                (conj Hu (conj Hi Hc))) as A.
  rewrite handler_store in A. cbv zeta in A. revert A.
  unfold OrderService.handlePaymentPaid. rewrite Hu, Hi, Hc.
  cbn [update_order_status snd fst].
  destruct (insert_attempt false _ _ _ _ _) as [db2 err]. cbn [fst].
  rewrite String.eqb_refl. cbn [indicator]. intros A.
  unfold count_attempts. fold (attempts (ppm_OrderID m) db2). rewrite A.
  destruct (Nat.eqb_spec (attempts (ppm_OrderID m) db) 0) as [->|Hne].
  - reflexivity.
  - destruct (Z.ltb_spec 1 (Z.of_nat (attempts (ppm_OrderID m) db + 1)));
      [reflexivity | lia].
Qed.

Lemma handler_decision_off e m db :
  OrderService.h_update_fails e = false ->
  snd (OrderService.handlePaymentPaid false e (Some m) db)
  = Some (OrderService.mkTask (ppm_OrderID m)
            (if (ppm_CorrelationID m =? "")%string
             then OrderService.h_fresh_correlation e
             else ppm_CorrelationID m)).
Proof.
  intros Hu. unfold OrderService.handlePaymentPaid. rewrite Hu.
  cbn [update_order_status]. now destruct (insert_attempt _ _ _ _ _ _).
Qed.

Lemma dispatch_posts_for_task e orderID cid db r :
  snd (OrderService.processFulfillment e orderID cid db) = Some r ->
  efr_OrderID r = orderID.
Proof.
  unfold OrderService.processFulfillment, select_order.
  destruct (OrderService.d_select_fails e); [discriminate|].
  destruct (find _ (internal_orders db)) as [row|] eqn:F; [|discriminate].
  apply find_some in F as [_ Heq]. apply String.eqb_eq in Heq.
  destruct (insert_attempt _ _ _ _ _ db) as [db1 err].
  destruct (OrderService.d_post e) as [t|code].
  - intros [= <-]. exact Heq.
  - destruct (code =? Go.StatusOK);
      [destruct (update_order_status _ _ _ db1)|]; intros [= <-]; exact Heq.
Qed.

Lemma for_order_app (o : string) (l1 l2 : list OrderService.Task) :
  for_order o (l1 ++ l2) = (for_order o l1 + for_order o l2)%nat.
Proof. unfold for_order. now rewrite filter_app, length_app. Qed.

Lemma for_order_one (o : string) (t : OrderService.Task) :
  for_order o [t] = indicator (OrderService.task_orderID t =? o)%string.
Proof.
  unfold for_order. cbn.
  now destruct (OrderService.task_orderID t =? o)%string.
Qed.

Lemma remove_nth_middle {A : Type} (l1 l2 : list A) (x : A) :
  OrderService.remove_nth (List.length l1) (l1 ++ x :: l2) = (l1 ++ l2)%list.
Proof.
  unfold OrderService.remove_nth.
  induction l1 as [|a l1 IH]; cbn; [reflexivity|].
  f_equal. exact IH.
Qed.

Lemma for_order_remove (o : string) (l : list OrderService.Task) (n : nat)
    (t : OrderService.Task) :
  nth_error l n = Some t ->
  for_order o l
  = (for_order o (OrderService.remove_nth n l)
     + indicator (OrderService.task_orderID t =? o)%string)%nat.
Proof.
  intros H. apply nth_error_split in H as [l1 [l2 [-> <-]]].
  rewrite remove_nth_middle.
  change (t :: l2) with ([t] ++ l2)%list.
  rewrite !for_order_app, for_order_one. lia.
Qed.

Lemma step_deliver cfg s e data :
  let r := OrderService.handlePaymentPaid cfg e data (OrderService.store s) in
  let started := match snd r with Some t => [t] | None => [] end in
  OrderService.store (OrderService.step cfg s (OrderService.Deliver e data))
  = fst r
  /\ OrderService.posted (OrderService.step cfg s (OrderService.Deliver e data))
     = OrderService.posted s
  /\ OrderService.dispatched
       (OrderService.step cfg s (OrderService.Deliver e data))
     = (OrderService.dispatched s ++ started)%list
  /\ OrderService.goroutines
       (OrderService.step cfg s (OrderService.Deliver e data))
     = (OrderService.goroutines s ++ started)%list.
Proof.
  cbn [OrderService.step].
  destruct (OrderService.handlePaymentPaid cfg e data _) as [db' [t|]];
    cbn; rewrite ?app_nil_r; auto.
Qed.

Lemma step_schedule cfg s n e t :
  nth_error (OrderService.goroutines s) n = Some t ->
  let r := OrderService.processFulfillment e (OrderService.task_orderID t)
             (OrderService.task_correlationID t) (OrderService.store s) in
  let sent := match snd r with Some x => [x] | None => [] end in
  OrderService.store (OrderService.step cfg s (OrderService.Schedule n e))
  = fst r
  /\ OrderService.posted (OrderService.step cfg s (OrderService.Schedule n e))
     = (OrderService.posted s ++ sent)%list
  /\ OrderService.dispatched
       (OrderService.step cfg s (OrderService.Schedule n e))
     = OrderService.dispatched s
  /\ OrderService.goroutines
       (OrderService.step cfg s (OrderService.Schedule n e))
     = OrderService.remove_nth n (OrderService.goroutines s).
Proof.
  intros H. cbn [OrderService.step]. rewrite H.
  destruct (OrderService.processFulfillment e _ _ _) as [db' [r|]];
    cbn; rewrite ?app_nil_r; auto.
Qed.

Lemma step_schedule_idle cfg s n e :
  nth_error (OrderService.goroutines s) n = None ->
  OrderService.step cfg s (OrderService.Schedule n e) = s.
Proof. intros H. cbn [OrderService.step]. now rewrite H. Qed.

Lemma step_attempts_mono cfg s ev (o : string) :
  (attempts o (OrderService.store s)
   <= attempts o (OrderService.store (OrderService.step cfg s ev)))%nat.
Proof.
  destruct ev as [e data|n e].
  - destruct (step_deliver cfg s e data) as [-> _].
    apply handler_attempts_mono.
  - destruct (nth_error (OrderService.goroutines s) n) as [t|] eqn:H.
    + destruct (step_schedule cfg s n e t H) as [-> _].
      apply dispatch_attempts_mono.
    + rewrite step_schedule_idle by exact H. lia.
Qed.

(** What one delivery with a readable message does to the counters of
    an order [o], toggle on. *)
Lemma step_delivery_on s e m (o : string) :
  healthy e ->
  let s' := OrderService.step true s (OrderService.Deliver e (Some m)) in
  let fires :=
    ((ppm_OrderID m =? o)%string
     && (attempts o (OrderService.store s) =? 0)%nat)%bool in
  attempts o (OrderService.store s')
  = (attempts o (OrderService.store s)
     + indicator (ppm_OrderID m =? o)%string)%nat
  /\ dispatches o s' = (dispatches o s + indicator fires)%nat
  /\ for_order o (OrderService.goroutines s')
     = (for_order o (OrderService.goroutines s) + indicator fires)%nat.
Proof.
  intros He. cbv zeta.
  destruct (step_deliver true s e (Some m)) as [-> [_ [Hd Hg]]].
  unfold dispatches. rewrite Hd, Hg, !for_order_app.
  rewrite (handler_decision_on e m _ He).
  split; [now apply handler_attempts|].
  destruct (String.eqb_spec (ppm_OrderID m) o) as [->|Hne].
  - destruct (attempts o (OrderService.store s) =? 0)%nat; cbn.
    + rewrite String.eqb_refl. cbn. auto.
    + auto.
  - cbn [andb indicator].
    destruct (attempts (ppm_OrderID m) (OrderService.store s) =? 0)%nat;
      [|cbn; auto].
    rewrite for_order_one. cbn [OrderService.task_orderID].
    apply String.eqb_neq in Hne. rewrite Hne. cbn. auto.
Qed.

Lemma step_delivery_off s e m (o : string) :
  healthy e ->
  dispatches o (OrderService.step false s (OrderService.Deliver e (Some m)))
  = (dispatches o s + indicator (ppm_OrderID m =? o)%string)%nat.
Proof.
  intros [Hu _].
  destruct (step_deliver false s e (Some m)) as [_ [_ [Hd _]]].
  unfold dispatches. rewrite Hd, for_order_app.
  rewrite (handler_decision_off e m _ Hu), for_order_one. reflexivity.
Qed.

Lemma step_silent cfg s e :
  OrderService.step cfg s (OrderService.Deliver e None) = s.
Proof. now destruct s. Qed.

(** Once an order has an attempt row, no later delivery starts a
    goroutine for it. *)
Lemma no_dispatch_after_attempt (o : string) evs : forall s,
  Forall healthy_event evs ->
  (1 <= attempts o (OrderService.store s))%nat ->
  dispatches o (OrderService.run true s evs) = dispatches o s.
Proof.
  unfold OrderService.run.
  induction evs as [|ev evs IH]; intros s H A; [reflexivity|].
  inversion H as [|x xs Hev Hevs]; subst. cbn [fold_left].
  rewrite IH; [|exact Hevs|].
  - destruct ev as [e [m|]|n e].
    + destruct (step_delivery_on s e m o Hev) as [_ [-> _]].
      destruct (Nat.eqb_spec (attempts o (OrderService.store s)) 0); [lia|].
      rewrite andb_false_r. cbn. lia.
    + now rewrite step_silent.
    + destruct (nth_error (OrderService.goroutines s) n) as [t|] eqn:Hn.
      * destruct (step_schedule true s n e t Hn) as [_ [_ [Hd _]]].
        unfold dispatches. now rewrite Hd.
      * now rewrite step_schedule_idle.
  - pose proof (step_attempts_mono true s ev o). lia.
Qed.

(** Before any attempt row exists for an order, its first delivery is
    the one that starts the goroutine. *)
Lemma first_delivery_dispatches (o : string) evs : forall s,
  Forall healthy_event evs ->
  attempts o (OrderService.store s) = 0%nat ->
  for_order o (OrderService.goroutines s) = 0%nat ->
  dispatches o (OrderService.run true s evs)
  = (dispatches o s + indicator (negb (deliveries o evs =? 0)%nat))%nat.
Proof.
  unfold OrderService.run.
  induction evs as [|ev evs IH]; intros s H A G; [cbn; lia|].
  inversion H as [|x xs Hev Hevs]; subst. cbn [fold_left].
  unfold deliveries. cbn [filter].
  destruct ev as [e [m|]|n e]; cbn [is_delivery].
  - destruct (step_delivery_on s e m o Hev) as [Ha [Hd Hg]].
    rewrite A in *. cbn [Nat.eqb] in *. rewrite andb_true_r in *.
    destruct (ppm_OrderID m =? o)%string; cbn [indicator] in *.
    + fold (OrderService.run true
              (OrderService.step true s (OrderService.Deliver e (Some m)))
              evs).
      rewrite no_dispatch_after_attempt; [|exact Hevs | lia].
      rewrite Hd. reflexivity.
    + rewrite IH; [|exact Hevs | lia | lia].
      fold (deliveries o evs). lia.
  - rewrite step_silent. fold (deliveries o evs). now apply IH.
  - fold (deliveries o evs).
    destruct (nth_error (OrderService.goroutines s) n) as [t|] eqn:Hn.
    + destruct (step_schedule true s n e t Hn) as [Hs [_ [Hd Hg]]].
      pose proof (for_order_remove o _ n t Hn) as R. rewrite G in R.
      assert ((OrderService.task_orderID t =? o)%string = false) as Hne
        by (destruct (OrderService.task_orderID t =? o)%string;
            [cbn in R; lia | reflexivity]).
      rewrite IH; [|exact Hevs| |].
      * unfold dispatches. now rewrite Hd.
      * rewrite Hs.
        rewrite (proj2 (dispatch_attempts_mono e _ _ _ o) Hne). exact A.
      * rewrite Hg. lia.
    + rewrite step_schedule_idle by exact Hn. now apply IH.
Qed.

Lemma every_delivery_dispatches (o : string) evs : forall s,
  Forall healthy_event evs ->
  dispatches o (OrderService.run false s evs)
  = (dispatches o s + deliveries o evs)%nat.
Proof.
  unfold OrderService.run.
  induction evs as [|ev evs IH]; intros s H; [cbn; lia|].
  inversion H as [|x xs Hev Hevs]; subst. cbn [fold_left].
  rewrite IH by exact Hevs. unfold deliveries. cbn [filter].
  destruct ev as [e [m|]|n e]; cbn [is_delivery].
  - rewrite (step_delivery_off s e m o Hev).
    destruct (ppm_OrderID m =? o)%string; cbn; lia.
  - now rewrite step_silent.
  - destruct (nth_error (OrderService.goroutines s) n) as [t|] eqn:Hn.
    + destruct (step_schedule false s n e t Hn) as [_ [_ [Hd _]]].
      unfold dispatches. now rewrite Hd.
    + now rewrite step_schedule_idle.
Qed.

Lemma step_accounted cfg s ev (o : string) :
  accounted o s -> accounted o (OrderService.step cfg s ev).
Proof.
  unfold accounted, outbound_calls, dispatches. intros Q.
  destruct ev as [e data|n e].
  - destruct (step_deliver cfg s e data) as [_ [-> [-> ->]]].
    rewrite !for_order_app. lia.
  - destruct (nth_error (OrderService.goroutines s) n) as [t|] eqn:Hn;
      [|now rewrite step_schedule_idle].
    destruct (step_schedule cfg s n e t Hn) as [_ [-> [-> ->]]].
    pose proof (for_order_remove o _ n t Hn) as R.
    rewrite filter_app, length_app.
    assert (List.length
              (filter (fun r => (efr_OrderID r =? o)%string)
                 match snd (OrderService.processFulfillment e
                              (OrderService.task_orderID t)
                              (OrderService.task_correlationID t)
                              (OrderService.store s)) with
                 | Some x => [x]
                 | None => []
                 end)
            <= indicator (OrderService.task_orderID t =? o)%string)%nat as B.
    { destruct (snd (OrderService.processFulfillment e _ _ _)) as [r|] eqn:P;
        [|cbn; lia].
      apply dispatch_posts_for_task in P. cbn. rewrite P.
      destruct (OrderService.task_orderID t =? o)%string; cbn; lia. }
    lia.
Qed.

Lemma run_accounted cfg (o : string) evs : forall s,
  accounted o s -> accounted o (OrderService.run cfg s evs).
Proof.
  unfold OrderService.run.
  induction evs as [|ev evs IH]; intros s Q; [exact Q|].
  cbn [fold_left]. apply IH. now apply step_accounted.
Qed.

(** The role of the storage hypothesis: when the handler's insert
    reports an error on every delivery, the count stays at zero and
    each delivery starts the goroutine. *)
Example failing_insert_dispatches_again :
  let e := OrderService.mkHandlerEnv "ZZ00AA" false true false
                                     (Time.mk 1762106523500000000 25200) in
  dispatches (ppm_OrderID sample_message)
    (OrderService.run true (OrderService.start sample_store)
       [OrderService.Deliver e (Some sample_message);
        OrderService.Deliver e (Some sample_message)])
  = 2%nat.
Proof. vm_compute. reflexivity. Qed.

Example sample_run_counts :
  dispatches (ppm_OrderID sample_message)
    (OrderService.run true (OrderService.start sample_store) sample_run)
  = 1%nat
  /\ outbound_calls (ppm_OrderID sample_message)
       (OrderService.run true (OrderService.start sample_store) sample_run)
     = 1%nat
  /\ dispatches (ppm_OrderID sample_message)
       (OrderService.run false (OrderService.start sample_store) sample_run)
     = 3%nat
  /\ map Status
       (internal_orders
          (OrderService.store
             (OrderService.run true (OrderService.start sample_store)
                               sample_run)))
     = ["paid"].
Proof. vm_compute. repeat split. Qed.

(** ** Simulator *)

Lemma times_out_trigger (a : Httpclient.PostResult) :
  times_out a -> Tooling.triggerPayment a = Some "timeout".
Proof.
  intros [text [-> H]]. unfold Tooling.triggerPayment. now rewrite H.
Qed.

(** ** C4: retries on timeout *)

(** C4. When the order is created and every payment call is classified
    as a timeout, the iteration calls the payment service three times
    (the loop runs for retry = 0, 1, 2), not four, with a sleep of
    100 ms before each call, and then sends the TIMEOUT line followed
    by the FAILED line. *)
Theorem C4_timeouts_stop_after_three_calls (iteration : Z)
    (correlationID : string) (created : Tooling.CreateAnswer)
    (orderResp : CreateOrderResponse)
    (answers : Z -> Httpclient.PostResult) :
  Tooling.createOrder created = inr orderResp ->
  (forall retry, times_out (answers retry)) ->
  Tooling.runSimulationIteration iteration correlationID created answers
  = [Tooling.Sleep 100;
     Tooling.Trigger (cor_ID orderResp) (cor_Total orderResp);
     Tooling.Sleep 100;
     Tooling.Trigger (cor_ID orderResp) (cor_Total orderResp);
     Tooling.Sleep 100;
     Tooling.Trigger (cor_ID orderResp) (cor_Total orderResp);
     Tooling.Send (Tooling.prefix_line iteration correlationID
                     ++ "TIMEOUT after 3 retries - Order: "
                     ++ cor_ID orderResp);
     Tooling.Send (Tooling.prefix_line iteration correlationID
                     ++ "FAILED - Order: " ++ cor_ID orderResp)]
  /\ Tooling.calls
       (Tooling.runSimulationIteration iteration correlationID created answers)
     = 3%nat.
Proof.
  intros Hc Ht.
  assert (forall r, Tooling.triggerPayment (answers r) = Some "timeout") as T
    by (intros r; apply times_out_trigger, Ht).
  unfold Tooling.runSimulationIteration. rewrite Hc.
  cbn [Tooling.payment_loop Z.ltb Z.compare Z.eqb Z.add Pos.compare
       Pos.compare_cont Pos.eqb Pos.add Pos.succ].
  rewrite !T.
  change (Go.contains "timeout" "timeout") with true.
  cbn [Tooling.payment_loop Z.ltb Z.compare Z.eqb Z.add Pos.compare
       Pos.compare_cont Pos.eqb Pos.add Pos.succ app negb].
  split; reflexivity.
Qed.

Lemma C4_witness :
  Tooling.runSimulationIteration 7 "K3X9QA"
    (Tooling.CreateResponse (inr sample_created)) always_timing_out
  = [Tooling.Sleep 100;
     Tooling.Trigger (cor_ID sample_created) (cor_Total sample_created);
     Tooling.Sleep 100;
     Tooling.Trigger (cor_ID sample_created) (cor_Total sample_created);
     Tooling.Sleep 100;
     Tooling.Trigger (cor_ID sample_created) (cor_Total sample_created);
     Tooling.Send (Tooling.prefix_line 7 "K3X9QA"
                     ++ "TIMEOUT after 3 retries - Order: "
                     ++ cor_ID sample_created);
     Tooling.Send (Tooling.prefix_line 7 "K3X9QA"
                     ++ "FAILED - Order: " ++ cor_ID sample_created)]
  /\ Tooling.calls
       (Tooling.runSimulationIteration 7 "K3X9QA"
          (Tooling.CreateResponse (inr sample_created)) always_timing_out)
     = 3%nat.
Proof.
  apply (C4_timeouts_stop_after_three_calls 7 "K3X9QA"
           (Tooling.CreateResponse (inr sample_created)) sample_created
           always_timing_out).
  - reflexivity.
  - intros retry. eexists. split; reflexivity.
Defined.

Example timed_out_iteration_lines :
  Tooling.sent
    (Tooling.runSimulationIteration 7 "K3X9QA"
       (Tooling.CreateResponse (inr sample_created)) always_timing_out)
  = ["Iteration 7 [K3X9QA]: TIMEOUT after 3 retries - Order: 0192f3a1-7c5e-7b21-9d3e-5a1f0c2b4d6e";
     "Iteration 7 [K3X9QA]: FAILED - Order: 0192f3a1-7c5e-7b21-9d3e-5a1f0c2b4d6e"]
  /\ Tooling.tally
       (Tooling.sent
          (Tooling.runSimulationIteration 7 "K3X9QA"
             (Tooling.CreateResponse (inr sample_created)) always_timing_out))
     = (0, 1).
Proof. vm_compute. split; reflexivity. Qed.

(** ** C5: lines sent per iteration *)

(** C5. When the order is created and no payment call succeeds, the
    iteration sends two lines on the results channel: the line of the
    failure (TIMEOUT after the last round, or FAILED payment) and then
    the closing FAILED line. *)
Theorem C5_failed_iteration_sends_two_lines (iteration : Z)
    (correlationID : string) (created : Tooling.CreateAnswer)
    (orderResp : CreateOrderResponse)
    (answers : Z -> Httpclient.PostResult) :
  Tooling.createOrder created = inr orderResp ->
  (forall retry, Tooling.triggerPayment (answers retry) <> None) ->
  List.length
    (Tooling.sent
       (Tooling.runSimulationIteration iteration correlationID created
                                       answers))
  = 2%nat.
Proof.
  intros Hc Hf.
  pose proof (Hf 0) as H0. pose proof (Hf 1) as H1. pose proof (Hf 2) as H2.
  unfold Tooling.runSimulationIteration. rewrite Hc.
  cbn [Tooling.payment_loop Z.ltb Z.compare Z.eqb Z.add Pos.compare
       Pos.compare_cont Pos.eqb Pos.add Pos.succ].
  destruct (Tooling.triggerPayment (answers 0)) as [e0|]; [|congruence].
  destruct (Go.contains e0 "timeout"); [|reflexivity].
  destruct (Tooling.triggerPayment (answers 1)) as [e1|]; [|congruence].
  destruct (Go.contains e1 "timeout"); [|reflexivity].
  destruct (Tooling.triggerPayment (answers 2)) as [e2|]; [|congruence].
  destruct (Go.contains e2 "timeout"); reflexivity.
Qed.

Lemma C5_witness :
  List.length
    (Tooling.sent
       (Tooling.runSimulationIteration 7 "K3X9QA"
          (Tooling.CreateResponse (inr sample_created)) always_timing_out))
  = 2%nat.
Proof.
  apply (C5_failed_iteration_sends_two_lines 7 "K3X9QA"
           (Tooling.CreateResponse (inr sample_created)) sample_created
           always_timing_out).
  - reflexivity.
  - intros retry. vm_compute. discriminate.
Defined.

(** An iteration whose order is created and whose first payment call
    succeeds sends one line. *)
Lemma successful_iteration_sends_one_line (iteration : Z)
    (correlationID : string) (created : Tooling.CreateAnswer)
    (answers : Z -> Httpclient.PostResult) :
  (forall err, Tooling.createOrder created <> inl err) ->
  Tooling.triggerPayment (answers 0) = None ->
  List.length
    (Tooling.sent
       (Tooling.runSimulationIteration iteration correlationID created
                                       answers))
  = 1%nat.
Proof.
  intros Hc H0. unfold Tooling.runSimulationIteration.
  destruct (Tooling.createOrder created) as [err|orderResp];
    [now destruct (Hc err)|].
  cbn [Tooling.payment_loop Z.ltb Z.compare]. rewrite H0. reflexivity.
Qed.

(** * Further properties *)

(** ** Order service: keys, creation and lookup *)

Lemma kept_ids (l l' : list Order) :
  Forall2 same_but_status l l' -> map ID l' = map ID l.
Proof.
  induction 1 as [|a b l l' [Hid _] _ IH]; cbn; [reflexivity|].
  now rewrite Hid, IH.
Qed.

Lemma run_kept cfg evs : forall s,
  orders_kept (OrderService.store s)
              (OrderService.store (OrderService.run cfg s evs)).
Proof.
  unfold OrderService.run.
  induction evs as [|ev evs IH]; intros s; cbn [fold_left].
  - apply (orders_frame_kept "" _ _), orders_frame_refl.
  - eapply Forall2_compose; [exact same_but_status_trans | | apply IH].
    apply step_kept.
Qed.

Lemma has_order_In (id : string) (db : DB) :
  has_order id db = false -> ~ In id (map ID (internal_orders db)).
Proof.
  unfold has_order. intros H Hin.
  apply in_map_iff in Hin as [o [Ho Hin]].
  assert (existsb (fun o => (ID o =? id)%string) (internal_orders db) = true)
    as E.
  { apply existsb_exists. exists o. split; [exact Hin|].
    now apply String.eqb_eq. }
  congruence.
Qed.

Lemma has_order_find (id : string) (db : DB) :
  has_order id db = false ->
  find (fun o => (ID o =? id)%string) (internal_orders db) = None.
Proof.
  intros H. destruct (find _ (internal_orders db)) as [o|] eqn:F;
    [|reflexivity].
  apply find_some in F as [Hin Heq]. apply String.eqb_eq in Heq.
  exfalso. apply (has_order_In id db H). apply in_map_iff. eauto.
Qed.

(** X1. The order table never holds two rows with the same id: a
    create request and any run of the message handler and of the
    dispatches keep the ids pairwise distinct. *)
Theorem order_ids_stay_unique :
  (forall c method db db' reply,
     unique_ids db ->
     OrderService.createOrder c method db = Some (db', reply) ->
     unique_ids db')
  /\ (forall cfg evs s,
        unique_ids (OrderService.store s) ->
        unique_ids (OrderService.store (OrderService.run cfg s evs))).
Proof.
  split.
  - intros c method db db' reply U. unfold OrderService.createOrder.
    destruct (negb (Go.is_post method)); [now intros [= <- _]|].
    destruct (Utils.GenerateRandomOrder _) as [o|]; [|discriminate].
    unfold insert_order.
    destruct (OrderService.create_insert_fails c); cbn [orb];
      [now intros [= <- _]|].
    destruct (has_order (ID o) db) eqn:H; [now intros [= <- _]|].
    intros [= <- _]. unfold unique_ids in *. cbn. rewrite map_app. cbn.
    apply has_order_In in H.
    apply Permutation_NoDup with (l := ID o :: map ID (internal_orders db)).
    + apply Permutation_cons_append.
    + now constructor.
  - intros cfg evs s U. unfold unique_ids in *.
    now rewrite (kept_ids _ _ (run_kept cfg evs s)).
Qed.

Lemma order_ids_stay_unique_witness :
  unique_ids
    (OrderService.store
       (OrderService.run true (OrderService.start sample_store) sample_run)).
Proof.
  apply (proj2 order_ids_stay_unique true sample_run
               (OrderService.start sample_store)).
  unfold unique_ids. cbn. repeat constructor. intros [].
Defined.

(** X2. A create request answered with JSON has appended exactly one
    row, in status pending and under an id the table did not hold, and
    the dispatch's lookup by the returned id yields the amount and the
    destination phone of the response; a create request answered with
    an error leaves the store as it was. *)
Theorem created_order_can_be_looked_up (c : OrderService.CreateEnv)
    (method : Go.Method) (db db' : DB) :
  (forall r,
     OrderService.createOrder c method db = Some (db', Http.Json r) ->
     has_order (cor_ID r) db = false
     /\ (exists row,
           internal_orders db' = (internal_orders db ++ [row])%list
           /\ ID row = cor_ID r /\ Status row = "pending"
           /\ Total row = cor_Total r /\ AdminFee row = cor_AdminFee r
           /\ Operator row = cor_Operator r)
     /\ select_order false (cor_ID r) db'
        = Some (cor_ID r, cor_Amount r, cor_DestinationPhone r))
  /\ (forall text code,
        OrderService.createOrder c method db
        = Some (db', Http.Error text code) ->
        db' = db).
Proof.
  unfold OrderService.createOrder. split.
  - intros r.
    destruct (negb (Go.is_post method)); [discriminate|].
    destruct (Utils.GenerateRandomOrder _) as [o|] eqn:G; [|discriminate].
    assert (Status o = "pending") as Hst.
    { revert G. unfold Utils.GenerateRandomOrder.
      destruct (Go.index Utils.operators _); [|discriminate].
      destruct (Go.index Utils.amounts _); [|discriminate].
      now intros [= <-]. }
    unfold insert_order.
    destruct (OrderService.create_insert_fails c); cbn [orb];
      [discriminate|].
    destruct (has_order (ID o) db) eqn:H; [discriminate|].
    intros [= <- <-]. cbn [cor_ID cor_Amount cor_DestinationPhone cor_Total
                           cor_AdminFee cor_Operator].
    split; [exact H|]. split.
    + eexists. cbn. split; [reflexivity|]. cbn. auto.
    + unfold select_order. cbn.
      rewrite (find_last _ _ _ (has_order_find _ _ H)); [reflexivity|].
      cbn. apply String.eqb_refl.
  - intros text code.
    destruct (negb (Go.is_post method)); [now intros [= <- _ _]|].
    destruct (Utils.GenerateRandomOrder _) as [o|]; [|discriminate].
    unfold insert_order.
    destruct (OrderService.create_insert_fails c); cbn [orb];
      [now intros [= <- _ _]|].
    destruct (has_order (ID o) db); [now intros [= <- _ _] | discriminate].
Qed.

Lemma created_order_can_be_looked_up_witness :
  exists db' r,
    OrderService.createOrder sample_create_env Go.POST created
    = Some (db', Http.Json r)
    /\ select_order false (cor_ID r) db'
       = Some (cor_ID r, cor_Amount r, cor_DestinationPhone r).
Proof.
  do 2 eexists. split; [vm_compute; reflexivity|].
  eapply (proj1 (created_order_can_be_looked_up sample_create_env Go.POST
                   created _)).
  vm_compute. reflexivity.
Defined.

(** ** Order service: edge cases of the handler and of the dispatch *)

Lemma update_missing (status id : string) (db : DB) :
  has_order id db = false ->
  internal_orders (fst (update_order_status false status id db))
  = internal_orders db.
Proof.
  intros H. cbn. rewrite <- (map_id (internal_orders db)) at 2.
  apply map_ext_in. intros o Hin.
  destruct (String.eqb_spec (ID o) id) as [Heq|]; [|reflexivity].
  exfalso. apply (has_order_In id db H). apply in_map_iff. eauto.
Qed.

(** X3. A payment event for an order the table does not hold is not an
    error: the handler leaves the order table as it is, still appends
    its attempt row and, the order having no attempt row before, still
    starts the goroutine; that goroutine then finds no order, posts
    nothing and leaves the store as it is. *)
Theorem event_for_unknown_order (e : OrderService.HandlerEnv)
    (m : PaymentPaidMessage) (db : DB) :
  healthy e ->
  has_order (ppm_OrderID m) db = false ->
  attempts (ppm_OrderID m) db = 0%nat ->
  let after := fst (OrderService.handlePaymentPaid true e (Some m) db) in
  internal_orders after = internal_orders db
  /\ attempts (ppm_OrderID m) after = 1%nat
  /\ snd (OrderService.handlePaymentPaid true e (Some m) db) <> None
  /\ (forall de cid,
        OrderService.processFulfillment de (ppm_OrderID m) cid after
        = (after, None)).
Proof.
  intros He Hno Hat. cbv zeta.
  assert (internal_orders
            (fst (OrderService.handlePaymentPaid true e (Some m) db))
          = internal_orders db) as Ho.
  { rewrite handler_store. cbv zeta. destruct He as [-> [-> _]].
    cbn [update_order_status snd fst].
    rewrite insert_attempt_orders.
    now apply (update_missing "paid" (ppm_OrderID m) db). }
  split; [exact Ho|]. split.
  - rewrite (handler_attempts true e m db _ He), Hat, String.eqb_refl.
    reflexivity.
  - split.
    + rewrite (handler_decision_on e m db He), Hat. discriminate.
    + intros de cid. unfold OrderService.processFulfillment, select_order.
      destruct (OrderService.d_select_fails de); [reflexivity|].
      rewrite Ho, (has_order_find _ _ Hno). reflexivity.
Qed.

Lemma event_for_unknown_order_witness :
  let after :=
    fst (OrderService.handlePaymentPaid true sample_handler_env
           (Some sample_message) created) in
  internal_orders after = internal_orders created
  /\ attempts (ppm_OrderID sample_message) after = 1%nat
  /\ snd (OrderService.handlePaymentPaid true sample_handler_env
            (Some sample_message) created) <> None
  /\ (forall de cid,
        OrderService.processFulfillment de (ppm_OrderID sample_message) cid
                                        after
        = (after, None)).
Proof.
  apply (event_for_unknown_order sample_handler_env sample_message created).
  - repeat split.
  - reflexivity.
  - reflexivity.
Defined.

Lemma find_unique_row (id : string) (l : list Order) (o : Order) :
  NoDup (map ID l) -> In o l -> ID o = id ->
  find (fun x => (ID x =? id)%string) l = Some o.
Proof.
  induction l as [|a l IH]; cbn; [contradiction|].
  intros U Hin Hid. inversion U as [|x xs Hnot U']; subst.
  destruct (String.eqb_spec (ID a) (ID o)) as [Heq|Hne].
  - destruct Hin as [->|Hin]; [reflexivity|].
    exfalso. apply Hnot. rewrite Heq. now apply in_map.
  - destruct Hin as [->|Hin]; [congruence|]. now apply IH.
Qed.

(** X4. The request a delivery ends up posting is built from the stored
    order row and from the message's correlation id alone: it carries
    the order's id, destination phone and amount (the amount without
    the admin fee, whatever amount the message says was paid), and it
    is posted whatever the count and the insert of the dispatch and the
    outbound call itself report. *)
Theorem posted_request_comes_from_order_row (e : OrderService.HandlerEnv)
    (de : OrderService.DispatchEnv) (m : PaymentPaidMessage) (db : DB)
    (o : Order) :
  healthy e ->
  OrderService.d_select_fails de = false ->
  unique_ids db ->
  In o (internal_orders db) ->
  ID o = ppm_OrderID m ->
  attempts (ppm_OrderID m) db = 0%nat ->
  ppm_CorrelationID m <> "" ->
  OrderService.posted
    (OrderService.run true (OrderService.start db)
       [OrderService.Deliver e (Some m); OrderService.Schedule 0 de])
  = [{| efr_OrderID := ID o;
        efr_DestinationPhone := DestinationPhone o;
        efr_Amount := Amount o;
        efr_CorrelationID := ppm_CorrelationID m |}].
Proof.
  intros He Hs U Hin Hid Hat Hcid.
  unfold OrderService.run. cbn [fold_left].
  destruct (step_deliver true (OrderService.start db) e (Some m))
    as [Hst [Hp [_ Hg]]].
  cbn [OrderService.start OrderService.goroutines OrderService.store
       OrderService.posted app] in Hst, Hp, Hg.
  rewrite (handler_decision_on e m db He), Hat in Hg. cbn [Nat.eqb] in Hg.
  apply String.eqb_neq in Hcid. rewrite Hcid in Hg.
  set (s1 := OrderService.step true (OrderService.start db)
               (OrderService.Deliver e (Some m))) in *.
  destruct (step_schedule true s1 0 de
              (OrderService.mkTask (ppm_OrderID m) (ppm_CorrelationID m)))
    as [_ [Hp2 _]]; [now rewrite Hg|].
  rewrite Hp2, Hp. cbn [app OrderService.task_orderID
                        OrderService.task_correlationID].
  rewrite Hst.
  pose proof (handler_frame true e m db) as F.
  apply orders_frame_kept in F. unfold orders_kept in F.
  set (db1 := fst (OrderService.handlePaymentPaid true e (Some m) db)) in *.
  assert (exists o1, In o1 (internal_orders db1) /\ same_but_status o o1)
    as [o1 [Hin1 Hsame]].
  { clear -F Hin. induction F as [|a b l l' Hab F IH]; [contradiction|].
    destruct Hin as [->|Hin].
    - exists b. split; [now left | exact Hab].
    - destruct (IH Hin) as [o1 [H1 H2]]. exists o1. split; [now right|auto]. }
  destruct Hsame as [Hi [Ha [_ [_ [_ [Hd _]]]]]].
  assert (find (fun x => (ID x =? ppm_OrderID m)%string) (internal_orders db1)
          = Some o1) as Hf.
  { apply find_unique_row; [|exact Hin1|congruence].
    unfold unique_ids in U. now rewrite (kept_ids _ _ F). }
  unfold OrderService.processFulfillment, select_order. rewrite Hs, Hf.
  destruct (insert_attempt _ _ _ _ _ db1) as [db2 err].
  rewrite Hi, Ha, Hd.
  destruct (OrderService.d_post de) as [t|code]; [reflexivity|].
  destruct (code =? Go.StatusOK); [|reflexivity].
  now destruct (update_order_status _ _ _ db2).
Qed.

Lemma posted_request_comes_from_order_row_witness :
  OrderService.posted
    (OrderService.run true (OrderService.start sample_store)
       [OrderService.Deliver sample_handler_env (Some sample_message);
        OrderService.Schedule 0 sample_dispatch_env])
  = [{| efr_OrderID := "0192f3a1-7c5e-7b21-9d3e-5a1f0c2b4d6e";
        efr_DestinationPhone := "0815-000-0042";
        efr_Amount := 5000;
        efr_CorrelationID := "K3X9QA" |}].
Proof.
  apply (posted_request_comes_from_order_row sample_handler_env
           sample_dispatch_env sample_message sample_store
           (set_status "pending"
              {| ID := "0192f3a1-7c5e-7b21-9d3e-5a1f0c2b4d6e";
                 Amount := 5000; AdminFee := 100; Type_ := "phone_credit";
                 Operator := "indosat"; DestinationPhone := "0815-000-0042";
                 Total := 5100; Status := "pending";
                 CreatedAt :=
                   timestamp_column (Time.mk 1762106520000000000 25200) |})).
  - repeat split.
  - reflexivity.
  - unfold unique_ids. cbn. repeat constructor. intros [].
  - cbn. left. reflexivity.
  - reflexivity.
  - reflexivity.
  - discriminate.
Defined.

(** ** Order service: the status column *)

Lemma status_is_orders (id status : string) (db db' : DB) :
  internal_orders db' = internal_orders db ->
  status_is id status db -> status_is id status db'.
Proof. unfold status_is. now intros ->. Qed.

Lemma update_sets (status id : string) (db : DB) :
  status_is id status (fst (update_order_status false status id db)).
Proof.
  unfold status_is. cbn. intros o Hin Hid.
  apply in_map_iff in Hin as [a [<- _]].
  destruct (String.eqb_spec (ID a) id) as [_|Hne]; [reflexivity|].
  now destruct Hne.
Qed.

Lemma has_order_kept (id : string) (db db' : DB) :
  orders_kept db db' -> has_order id db' = has_order id db.
Proof.
  unfold orders_kept, has_order. intros F.
  induction F as [|a b l l' [Hid _] _ IH]; cbn; [reflexivity|].
  now rewrite Hid, IH.
Qed.

Lemma handler_sets_paid cfg e m db :
  OrderService.h_update_fails e = false ->
  status_is (ppm_OrderID m) "paid"
            (fst (OrderService.handlePaymentPaid cfg e (Some m) db)).
Proof.
  intros Hu. rewrite handler_store. cbv zeta. rewrite Hu.
  cbn [update_order_status snd].
  eapply status_is_orders; [apply insert_attempt_orders|].
  apply (update_sets "paid" (ppm_OrderID m) db).
Qed.

Lemma dispatch_sets_fulfilment de orderID cid db :
  OrderService.d_select_fails de = false ->
  OrderService.d_update_fails de = false ->
  OrderService.d_post de = Httpclient.PostResponse 200 ->
  has_order orderID db = true ->
  status_is orderID "fulfilment"
            (fst (OrderService.processFulfillment de orderID cid db)).
Proof.
  intros Hs Hu Hp Hh. rewrite dispatch_store. rewrite Hs, Hp, Hu.
  unfold select_order.
  destruct (find _ (internal_orders db)) as [o|] eqn:F.
  - cbv zeta. cbn [Z.eqb Go.StatusOK Pos.eqb].
    set (db1 := fst (insert_attempt _ _ _ _ _ db)).
    apply (update_sets "fulfilment" orderID db1).
  - exfalso. unfold has_order in Hh. apply existsb_exists in Hh as [o [Hin Ho]].
    now rewrite (find_none _ _ F o Hin) in Ho.
Qed.

(** X5. An order whose payment event is handled and whose dispatch is
    answered with status 200 goes to paid and then to fulfilment; a
    duplicate of the event delivered after that puts the order back to
    paid and, the order having attempt rows, starts no further
    dispatch. *)
Theorem late_duplicate_resets_status (e e' : OrderService.HandlerEnv)
    (de : OrderService.DispatchEnv) (m : PaymentPaidMessage) (cid : string)
    (db : DB) :
  healthy e -> healthy e' ->
  OrderService.d_select_fails de = false ->
  OrderService.d_update_fails de = false ->
  OrderService.d_post de = Httpclient.PostResponse 200 ->
  has_order (ppm_OrderID m) db = true ->
  let db1 := fst (OrderService.handlePaymentPaid true e (Some m) db) in
  let db2 :=
    fst (OrderService.processFulfillment de (ppm_OrderID m) cid db1) in
  let db3 := fst (OrderService.handlePaymentPaid true e' (Some m) db2) in
  status_is (ppm_OrderID m) "paid" db1
  /\ status_is (ppm_OrderID m) "fulfilment" db2
  /\ status_is (ppm_OrderID m) "paid" db3
  /\ snd (OrderService.handlePaymentPaid true e' (Some m) db2) = None.
Proof.
  intros He He' Hs Hu Hp Hh. cbv zeta.
  split; [apply handler_sets_paid, He|]. split.
  - apply dispatch_sets_fulfilment; auto.
    rewrite (has_order_kept _ db); [exact Hh|].
    eapply orders_frame_kept, handler_frame.
  - split; [apply handler_sets_paid, He'|].
    rewrite (handler_decision_on e' m _ He').
    pose proof (proj1 (dispatch_attempts_mono de (ppm_OrderID m) cid
      (fst (OrderService.handlePaymentPaid true e (Some m) db))
      (ppm_OrderID m))) as M.
    rewrite (handler_attempts true e m db _ He), String.eqb_refl in M.
    cbn [indicator] in M.
    destruct (Nat.eqb_spec
      (attempts (ppm_OrderID m)
         (fst (OrderService.processFulfillment de (ppm_OrderID m) cid
            (fst (OrderService.handlePaymentPaid true e (Some m) db))))) 0);
      [lia | reflexivity].
Qed.

Lemma late_duplicate_resets_status_witness :
  let m := sample_message in
  let db1 :=
    fst (OrderService.handlePaymentPaid true sample_handler_env (Some m)
                                        sample_store) in
  let db2 :=
    fst (OrderService.processFulfillment sample_dispatch_env (ppm_OrderID m)
                                         "K3X9QA" db1) in
  let db3 :=
    fst (OrderService.handlePaymentPaid true sample_handler_env (Some m)
                                        db2) in
  status_is (ppm_OrderID m) "paid" db1
  /\ status_is (ppm_OrderID m) "fulfilment" db2
  /\ status_is (ppm_OrderID m) "paid" db3
  /\ snd (OrderService.handlePaymentPaid true sample_handler_env (Some m) db2)
     = None.
Proof.
  apply (late_duplicate_resets_status sample_handler_env sample_handler_env
           sample_dispatch_env sample_message "K3X9QA" sample_store);
    try reflexivity; repeat split.
Defined.

(** X6. A dispatch whose outbound call reports an error, or is answered
    with a status other than 200, leaves the order table exactly as it
    was, while its attempt row, when the insert goes through, has been
    written. *)
Theorem failed_call_leaves_order_as_is (de : OrderService.DispatchEnv)
    (orderID cid : string) (db : DB) :
  (forall code, OrderService.d_post de = Httpclient.PostResponse code ->
                code <> 200) ->
  let after := fst (OrderService.processFulfillment de orderID cid db) in
  internal_orders after = internal_orders db
  /\ (has_order orderID db = true ->
      OrderService.d_select_fails de = false ->
      OrderService.d_insert_fails de = false ->
      attempts orderID after = S (attempts orderID db)).
Proof.
  intros Hp. cbv zeta. rewrite dispatch_store. split.
  - destruct (select_order _ orderID db) as [[[i a] p]|]; [|reflexivity].
    cbv zeta. destruct (OrderService.d_post de) as [t|code];
      [apply insert_attempt_orders|].
    destruct (Z.eqb_spec code Go.StatusOK) as [->|_];
      [now destruct (Hp 200 eq_refl) | apply insert_attempt_orders].
  - intros Hh Hs Hi. rewrite Hs, Hi. unfold select_order.
    destruct (find _ (internal_orders db)) as [o|] eqn:F.
    + cbv zeta. destruct (OrderService.d_post de) as [t|code].
      * rewrite insert_attempt_count, String.eqb_refl. cbn. lia.
      * destruct (Z.eqb_spec code Go.StatusOK) as [->|_];
          [now destruct (Hp 200 eq_refl)|].
        rewrite insert_attempt_count, String.eqb_refl. cbn. lia.
    + exfalso. unfold has_order in Hh.
      apply existsb_exists in Hh as [o [Hin Ho]].
      now rewrite (find_none _ _ F o Hin) in Ho.
Qed.

Lemma failed_call_leaves_order_as_is_witness :
  let de := OrderService.mkDispatchEnv false false false
              (Time.mk 1762106523600000000 25200)
              (Httpclient.PostResponse 500) false in
  let after :=
    fst (OrderService.processFulfillment de (ID sample_order) "K3X9QA"
                                         sample_store) in
  internal_orders after = internal_orders sample_store
  /\ (has_order (ID sample_order) sample_store = true ->
      OrderService.d_select_fails de = false ->
      OrderService.d_insert_fails de = false ->
      attempts (ID sample_order) after
      = S (attempts (ID sample_order) sample_store)).
Proof.
  apply (failed_call_leaves_order_as_is
           (OrderService.mkDispatchEnv false false false
              (Time.mk 1762106523600000000 25200)
              (Httpclient.PostResponse 500) false)
           (ID sample_order) "K3X9QA" sample_store).
  intros code [= <-]. discriminate.
Defined.

Lemma status_written_refl (a : Order) : status_written a a.
Proof. now left. Qed.

Lemma status_written_trans (a b c : Order) :
  status_written a b -> status_written b c -> status_written a c.
Proof. unfold status_written. intuition congruence. Qed.

Lemma update_written fails (status id : string) (db : DB) :
  status = "paid" \/ status = "fulfilment" ->
  Forall2 status_written (internal_orders db)
          (internal_orders (fst (update_order_status fails status id db))).
Proof.
  intros Hs. unfold update_order_status.
  destruct fails; cbn; [apply Forall2_same, status_written_refl|].
  apply Forall2_map_self. intros a.
  destruct (ID a =? id)%string; [right; exact Hs | now left].
Qed.

Lemma same_orders_written (db db' : DB) :
  internal_orders db' = internal_orders db ->
  Forall2 status_written (internal_orders db) (internal_orders db').
Proof. intros ->. apply Forall2_same, status_written_refl. Qed.

Lemma handler_written cfg e data db :
  Forall2 status_written (internal_orders db)
    (internal_orders (fst (OrderService.handlePaymentPaid cfg e data db))).
Proof.
  destruct data as [m|]; [|apply Forall2_same, status_written_refl].
  rewrite handler_store. cbv zeta.
  pose proof (update_written (OrderService.h_update_fails e) "paid"
                (ppm_OrderID m) db (or_introl eq_refl)) as W.
  destruct (update_order_status _ _ _ db) as [db1 [|]]; cbn [fst snd] in *;
    [exact W|].
  now rewrite insert_attempt_orders.
Qed.

Lemma dispatch_written de orderID cid db :
  Forall2 status_written (internal_orders db)
    (internal_orders (fst (OrderService.processFulfillment de orderID cid db))).
Proof.
  rewrite dispatch_store.
  destruct (select_order _ orderID db) as [[[i a] p]|];
    [|apply Forall2_same, status_written_refl].
  cbv zeta. set (db1 := fst (insert_attempt _ _ _ _ _ db)).
  assert (internal_orders db1 = internal_orders db) as E
    by apply insert_attempt_orders.
  destruct (OrderService.d_post de) as [t|code];
    [now apply same_orders_written|].
  destruct (code =? Go.StatusOK); [|now apply same_orders_written].
  rewrite <- E. apply update_written. now right.
Qed.

Lemma step_store_cases cfg s ev :
  (exists e data,
     OrderService.store (OrderService.step cfg s ev)
     = fst (OrderService.handlePaymentPaid cfg e data (OrderService.store s)))
  \/ (exists de orderID cid,
        OrderService.store (OrderService.step cfg s ev)
        = fst (OrderService.processFulfillment de orderID cid
                 (OrderService.store s)))
  \/ OrderService.store (OrderService.step cfg s ev) = OrderService.store s.
Proof.
  destruct ev as [e data|n de].
  - left. exists e, data. apply step_deliver.
  - destruct (nth_error (OrderService.goroutines s) n) as [t|] eqn:H.
    + right. left. do 3 eexists.
      exact (proj1 (step_schedule cfg s n de t H)).
    + right. right. now rewrite step_schedule_idle.
Qed.

(** X7. Along any run of the service every order row ends with the
    status it started with or with one of paid and fulfilment: the
    values failed and completed are never written. *)
Theorem only_paid_and_fulfilment_are_written (cfg : bool)
    (evs : list OrderService.Event) (s : OrderService.Service) :
  Forall2 status_written
    (internal_orders (OrderService.store s))
    (internal_orders (OrderService.store (OrderService.run cfg s evs))).
Proof.
  revert s. unfold OrderService.run.
  induction evs as [|ev evs IH]; intros s; cbn [fold_left].
  - apply Forall2_same, status_written_refl.
  - eapply Forall2_compose; [exact status_written_trans | | apply IH].
    destruct (step_store_cases cfg s ev)
      as [[e [data ->]]|[[de [orderID [cid ->]]]| ->]].
    + apply handler_written.
    + apply dispatch_written.
    + apply Forall2_same, status_written_refl.
Qed.

(** ** Order service: the attempt log *)

Lemma log_extends_refl (db : DB) : log_extends db db.
Proof. exists []. now rewrite app_nil_r. Qed.

Lemma log_extends_trans (a b c : DB) :
  log_extends a b -> log_extends b c -> log_extends a c.
Proof.
  intros [m1 H1] [m2 H2]. exists (m1 ++ m2)%list.
  now rewrite H2, H1, app_assoc.
Qed.

Lemma insert_attempt_log fails order_id number payload now db :
  log_extends db (fst (insert_attempt fails order_id number payload now db))
  /\ (attempt_ids_fresh db ->
      attempt_ids_fresh
        (fst (insert_attempt fails order_id number payload now db))).
Proof.
  unfold insert_attempt. destruct fails; cbn [fst].
  - split; [apply log_extends_refl | auto].
  - split; [eexists; reflexivity|].
    unfold attempt_ids_fresh. cbn. intros [B U]. split.
    + apply Forall_app. split.
      * eapply Forall_impl; [|exact B]. cbn. intros; lia.
      * constructor; [cbn; lia | constructor].
    + rewrite map_app. cbn.
      apply Permutation_NoDup
        with (l := fulfillment_attempts_seq db
                     :: map fa_ID (fulfillment_attempts db)).
      * apply Permutation_cons_append.
      * constructor; [|exact U]. intros Hin.
        apply in_map_iff in Hin as [a [Ha Hin]].
        rewrite Forall_forall in B. specialize (B a Hin). lia.
Qed.

Lemma update_log fails (status id : string) (db : DB) :
  log_extends db (fst (update_order_status fails status id db))
  /\ (attempt_ids_fresh db ->
      attempt_ids_fresh (fst (update_order_status fails status id db))).
Proof.
  unfold update_order_status, attempt_ids_fresh. destruct fails; cbn.
  - split; [apply log_extends_refl | auto].
  - split; [apply (log_extends_refl db) | auto].
Qed.

Lemma handler_log cfg e data db :
  log_extends db (fst (OrderService.handlePaymentPaid cfg e data db))
  /\ (attempt_ids_fresh db ->
      attempt_ids_fresh (fst (OrderService.handlePaymentPaid cfg e data db))).
Proof.
  destruct data as [m|]; [|split; [apply log_extends_refl | auto]].
  rewrite handler_store. cbv zeta.
  destruct (update_log (OrderService.h_update_fails e) "paid"
                       (ppm_OrderID m) db) as [L1 F1].
  destruct (update_order_status _ _ _ db) as [db1 [|]]; cbn [fst snd] in *;
    [now split|].
  destruct (insert_attempt_log (OrderService.h_insert_fails e)
              (ppm_OrderID m) 1
              (OrderService.handler_payload (ppm_OrderID m) 0 "")
              (OrderService.h_server_now e) db1) as [L2 F2].
  split; [eapply log_extends_trans; eassumption | auto].
Qed.

Lemma dispatch_log de orderID cid db :
  log_extends db (fst (OrderService.processFulfillment de orderID cid db))
  /\ (attempt_ids_fresh db ->
      attempt_ids_fresh
        (fst (OrderService.processFulfillment de orderID cid db))).
Proof.
  rewrite dispatch_store.
  destruct (select_order _ orderID db) as [[[i a] p]|];
    [|split; [apply log_extends_refl | auto]].
  cbv zeta.
  match goal with
  | |- context [insert_attempt ?f ?o ?n ?p ?t db] =>
    destruct (insert_attempt_log f o n p t db) as [L1 F1];
    set (db1 := fst (insert_attempt f o n p t db)) in *
  end.
  destruct (OrderService.d_post de) as [t|code]; [now split|].
  destruct (code =? Go.StatusOK); [|now split].
  destruct (update_log (OrderService.d_update_fails de) "fulfilment" orderID
                       db1) as [L2 F2].
  split; [eapply log_extends_trans; eassumption | auto].
Qed.

(** X8. The attempt log is append-only along any run of the service:
    the rows present at the start are still there at the end,
    unchanged and in the same positions, followed by the new ones; and
    the row identifiers stay pairwise distinct. *)
Theorem attempt_log_is_append_only (cfg : bool)
    (evs : list OrderService.Event) (s : OrderService.Service) :
  log_extends (OrderService.store s)
              (OrderService.store (OrderService.run cfg s evs))
  /\ (attempt_ids_fresh (OrderService.store s) ->
      attempt_ids_fresh (OrderService.store (OrderService.run cfg s evs))).
Proof.
  revert s. unfold OrderService.run.
  induction evs as [|ev evs IH]; intros s; cbn [fold_left].
  - split; [apply log_extends_refl | auto].
  - destruct (IH (OrderService.step cfg s ev)) as [L F].
    assert (log_extends (OrderService.store s)
              (OrderService.store (OrderService.step cfg s ev))
            /\ (attempt_ids_fresh (OrderService.store s) ->
                attempt_ids_fresh
                  (OrderService.store (OrderService.step cfg s ev))))
      as [L0 F0].
    { destruct (step_store_cases cfg s ev)
        as [[e [data ->]]|[[de [orderID [cid ->]]]| ->]].
      - apply handler_log.
      - apply dispatch_log.
      - split; [apply log_extends_refl | auto]. }
    split; [eapply log_extends_trans; eassumption | auto].
Qed.

Lemma attempt_log_is_append_only_witness :
  log_extends sample_store
    (OrderService.store
       (OrderService.run true (OrderService.start sample_store) sample_run))
  /\ attempt_ids_fresh
       (OrderService.store
          (OrderService.run true (OrderService.start sample_store)
                            sample_run)).
Proof.
  destruct (attempt_log_is_append_only true sample_run
              (OrderService.start sample_store)) as [L F].
  split; [exact L|]. apply F.
  unfold attempt_ids_fresh. cbn. split; constructor.
Defined.

(** ** External fulfilment service: what the table holds *)

Lemma lookup_none_not_in (order_id : string) (db : DB) :
  select_ext_order false order_id db = None ->
  ~ In order_id (map eo_OrderID (ext_orders db)).
Proof.
  unfold select_ext_order. intros F Hin.
  apply in_map_iff in Hin as [r [Hr Hin]].
  pose proof (find_none _ _ F r Hin) as E. cbn in E.
  rewrite Hr, String.eqb_refl in E. discriminate.
Qed.

Lemma NoDup_snoc {A : Type} (l : list A) (x : A) :
  NoDup l -> ~ In x l -> NoDup (l ++ [x]).
Proof.
  intros U H. apply Permutation_NoDup with (l := x :: l).
  - apply Permutation_cons_append.
  - now constructor.
Qed.

Lemma process_fresh_rows e req db :
  ext_orders (fst (ExternalService.process_fresh e req db))
  = if ExternalService.insert_fails e then ext_orders db
    else (ext_orders db
            ++ [{| eo_ID := ext_orders_seq db;
                   eo_OrderID := efr_OrderID req;
                   eo_DestinationPhone := efr_DestinationPhone req;
                   eo_Amount := efr_Amount req;
                   eo_Status :=
                     if ExternalService.chance e <? 10
                     then "error" else "success";
                   eo_Error :=
                     if ExternalService.chance e <? 10
                     then "Random error occurred" else "";
                   eo_ProcessedAt :=
                     timestamp_column (ExternalService.now_processed e) |}])
           %list.
Proof.
  unfold ExternalService.process_fresh, insert_ext_order.
  destruct (ExternalService.chance e <? 10);
    destruct (ExternalService.insert_fails e); reflexivity.
Qed.

Lemma process_fresh_seq e req db :
  ext_orders_seq (fst (ExternalService.process_fresh e req db))
  = if ExternalService.insert_fails e then ext_orders_seq db
    else ext_orders_seq db + 1.
Proof.
  unfold ExternalService.process_fresh, insert_ext_order.
  destruct (ExternalService.chance e <? 10);
    destruct (ExternalService.insert_fails e); reflexivity.
Qed.

(** The store after a request is the store before, or that of the
    fresh path. *)
Lemma process_store toggle e method body db :
  fst (ExternalService.processOrder toggle e method body db) = db
  \/ (exists req,
        method = Go.POST /\ body = Some req
        /\ (toggle = true ->
            select_ext_order (ExternalService.select_fails e)
                             (efr_OrderID req) db = None)
        /\ fst (ExternalService.processOrder toggle e method body db)
           = fst (ExternalService.process_fresh e req db)).
Proof.
  unfold ExternalService.processOrder.
  destruct method; cbn [Go.is_post negb fst]; auto.
  destruct body as [req|]; cbn [fst]; auto.
  destruct toggle.
  - destruct (select_ext_order _ _ db) as [row|] eqn:S; cbn [fst]; auto.
    right. exists req. repeat split; auto.
  - right. exists req. repeat split; auto. discriminate.
Qed.

Lemma single_outcome (o : string) (l : list ExtOrder) :
  NoDup (map eo_OrderID l) ->
  (List.length (filter (fun r => (eo_OrderID r =? o)%string) l) <= 1)%nat.
Proof.
  induction l as [|r l IH]; cbn; [lia|].
  intros U. inversion U as [|x xs Hnot U']; subst.
  destruct (String.eqb_spec (eo_OrderID r) o) as [Heq|Hne]; [|now apply IH].
  cbn. destruct (filter _ l) as [|q rest] eqn:F; [cbn; lia|].
  exfalso. apply Hnot.
  assert (In q (filter (fun r => (eo_OrderID r =? o)%string) l)) as Hq
    by (rewrite F; now left).
  apply filter_In in Hq as [Hq Ho]. apply String.eqb_eq in Ho.
  apply in_map_iff. exists q. split; [congruence | exact Hq].
Qed.

(** X9. With the server-side toggle on and the lookups going through,
    requests handled one after the other never leave two stored
    outcomes for one order: a table with at most one outcome per order
    keeps that property, whatever the draws and whether inserts fail. *)
Theorem toggle_on_keeps_one_outcome_per_order (calls : list ExternalCall)
    (db : DB) :
  Forall lookup_healthy calls ->
  one_outcome_per_order db ->
  one_outcome_per_order (serve_external true db calls)
  /\ (forall o,
        List.length (outcomes_of o (serve_external true db calls)) <= 1)%nat.
Proof.
  intros H U.
  assert (one_outcome_per_order (serve_external true db calls)) as G.
  { revert db U. unfold serve_external.
    induction calls as [|c calls IH]; intros db U; [exact U|].
    inversion H as [|x xs Hc Hcs]; subst. cbn [fold_left].
    apply IH; [exact Hcs|].
    destruct (process_store true (xc_env c) (xc_method c) (xc_body c) db)
      as [->|[req [_ [_ [Hn ->]]]]]; [exact U|].
    unfold one_outcome_per_order. rewrite process_fresh_rows.
    destruct (ExternalService.insert_fails (xc_env c)); [exact U|].
    rewrite map_app. cbn. apply NoDup_snoc; [exact U|].
    apply lookup_none_not_in. rewrite <- Hc. now apply Hn. }
  split; [exact G|]. intros o. now apply single_outcome.
Qed.

Lemma toggle_on_keeps_one_outcome_per_order_witness :
  one_outcome_per_order (serve_external true created sample_external_calls)
  /\ (forall o,
        List.length
          (outcomes_of o (serve_external true created sample_external_calls))
        <= 1)%nat.
Proof.
  apply (toggle_on_keeps_one_outcome_per_order sample_external_calls created).
  - repeat constructor.
  - unfold one_outcome_per_order. cbn. constructor.
Defined.

(** X10. With the server-side toggle off nothing is suppressed: every
    POST with a readable body whose insert goes through adds one
    stored outcome for its order, so an order requested n times that
    way ends with n more outcomes. *)
Theorem toggle_off_accumulates_outcomes (o : string)
    (calls : list ExternalCall) (db : DB) :
  List.length (outcomes_of o (serve_external false db calls))
  = (List.length (outcomes_of o db)
     + List.length (filter (inserts_for o) calls))%nat.
Proof.
  revert db. unfold serve_external.
  induction calls as [|c calls IH]; intros db; cbn [fold_left filter];
    [cbn; lia|].
  rewrite IH. unfold inserts_for at 2, ExternalService.processOrder.
  destruct (xc_method c); cbn [Go.is_post negb fst]; try lia.
  destruct (xc_body c) as [req|]; cbn [fst]; [|lia].
  unfold outcomes_of at 1. rewrite process_fresh_rows.
  destruct (ExternalService.insert_fails (xc_env c)); cbn [negb];
    [rewrite andb_false_r; unfold outcomes_of; lia|].
  rewrite andb_true_r, filter_app, length_app. cbn [filter eo_OrderID].
  unfold outcomes_of.
  destruct (efr_OrderID req =? o)%string; cbn [List.length]; lia.
Qed.

Example three_requests_with_the_toggle_off :
  List.length
    (outcomes_of (efr_OrderID sample_request)
       (serve_external false created sample_external_calls)) = 3%nat
  /\ map eo_Status (ext_orders
                      (serve_external false created sample_external_calls))
     = ["success"; "error"; "success"].
Proof. vm_compute. split; reflexivity. Qed.

(** ** External fulfilment service: outcomes and replies *)

Lemma stored_response_shape (row : ExtOrder) :
  outcome_shape row -> reply_shape (ExternalService.stored_response row).
Proof.
  unfold outcome_shape, reply_shape, ExternalService.stored_response.
  intros [[Hs He]|[Hs He]]; rewrite Hs, He; cbn.
  - left. repeat split. discriminate.
  - right. repeat split.
Qed.

Lemma process_fresh_reply e req db body :
  snd (ExternalService.process_fresh e req db) = Http.Json body ->
  reply_shape body
  /\ (resp_Status body = "success" ->
      exists d, resp_Data body = Some d
                /\ sd_OrderID d = efr_OrderID req
                /\ sd_VendorOrderID d = ext_orders_seq db).
Proof.
  unfold ExternalService.process_fresh, insert_ext_order, reply_shape.
  destruct (ExternalService.chance e <? 10);
    destruct (ExternalService.insert_fails e); cbn; try discriminate;
    intros [= <-]; cbn.
  - split; [right; repeat split | discriminate].
  - split; [left; repeat split; discriminate | eauto].
Qed.

(** X11. Every stored outcome is a success without error text or an
    error with the fixed text, and every JSON reply, fresh or replayed,
    says the same and carries data exactly when the status is success;
    requests handled one after the other keep the table in that
    shape. *)
Theorem outcomes_and_replies_are_consistent (toggle : bool)
    (e : ExternalService.Env) (method : Go.Method)
    (body : option ExternalFulfillmentRequest) (db : DB) :
  outcomes_shaped db ->
  outcomes_shaped (fst (ExternalService.processOrder toggle e method body db))
  /\ (forall r,
        snd (ExternalService.processOrder toggle e method body db)
        = Http.Json r -> reply_shape r)
  /\ (forall calls, outcomes_shaped (serve_external toggle db calls)).
Proof.
  assert (forall e method body db,
            outcomes_shaped db ->
            outcomes_shaped
              (fst (ExternalService.processOrder toggle e method body db)))
    as P.
  { clear. intros e method body db S.
    destruct (process_store toggle e method body db)
      as [->|[req [_ [_ [_ ->]]]]]; [exact S|].
    unfold outcomes_shaped. rewrite process_fresh_rows.
    destruct (ExternalService.insert_fails e); [exact S|].
    apply Forall_app. split; [exact S|]. constructor; [|constructor].
    unfold outcome_shape. cbn.
    destruct (ExternalService.chance e <? 10); auto. }
  intros S. split; [now apply P|]. split.
  - intros r. unfold ExternalService.processOrder.
    destruct (negb (Go.is_post method)); [discriminate|].
    destruct body as [req|]; [|discriminate].
    assert (snd (ExternalService.process_fresh e req db) = Http.Json r ->
            reply_shape r) as Fr
      by (intros H; now apply (process_fresh_reply e req db r)).
    destruct toggle; [|exact Fr].
    unfold select_ext_order.
    destruct (ExternalService.select_fails e); [exact Fr|].
    destruct (find _ (ext_orders db)) as [row|] eqn:F; [|exact Fr].
    cbn. intros [= <-]. apply stored_response_shape.
    apply find_some in F as [Hin _].
    unfold outcomes_shaped in S. rewrite Forall_forall in S. now apply S.
  - intros calls. revert db S. unfold serve_external.
    induction calls as [|c calls IH]; intros db S; [exact S|].
    cbn [fold_left]. apply IH. now apply P.
Qed.

Lemma outcomes_and_replies_are_consistent_witness :
  outcomes_shaped (serve_external false created sample_external_calls).
Proof.
  apply (outcomes_and_replies_are_consistent false (sample_external_env 50)
           Go.POST (Some sample_request) created).
  constructor.
Defined.

(** X12. Insert and lookup round trip: after a request for an order
    without stored outcome whose insert goes through, the lookup by
    the order id returns the row just written, which carries the
    request's destination phone and amount, the drawn status and the
    identifier the table handed out; on success the reply reports that
    identifier as vendor-order-id. *)
Theorem fresh_outcome_can_be_looked_up (toggle : bool)
    (e : ExternalService.Env) (req : ExternalFulfillmentRequest) (db : DB) :
  unprocessed (efr_OrderID req) db ->
  ExternalService.insert_fails e = false ->
  exists row body,
    select_ext_order false (efr_OrderID req)
      (fst (ExternalService.processOrder toggle e Go.POST (Some req) db))
    = Some row
    /\ snd (ExternalService.processOrder toggle e Go.POST (Some req) db)
       = Http.Json body
    /\ eo_ID row = ext_orders_seq db
    /\ eo_DestinationPhone row = efr_DestinationPhone req
    /\ eo_Amount row = efr_Amount req
    /\ eo_Status row = resp_Status body
    /\ eo_Error row = resp_Error body
    /\ (eo_Status row = "error" <-> ExternalService.chance e < 10)
    /\ (forall d, resp_Data body = Some d -> sd_VendorOrderID d = eo_ID row).
Proof.
  intros U Hi. rewrite (unprocessed_is_fresh toggle e req db U).
  pose proof (unprocessed_lookup false _ _ U) as Hn.
  unfold select_ext_order in *. rewrite process_fresh_rows, Hi.
  unfold ExternalService.process_fresh, insert_ext_order. rewrite Hi.
  destruct (Z.ltb_spec (ExternalService.chance e) 10) as [Hlt|Hge]; cbn.
  - do 2 eexists. split.
    + apply find_last; [exact Hn | cbn; apply String.eqb_refl].
    + cbn. repeat split; auto; discriminate.
  - do 2 eexists. split.
    + apply find_last; [exact Hn | cbn; apply String.eqb_refl].
    + cbn. repeat split; auto; try discriminate; try lia.
      now intros d [= <-].
Qed.

Lemma fresh_outcome_can_be_looked_up_witness :
  exists row body,
    select_ext_order false (efr_OrderID sample_request)
      (fst (ExternalService.processOrder true (sample_external_env 3) Go.POST
              (Some sample_request) created))
    = Some row
    /\ snd (ExternalService.processOrder true (sample_external_env 3) Go.POST
              (Some sample_request) created)
       = Http.Json body
    /\ eo_ID row = ext_orders_seq created
    /\ eo_DestinationPhone row = efr_DestinationPhone sample_request
    /\ eo_Amount row = efr_Amount sample_request
    /\ eo_Status row = resp_Status body
    /\ eo_Error row = resp_Error body
    /\ (eo_Status row = "error"
        <-> ExternalService.chance (sample_external_env 3) < 10)
    /\ (forall d, resp_Data body = Some d -> sd_VendorOrderID d = eo_ID row).
Proof.
  apply (fresh_outcome_can_be_looked_up true (sample_external_env 3)
                                        sample_request created).
  - unfold unprocessed. cbn. intros r [].
  - reflexivity.
Defined.

(** X13. The identifiers of the stored outcomes are pairwise distinct
    and below the table's counter, requests handled one after the
    other keep them so, and the vendor-order-id of a fresh success is
    therefore the identifier of no outcome stored before. *)
Theorem vendor_order_ids_are_fresh (toggle : bool) (db : DB) :
  outcome_ids_fresh db ->
  (forall calls, outcome_ids_fresh (serve_external toggle db calls))
  /\ (forall e req body d,
        snd (ExternalService.process_fresh e req db) = Http.Json body ->
        resp_Data body = Some d ->
        forall row, In row (ext_orders db) -> eo_ID row <> sd_VendorOrderID d).
Proof.
  intros I. split.
  - intros calls. revert db I. unfold serve_external.
    induction calls as [|c calls IH]; intros db I; [exact I|].
    cbn [fold_left]. apply IH.
    destruct (process_store toggle (xc_env c) (xc_method c) (xc_body c) db)
      as [->|[req [_ [_ [_ ->]]]]]; [exact I|].
    unfold outcome_ids_fresh. rewrite process_fresh_rows, process_fresh_seq.
    destruct (ExternalService.insert_fails (xc_env c)); [exact I|].
    destruct I as [B U]. split.
    + apply Forall_app. split.
      * eapply Forall_impl; [|exact B]. cbn. intros; lia.
      * constructor; [cbn; lia | constructor].
    + rewrite map_app. cbn. apply NoDup_snoc; [exact U|].
      intros Hin. apply in_map_iff in Hin as [a [Ha Hin]].
      rewrite Forall_forall in B. specialize (B a Hin). lia.
  - intros e req body d Hr Hd row Hin.
    destruct (process_fresh_reply e req db body Hr) as [Sh V].
    destruct Sh as [[Hs _]|[_ [_ Hnone]]]; [|congruence].
    destruct (V Hs) as [d' [Hd' [_ Hv]]].
    assert (d' = d) as -> by congruence.
    destruct I as [B _]. rewrite Forall_forall in B.
    specialize (B row Hin). lia.
Qed.

Lemma vendor_order_ids_are_fresh_witness :
  outcome_ids_fresh (serve_external false created sample_external_calls).
Proof.
  apply (proj1 (vendor_order_ids_are_fresh false created
                  ltac:(split; constructor))).
Defined.

(** ** Requests answered with an error *)

(** X14. A request that the payment service or the external service
    answers with an HTTP error has changed nothing: the store is as it
    was, and the payment service has neither slept nor published. *)
Theorem error_replies_change_nothing :
  (forall timeoutMs e method body db text code,
     PaymentService.reply
       (PaymentService.triggerPaymentPaid timeoutMs e method body db)
     = Http.Error text code ->
     PaymentService.store
       (PaymentService.triggerPaymentPaid timeoutMs e method body db) = db
     /\ PaymentService.effects
          (PaymentService.triggerPaymentPaid timeoutMs e method body db) = [])
  /\ (forall toggle e method body db text code,
        snd (ExternalService.processOrder toggle e method body db)
        = Http.Error text code ->
        fst (ExternalService.processOrder toggle e method body db) = db).
Proof.
  split.
  - intros timeoutMs e method body db text code.
    unfold PaymentService.triggerPaymentPaid.
    destruct (negb (Go.is_post method)); [now split|].
    destruct body as [req|]; [|now split].
    now destruct (upsert_payment _ _ _ _ db).
  - intros toggle e method body db text code.
    unfold ExternalService.processOrder.
    destruct (negb (Go.is_post method)); [reflexivity|].
    destruct body as [req|]; [|reflexivity].
    assert (snd (ExternalService.process_fresh e req db)
            = Http.Error text code ->
            fst (ExternalService.process_fresh e req db) = db) as Fr.
    { unfold ExternalService.process_fresh, insert_ext_order.
      destruct (ExternalService.chance e <? 10);
        destruct (ExternalService.insert_fails e); cbn;
        try reflexivity; discriminate. }
    destruct toggle; [|exact Fr].
    destruct (select_ext_order _ _ db); [reflexivity | exact Fr].
Qed.

Lemma error_replies_change_nothing_witness :
  fst (ExternalService.processOrder true (sample_external_env 50) Go.GET
                                    None sample_store) = sample_store.
Proof.
  apply (proj2 error_replies_change_nothing true (sample_external_env 50)
               Go.GET None sample_store "Method not allowed"
               Go.StatusMethodNotAllowed).
  reflexivity.
Defined.

(** ** The dispatch and the external service together *)

(** X15. The dispatch looks at the HTTP status alone. The external
    service answers every processed request, an error outcome included,
    with a JSON body under status 200; so when the draw is an error the
    reply says error and the order is nevertheless marked
    fulfilment. *)
Theorem error_outcome_marks_fulfilment (toggle : bool)
    (xe : ExternalService.Env) (req : ExternalFulfillmentRequest) (xdb : DB)
    (de : OrderService.DispatchEnv) (orderID cid : string) (db : DB) :
  unprocessed (efr_OrderID req) xdb ->
  ExternalService.chance xe < 10 ->
  ExternalService.insert_fails xe = false ->
  OrderService.d_post de
  = Httpclient.PostResponse
      (Http.status_code
         (snd (ExternalService.processOrder toggle xe Go.POST (Some req) xdb)))
  ->
  OrderService.d_select_fails de = false ->
  OrderService.d_update_fails de = false ->
  has_order orderID db = true ->
  snd (ExternalService.processOrder toggle xe Go.POST (Some req) xdb)
  = Http.Json {| resp_Status := "error";
                 resp_Error := "Random error occurred";
                 resp_Data := None |}
  /\ status_is orderID "fulfilment"
       (fst (OrderService.processFulfillment de orderID cid db)).
Proof.
  intros U Hc Hi Hp Hs Hu Hh.
  assert (snd (ExternalService.processOrder toggle xe Go.POST (Some req) xdb)
          = Http.Json {| resp_Status := "error";
                         resp_Error := "Random error occurred";
                         resp_Data := None |}) as R.
  { rewrite (unprocessed_is_fresh toggle xe req xdb U).
    unfold ExternalService.process_fresh, insert_ext_order. rewrite Hi.
    destruct (Z.ltb_spec (ExternalService.chance xe) 10); [reflexivity|lia]. }
  split; [exact R|].
  rewrite R in Hp. cbn [Http.status_code Go.StatusOK] in Hp.
  now apply dispatch_sets_fulfilment.
Qed.

Lemma error_outcome_marks_fulfilment_witness :
  snd (ExternalService.processOrder true (sample_external_env 3) Go.POST
                                    (Some sample_request) created)
  = Http.Json {| resp_Status := "error";
                 resp_Error := "Random error occurred";
                 resp_Data := None |}
  /\ status_is (ID sample_order) "fulfilment"
       (fst (OrderService.processFulfillment sample_dispatch_env
               (ID sample_order) "K3X9QA" sample_store)).
Proof.
  apply (error_outcome_marks_fulfilment true (sample_external_env 3)
           sample_request created sample_dispatch_env (ID sample_order)
           "K3X9QA" sample_store).
  - unfold unprocessed. cbn. intros r [].
  - cbn. lia.
  - reflexivity.
  - reflexivity.
  - reflexivity.
  - reflexivity.
  - reflexivity.
Defined.

(** ** Payment service: what is published and what is stored *)

Lemma publish_loop_messages (fuel : nat) (i c : Z) m e :
  Forall (fun x => match x with
                   | PaymentService.Publish subject message _ =>
                     subject = "payment.paid" /\ message = m
                   | _ => True
                   end)
         (PaymentService.publish_loop fuel i c m e).
Proof.
  revert i. induction fuel as [|fuel IH]; intros i; cbn; [constructor|].
  destruct (i <? c); [|constructor].
  destruct (PaymentService.publish_fails e i); cbn;
    repeat (constructor; auto).
Qed.

(** X16. Every copy the payment service publishes goes to the subject
    payment.paid and carries the order id and the paid amount of the
    request, the clock reading that is also stored as paid_at, and the
    request's correlation id, or the generated one when the request has
    none. *)
Theorem published_copies_carry_the_request (timeoutMs : Z)
    (e : PaymentService.Env) (req : PaymentRequest) (db : DB) :
  Forall
    (fun x =>
       match x with
       | PaymentService.Publish subject message _ =>
         subject = "payment.paid"
         /\ ppm_OrderID message = pr_OrderID req
         /\ ppm_PaidAmount message = pr_PaidAmount req
         /\ ppm_PaidAt message = PaymentService.now_paid e
         /\ ppm_CorrelationID message
            = (if (pr_CorrelationID req =? "")%string
               then PaymentService.fresh_correlation e
               else pr_CorrelationID req)
       | _ => True
       end)
    (PaymentService.effects
       (PaymentService.triggerPaymentPaid timeoutMs e Go.POST (Some req) db)).
Proof.
  unfold PaymentService.triggerPaymentPaid. cbn [Go.is_post negb].
  destruct (upsert_payment _ _ _ _ db) as [db' err].
  cbn [PaymentService.effects].
  constructor; [exact I|]. apply Forall_app. split.
  - eapply Forall_impl; [|apply publish_loop_messages].
    intros [ms|subject message failed|o f|t]; auto.
    intros [-> ->]. cbn. auto.
  - destruct err; repeat constructor.
Qed.

Lemma upsert_keeps_rows fails order_id paid_amount paid_at db (o : string) :
  has_payment o db = true ->
  payments_of o (fst (upsert_payment fails order_id paid_amount paid_at db))
  = payments_of o db.
Proof.
  intros H. unfold upsert_payment.
  destruct fails; [reflexivity|].
  destruct (has_payment order_id db) eqn:Hp.
  - unfold payments_of. cbn.
    now rewrite (map_ext _ (fun p => p) (reassign_order_id_same order_id)),
      map_id.
  - unfold payments_of. cbn. rewrite filter_app. cbn.
    destruct (String.eqb_spec order_id o) as [->|_]; [congruence|].
    apply app_nil_r.
Qed.

(** X17. The first stored payment wins: once the table holds a record
    for an order, no later trigger for that order, whatever amount it
    names, changes that record or adds to it. *)
Theorem first_payment_record_wins (timeoutMs : Z) (o : string)
    (calls : list PaymentCall) (db : DB) :
  has_payment o db = true ->
  payments_of o (serve_payments timeoutMs db calls) = payments_of o db.
Proof.
  revert db. unfold serve_payments.
  induction calls as [|c calls IH]; intros db H; [reflexivity|].
  cbn [fold_left]. rewrite IH.
  - rewrite trigger_store.
    destruct (pc_method c); try reflexivity.
    destruct (pc_body c); [now apply upsert_keeps_rows | reflexivity].
  - now apply trigger_keeps.
Qed.

Lemma first_payment_record_wins_witness :
  let db1 :=
    serve_payments 200 created
      [mkPaymentCall (sample_payment_env 95) Go.POST
         (Some (mkPaymentRequest "0192f3a1-7c5e-7b21-9d3e-5a1f0c2b4d6e"
                                 1100 ""))] in
  payments_of "0192f3a1-7c5e-7b21-9d3e-5a1f0c2b4d6e"
    (serve_payments 200 db1
       [mkPaymentCall (sample_payment_env 12) Go.POST
          (Some (mkPaymentRequest "0192f3a1-7c5e-7b21-9d3e-5a1f0c2b4d6e"
                                  999999 "RETRY1"))])
  = payments_of "0192f3a1-7c5e-7b21-9d3e-5a1f0c2b4d6e" db1.
Proof.
  apply (first_payment_record_wins 200
           "0192f3a1-7c5e-7b21-9d3e-5a1f0c2b4d6e").
  reflexivity.
Defined.

(** ** Each service writes its own tables only *)

(** X18. The payment service touches nothing but internal_payments, the
    external service nothing but ext_orders, and the message handler
    and the dispatch of the order service neither of the two. *)
Theorem services_keep_to_their_tables :
  (forall timeoutMs e method body db,
     payment_foreign
       (PaymentService.store
          (PaymentService.triggerPaymentPaid timeoutMs e method body db))
     = payment_foreign db)
  /\ (forall toggle e method body db,
        external_foreign
          (fst (ExternalService.processOrder toggle e method body db))
        = external_foreign db)
  /\ (forall cfg evs s,
        order_foreign (OrderService.store (OrderService.run cfg s evs))
        = order_foreign (OrderService.store s)).
Proof.
  split; [|split].
  - intros. rewrite trigger_store.
    destruct method; try reflexivity.
    destruct body as [req|]; [|reflexivity].
    unfold upsert_payment.
    destruct (PaymentService.store_fails e); [reflexivity|].
    now destruct (has_payment (pr_OrderID req) db).
  - intros.
    destruct (process_store toggle e method body db)
      as [->|[req [_ [_ [_ ->]]]]]; [reflexivity|].
    unfold ExternalService.process_fresh, insert_ext_order.
    destruct (ExternalService.chance e <? 10);
      destruct (ExternalService.insert_fails e); reflexivity.
  - intros cfg evs. unfold OrderService.run.
    induction evs as [|ev evs IH]; intros s; [reflexivity|].
    cbn [fold_left]. rewrite IH.
    assert (forall f st id db,
              order_foreign (fst (update_order_status f st id db))
              = order_foreign db) as Hu
      by (intros f st id db; unfold update_order_status; now destruct f).
    assert (forall f o n p t db,
              order_foreign (fst (insert_attempt f o n p t db))
              = order_foreign db) as Hi
      by (intros f o n p t db; unfold insert_attempt; now destruct f).
    destruct (step_store_cases cfg s ev)
      as [[e [data ->]]|[[de [orderID [cid ->]]]| ->]]; [| |reflexivity].
    + destruct data as [m|]; [|reflexivity].
      rewrite handler_store. cbv zeta.
      pose proof (Hu (OrderService.h_update_fails e) "paid" (ppm_OrderID m)
                     (OrderService.store s)) as E.
      destruct (update_order_status _ _ _ (OrderService.store s))
        as [db1 [|]]; cbn [fst snd] in *; [exact E|].
      now rewrite Hi.
    + rewrite dispatch_store.
      destruct (select_order _ orderID _) as [[[i a] p]|]; [|reflexivity].
      cbv zeta. destruct (OrderService.d_post de) as [t|code]; [apply Hi|].
      destruct (code =? Go.StatusOK); [|apply Hi].
      now rewrite Hu, Hi.
Qed.

(** ** [pkg/utils]: correlation ids, phone numbers and draws *)

Lemma charset_byte (v : Z) :
  0 <= v < 36 ->
  exists c, Correlation.byte_at Correlation.charset v = Some c
            /\ all_in Correlation.charset (String c EmptyString) = true.
Proof.
  intros H. unfold Correlation.byte_at.
  destruct (Z.ltb_spec v 0) as [Hneg|_]; [lia|].
  assert (Z.to_nat v < 36)%nat as Hn by lia.
  revert Hn. generalize (Z.to_nat v). intros n.
  do 36 (destruct n as [|n]; [intros _; vm_compute; eauto|]).
  intros Hn. exfalso. lia.
Qed.

Lemma fill_spec (draws : Z -> option Z) :
  (forall i v, draws i = Some v -> 0 <= v < 36) ->
  forall fuel i, 0 <= i ->
  exists s, Correlation.fill fuel i draws = Some s
            /\ String.length s = fuel
            /\ all_in Correlation.charset s = true.
Proof.
  intros Hd. induction fuel as [|fuel IH]; intros i Hi.
  - exists EmptyString. repeat split.
  - cbn [Correlation.fill].
    assert (0 <= match draws i with
                 | Some v => v
                 | None => Go.rem (i * 17)
                             (Z.of_nat (String.length Correlation.charset))
                 end < 36) as Hidx.
    { destruct (draws i) as [v|] eqn:E; [now apply (Hd i)|].
      unfold Go.rem. change (Z.of_nat _) with 36.
      apply Z.rem_bound_pos; lia. }
    destruct (charset_byte _ Hidx) as [c [-> Hc]].
    destruct (IH (i + 1) ltac:(lia)) as [rest [-> [Hl Ha]]].
    exists (String c rest). split; [reflexivity|]. split; [cbn; now rewrite Hl|].
    cbn [all_in] in *. rewrite andb_true_r in Hc. now rewrite Hc, Ha.
Qed.

(** X19. A correlation id is always produced, has six characters and
    uses only capital letters and digits, also when the random source
    reports errors; when the source fails in every round the id is the
    fixed text AR8P6N. *)
Theorem correlation_id_shape (draws : Z -> option Z) :
  (forall i v, draws i = Some v -> 0 <= v < 36) ->
  (exists s, Correlation.GenerateCorrelationID draws = Some s
             /\ String.length s = 6%nat
             /\ all_in Correlation.charset s = true)
  /\ ((forall i, draws i = None) ->
      Correlation.GenerateCorrelationID draws = Some "AR8P6N").
Proof.
  intros Hd. split.
  - apply (fill_spec draws Hd 6 0). lia.
  - intros Hn. unfold Correlation.GenerateCorrelationID. cbn.
    rewrite !Hn. reflexivity.
Qed.

Lemma correlation_id_shape_witness :
  (exists s,
     Correlation.GenerateCorrelationID
       (fun i => if i =? 2 then None else Some 7) = Some s
     /\ String.length s = 6%nat
     /\ all_in Correlation.charset s = true)
  /\ ((forall i, (fun i => if i =? 2 then None else Some 7) i = None) ->
      Correlation.GenerateCorrelationID
        (fun i => if i =? 2 then None else Some 7) = Some "AR8P6N").
Proof.
  apply (correlation_id_shape (fun i => if i =? 2 then None else Some 7)).
  intros i v. cbn.
  destruct (i =? 2); [discriminate|].
  intros [= <-]. lia.
Defined.

Example correlation_id_with_one_failed_round :
  Correlation.GenerateCorrelationID (fun i => if i =? 2 then None else Some 7)
  = Some "HH8HHH".
Proof. vm_compute. reflexivity. Qed.

Lemma pad02_two (k : Z) : 0 <= k <= 99 -> String.length (Go.pad02 k) = 2%nat.
Proof.
  intros H. rewrite <- (Z2Nat.id k) by lia.
  assert (Z.to_nat k < 100)%nat as Hn by lia.
  revert Hn. generalize (Z.to_nat k). intros n.
  do 100 (destruct n as [|n]; [intros _; vm_compute; reflexivity|]).
  intros Hn. exfalso. lia.
Qed.

(** X20. With a clock at or after the epoch, the destination phone of a
    generated order is the prefix of its operator (0815-000-00 for
    indosat, 0817-000-00 for xl, 0896-000-00 for three) followed by a
    two-digit number between 01 and 99, thirteen characters in all. *)
Theorem generated_phone_shape (e : Utils.OrderEntropy) (o : Order) :
  Utils.GenerateRandomOrder e = Some o ->
  0 <= Time.UnixNano (Utils.now_phone e) ->
  exists prefix k,
    DestinationPhone o = prefix ++ Go.pad02 k
    /\ 1 <= k <= 99
    /\ String.length (DestinationPhone o) = 13%nat
    /\ ((Operator o = "indosat" /\ prefix = "0815-000-00")
        \/ (Operator o = "xl" /\ prefix = "0817-000-00")
        \/ (Operator o = "three" /\ prefix = "0896-000-00")).
Proof.
  unfold Utils.GenerateRandomOrder. intros G Hp.
  destruct (Go.index Utils.operators _) as [operator|] eqn:Eop;
    [|discriminate].
  destruct (Go.index Utils.amounts _) as [amount|]; [|discriminate].
  injection G as <-. cbn [DestinationPhone Operator].
  set (k := Go.rem (Time.UnixNano (Utils.now_phone e)) 99 + 1).
  assert (1 <= k <= 99) as Hk.
  { unfold k, Go.rem.
    pose proof (Z.rem_bound_pos _ 99 Hp ltac:(lia)). lia. }
  pose proof (pad02_two k ltac:(lia)) as Hl.
  exists (Utils.phonePrefix_of operator), k.
  apply index_In in Eop. unfold Utils.operators in Eop. cbn in Eop.
  destruct Eop as [<-|[<-|[<-|[]]]]; cbn; rewrite Hl; intuition.
Qed.

Lemma generated_phone_shape_witness :
  exists prefix k,
    DestinationPhone sample_order = prefix ++ Go.pad02 k
    /\ 1 <= k <= 99
    /\ String.length (DestinationPhone sample_order) = 13%nat
    /\ ((Operator sample_order = "indosat" /\ prefix = "0815-000-00")
        \/ (Operator sample_order = "xl" /\ prefix = "0817-000-00")
        \/ (Operator sample_order = "three" /\ prefix = "0896-000-00")).
Proof.
  apply (generated_phone_shape
           (Utils.mkOrderEntropy (Time.mk 1762106520000000000 25200)
                                 (Time.mk 1762106520000000001 25200)
                                 (Time.mk 1762106520000000083 25200)
                                 (Some "0192f3a1-7c5e-7b21-9d3e-5a1f0c2b4d6e")
                                 (Time.mk 1762106520000000000 25200))).
  - vm_compute. reflexivity.
  - cbn. lia.
Defined.

(** X21. Of the hundred values the draw can take, seventy give one
    published copy, twenty give two and ten give three; a value outside
    that range gives one copy when negative and three when at or above
    one hundred. *)
Theorem publish_count_weights :
  let draws := map Z.of_nat (seq 0 100) in
  List.length (filter (fun c => Utils.DeterminePublishCount c =? 1) draws)
  = 70%nat
  /\ List.length (filter (fun c => Utils.DeterminePublishCount c =? 2) draws)
     = 20%nat
  /\ List.length (filter (fun c => Utils.DeterminePublishCount c =? 3) draws)
     = 10%nat
  /\ (forall c, c < 0 -> Utils.DeterminePublishCount c = 1)
  /\ (forall c, 100 <= c -> Utils.DeterminePublishCount c = 3).
Proof.
  cbv zeta. repeat split; try (vm_compute; reflexivity).
  - intros c H. unfold Utils.DeterminePublishCount.
    destruct (Z.ltb_spec c 70); [reflexivity | lia].
  - intros c H. unfold Utils.DeterminePublishCount.
    destruct (Z.ltb_spec c 70); [lia|].
    destruct (Z.ltb_spec c 90); [lia | reflexivity].
Qed.

Lemma publish_count_weights_witness :
  Utils.DeterminePublishCount (-1) = 1 /\ Utils.DeterminePublishCount 100 = 3.
Proof.
  destruct publish_count_weights as [_ [_ [_ [L H]]]].
  split; [apply L; lia | apply H; lia].
Defined.

(** ** Simulator: the workers *)

Lemma worker_loop_seq (fuel : nat) : forall j end_,
  0 <= j -> fuel = Z.to_nat (end_ - j) ->
  Simulator.worker_loop fuel j end_
  = map Z.of_nat (seq (S (Z.to_nat j)) fuel).
Proof.
  induction fuel as [|fuel IH]; intros j end_ Hj Hf; [reflexivity|].
  cbn [Simulator.worker_loop seq map].
  destruct (Z.ltb_spec j end_) as [_|Hge]; [|lia].
  rewrite (IH (j + 1) end_) by lia.
  f_equal; [lia|]. do 2 f_equal. lia.
Qed.

Lemma chunkSize_covers (count : Z) :
  0 <= count ->
  0 <= Simulator.chunkSize count /\ count <= 4 * Simulator.chunkSize count.
Proof.
  intros H. unfold Simulator.chunkSize.
  rewrite Z.quot_div_nonneg, Z.rem_mod_nonneg by lia.
  pose proof (Z.div_mod count 4 ltac:(lia)).
  pose proof (Z.mod_pos_bound count 4 ltac:(lia)).
  destruct (Z.eqb_spec (count mod 4) 0); cbn [negb]; lia.
Qed.

Lemma worker_slice (count i : Z) :
  0 <= count -> 0 <= i ->
  Simulator.worker count i
  = map Z.of_nat
        (seq (S (Z.to_nat (Z.min (i * Simulator.chunkSize count) count)))
             (Z.to_nat (Z.min ((i + 1) * Simulator.chunkSize count) count)
              - Z.to_nat (Z.min (i * Simulator.chunkSize count) count))).
Proof.
  intros Hc Hi. destruct (chunkSize_covers count Hc) as [Hcs _].
  unfold Simulator.worker. cbv zeta.
  set (cs := Simulator.chunkSize count) in *.
  assert (0 <= i * cs) as Hs by nia.
  replace ((i + 1) * cs) with (i * cs + cs) by lia.
  destruct (Z.gtb_spec (i * cs + cs) count) as [Hgt|Hle].
  - destruct (Z.le_gt_cases (i * cs) count) as [Hin|Hout].
    + rewrite worker_loop_seq by lia.
      rewrite !Z.min_l by lia. rewrite Z.min_r by lia.
      do 2 f_equal. lia.
    + replace (Z.to_nat (count - i * cs)) with 0%nat by lia.
      rewrite !Z.min_r by lia. now rewrite Nat.sub_diag.
  - rewrite worker_loop_seq by lia.
    rewrite !Z.min_l by lia. do 2 f_equal. lia.
Qed.

(** X22. The four workers together run the iterations 1, 2, ..., count,
    each exactly once and in increasing order from the first worker to
    the last, for every count from zero on; no worker runs more than
    the chunk size. *)
Theorem workers_partition_the_iterations (count : Z) :
  0 <= count ->
  List.concat (Simulator.workers count) = numbered count
  /\ Forall (fun w => Z.of_nat (List.length w) <= Simulator.chunkSize count)
            (Simulator.workers count).
Proof.
  intros Hc. destruct (chunkSize_covers count Hc) as [Hcs Hcov].
  unfold Simulator.workers. cbn [map List.concat].
  rewrite !worker_slice by lia.
  set (cs := Simulator.chunkSize count) in *.
  set (a := fun i : Z => Z.to_nat (Z.min (i * cs) count)).
  change (Z.to_nat (Z.min (0 * cs) count)) with (a 0).
  change (Z.to_nat (Z.min ((0 + 1) * cs) count)) with (a 1).
  change (Z.to_nat (Z.min (1 * cs) count)) with (a 1).
  change (Z.to_nat (Z.min ((1 + 1) * cs) count)) with (a 2).
  change (Z.to_nat (Z.min (2 * cs) count)) with (a 2).
  change (Z.to_nat (Z.min ((2 + 1) * cs) count)) with (a 3).
  change (Z.to_nat (Z.min (3 * cs) count)) with (a 3).
  change (Z.to_nat (Z.min ((3 + 1) * cs) count)) with (a 4).
  set (a0 := a 0). set (a1 := a 1). set (a2 := a 2). set (a3 := a 3).
  set (a4 := a 4).
  assert (a0 = 0%nat) as H0 by (unfold a0, a; lia).
  assert (a4 = Z.to_nat count) as H4 by (unfold a4, a; lia).
  assert (a0 <= a1 <= a2)%nat as H12 by (unfold a0, a1, a2, a; lia).
  assert (a2 <= a3 <= a4)%nat as H34 by (unfold a2, a3, a4, a; lia).
  assert (a1 - a0 <= Z.to_nat cs)%nat as Hs1 by (unfold a0, a1, a; lia).
  assert (a2 - a1 <= Z.to_nat cs)%nat as Hs2 by (unfold a1, a2, a; lia).
  assert (a3 - a2 <= Z.to_nat cs)%nat as Hs3 by (unfold a2, a3, a; lia).
  assert (a4 - a3 <= Z.to_nat cs)%nat as Hs4 by (unfold a3, a4, a; lia).
  clearbody a0 a1 a2 a3 a4. clear a.
  split.
  - rewrite app_nil_r, <- !map_app. unfold numbered. f_equal.
    replace (Z.to_nat count)
      with ((a1 - a0) + ((a2 - a1) + ((a3 - a2) + (a4 - a3))))%nat
      by lia.
    rewrite !seq_app. rewrite H0.
    repeat (f_equal; try lia).
  - repeat constructor; rewrite length_map, length_seq; lia.
Qed.

Lemma workers_partition_the_iterations_witness :
  List.concat (Simulator.workers 10) = numbered 10
  /\ Forall (fun w => Z.of_nat (List.length w) <= Simulator.chunkSize 10)
            (Simulator.workers 10).
Proof.
  apply (workers_partition_the_iterations 10). lia.
Defined.

Example ten_iterations_on_four_workers :
  Simulator.workers 10 = [[1; 2; 3]; [4; 5; 6]; [7; 8; 9]; [10]]
  /\ Simulator.workers 1 = [[1]; []; []; []]
  /\ Simulator.workers 0 = [[]; []; []; []].
Proof. vm_compute. repeat split. Qed.

(** ** Simulator: reports *)

Lemma string_length_app (a b : string) :
  String.length (a ++ b) = (String.length a + String.length b)%nat.
Proof. induction a as [|c a IH]; cbn; [reflexivity | now rewrite IH]. Qed.

Lemma substring_head (n : nat) : forall s,
  (n <= String.length s)%nat ->
  String.length (String.substring 0 n s) = n
  /\ String.prefix (String.substring 0 n s) s = true.
Proof.
  induction n as [|n IH]; intros s H.
  - destruct s; split; reflexivity.
  - destruct s as [|c s]; cbn in H; [lia|].
    destruct (IH s ltac:(lia)) as [Hl Hp]. cbn. rewrite Hl. split; [reflexivity|].
    destruct (ascii_dec c c) as [_|N]; [exact Hp | now destruct N].
Qed.

(** X23. For a limit of at least three, truncating always yields a text
    no longer than the limit: the text itself when it fits, and
    otherwise its first limit-minus-three characters followed by three
    dots, exactly limit characters in all. For a limit below three and
    a longer text the function does not return (the slice bound is
    negative). *)
Theorem truncateString_bounds (s : string) (maxLen : Z) :
  (3 <= maxLen ->
   exists r,
     Simulator.truncateString s maxLen = Some r
     /\ Z.of_nat (String.length r) <= maxLen
     /\ (Z.of_nat (String.length s) <= maxLen -> r = s)
     /\ (maxLen < Z.of_nat (String.length s) ->
         Z.of_nat (String.length r) = maxLen
         /\ exists head, r = head ++ "..."
                         /\ String.prefix head s = true))
  /\ (maxLen < 3 -> maxLen < Z.of_nat (String.length s) ->
      Simulator.truncateString s maxLen = None).
Proof.
  unfold Simulator.truncateString. split.
  - intros H3.
    destruct (Z.leb_spec (Z.of_nat (String.length s)) maxLen) as [Hfit|Hlong].
    + exists s. repeat split; auto; lia.
    + destruct (Z.ltb_spec (maxLen - 3) 0) as [Hneg|_]; [lia|].
      destruct (substring_head (Z.to_nat (maxLen - 3)) s ltac:(lia))
        as [Hl Hp].
      eexists. split; [reflexivity|].
      rewrite string_length_app, Hl. cbn [String.length].
      repeat split; try lia. eauto.
  - intros Hlt Hlong.
    destruct (Z.leb_spec (Z.of_nat (String.length s)) maxLen); [lia|].
    destruct (Z.ltb_spec (maxLen - 3) 0); [reflexivity | lia].
Qed.

Lemma truncateString_bounds_witness :
  exists r,
    Simulator.truncateString "0192f3a1-7c5e-7b21-9d3e-5a1f0c2b4d6e-copy" 36
    = Some r
    /\ Z.of_nat (String.length r) <= 36.
Proof.
  destruct (proj1 (truncateString_bounds
                     "0192f3a1-7c5e-7b21-9d3e-5a1f0c2b4d6e-copy" 36)
                  ltac:(lia)) as [r [H [B _]]].
  exists r. split; [exact H | exact B].
Defined.

Example truncated_order_id :
  Simulator.truncateString "0192f3a1-7c5e-7b21-9d3e-5a1f0c2b4d6e-copy" 36
  = Some "0192f3a1-7c5e-7b21-9d3e-5a1f0c2b4..."
  /\ Simulator.truncateString "three" 8 = Some "three"
  /\ Simulator.truncateString "three" 2 = None.
Proof. vm_compute. repeat split. Qed.

Lemma settle_from (rows : list (option ExtOrder)) : forall s0 f0 o0,
  fold_left
    (fun '(totalSettledAmount, totalFailedAmount, orders) row =>
       match row with
       | None => (totalSettledAmount, totalFailedAmount, orders)
       | Some order =>
         if (eo_Status order =? "success")%string
         then (totalSettledAmount + eo_Amount order, totalFailedAmount,
               (orders ++ [order])%list)
         else (totalSettledAmount, totalFailedAmount + eo_Amount order,
               (orders ++ [order])%list)
       end)
    rows (s0, f0, o0)
  = (s0 + amounts_sum
            (filter (fun r => (eo_Status r =? "success")%string)
                    (scanned rows)),
     f0 + amounts_sum
            (filter (fun r => negb (eo_Status r =? "success")%string)
                    (scanned rows)),
     (o0 ++ scanned rows)%list).
Proof.
  induction rows as [|[order|] rows IH]; intros s0 f0 o0; cbn [fold_left].
  - cbn. now rewrite !Z.add_0_r, app_nil_r.
  - destruct (eo_Status order =? "success")%string eqn:E; rewrite IH;
      unfold scanned; cbn [flat_map app filter]; rewrite E; cbn [negb];
      unfold amounts_sum; cbn [fold_right];
      rewrite <- app_assoc; cbn [app];
      (apply pair_equal_spec; split;
       [apply pair_equal_spec; split; lia | reflexivity]).
  - rewrite IH. reflexivity.
Qed.

Lemma amounts_split (l : list ExtOrder) :
  amounts_sum (filter (fun r => (eo_Status r =? "success")%string) l)
  + amounts_sum (filter (fun r => negb (eo_Status r =? "success")%string) l)
  = amounts_sum l.
Proof.
  unfold amounts_sum. induction l as [|r l IH]; [reflexivity|].
  cbn [filter]. destruct (eo_Status r =? "success")%string;
    cbn [negb fold_right]; lia.
Qed.

(** X24. The external settlement lists the rows that were scanned, in
    the order of the query, and splits their amounts between the two
    totals without loss: the settled total is the sum over the rows in
    status success, the failed total the sum over all other rows, and
    the two add up to the sum over the listed rows; a row whose scan
    fails is in neither. *)
Theorem settlement_totals_partition (rows : list (option ExtOrder)) :
  let '(totalSettledAmount, totalFailedAmount, orders) :=
    Simulator.settle rows in
  orders = scanned rows
  /\ totalSettledAmount
     = amounts_sum (filter (fun r => (eo_Status r =? "success")%string)
                           orders)
  /\ totalFailedAmount
     = amounts_sum (filter (fun r => negb (eo_Status r =? "success")%string)
                           orders)
  /\ totalSettledAmount + totalFailedAmount = amounts_sum orders.
Proof.
  unfold Simulator.settle. rewrite settle_from. cbn [app].
  repeat split.
  rewrite !Z.add_0_l. apply amounts_split.
Qed.

(** ** Configuration *)

(** X25. The payment service's artificial delay and the simulator's
    deadline for the payment call are read from the same variable in
    the same way: for every value of PAYMENT_TIMEOUT_MS the two are the
    same number of milliseconds, 200 when the variable is unset or is
    not an integer. *)
Theorem delay_equals_deadline (env : string) :
  Config.payment_timeoutMs env = Config.simulator_timeoutMs env
  /\ (Config.Atoi env = None -> Config.payment_timeoutMs env = 200)
  /\ (forall t, Config.Atoi env = Some t -> Config.payment_timeoutMs env = t).
Proof.
  unfold Config.payment_timeoutMs, Config.simulator_timeoutMs.
  destruct (String.eqb_spec env "") as [->|Hne]; cbn [negb].
  - repeat split. intros t. cbn. discriminate.
  - repeat split.
    + intros ->. reflexivity.
    + intros t ->. reflexivity.
Qed.

Lemma delay_equals_deadline_witness :
  Config.payment_timeoutMs "350" = Config.simulator_timeoutMs "350"
  /\ Config.payment_timeoutMs "350" = 350.
Proof.
  destruct (delay_equals_deadline "350") as [E [_ T]].
  split; [exact E | apply T; reflexivity].
Defined.

Example timeouts_read_from_the_environment :
  Config.payment_timeoutMs "" = 200
  /\ Config.payment_timeoutMs "350" = 350
  /\ Config.payment_timeoutMs "0.5s" = 200
  /\ Config.payment_timeoutMs "-5" = -5
  /\ Config.payment_timeoutMs "9223372036854775808" = 200.
Proof. vm_compute. repeat split. Qed.

(** ** Simulator: one iteration *)

Lemma contains_lacks (c : ascii) (sub s : string) :
  lacks c s = true -> Go.contains s (String c sub) = false.
Proof.
  induction s as [|a s IH]; cbn; [reflexivity|].
  intros H. apply andb_true_iff in H as [Ha Hs].
  destruct (ascii_dec c a) as [->|_].
  - now rewrite Ascii.eqb_refl in Ha.
  - now apply IH.
Qed.

Lemma uint_lacks_t (d : Decimal.uint) :
  lacks "t" (NilEmpty.string_of_uint d) = true.
Proof. induction d; cbn; auto. Qed.

Lemma itoa_lacks_t (n : Z) : lacks "t" (Go.itoa n) = true.
Proof.
  unfold Go.itoa, NilZero.string_of_int, NilZero.string_of_uint.
  destruct (Z.to_int n) as [d|d]; destruct d; cbn; auto using uint_lacks_t.
Qed.

Lemma status_error_is_no_timeout (code : Z) :
  Go.contains ("payment service returned status: " ++ Go.itoa code) "timeout"
  = false.
Proof.
  transitivity (Go.contains (Go.itoa code) "timeout"); [reflexivity|].
  apply contains_lacks, itoa_lacks_t.
Qed.

(** X26. Only timeouts are retried: when the first payment call is
    answered with a status other than 200, or fails with an error whose
    text does not mention timeout, the iteration makes that one call
    and no other, and sends the FAILED payment line with the error
    followed by the closing FAILED line. *)
Theorem only_timeouts_are_retried (iteration : Z) (correlationID : string)
    (created : Tooling.CreateAnswer) (orderResp : CreateOrderResponse)
    (answers : Z -> Httpclient.PostResult) :
  Tooling.createOrder created = inr orderResp ->
  (exists code, answers 0 = Httpclient.PostResponse code /\ code <> 200)
  \/ (exists text, answers 0 = Httpclient.PostError text
                   /\ Httpclient.IsTimeoutError text = false) ->
  exists err,
    Tooling.triggerPayment (answers 0) = Some err
    /\ Tooling.runSimulationIteration iteration correlationID created answers
       = [Tooling.Sleep 100;
          Tooling.Trigger (cor_ID orderResp) (cor_Total orderResp);
          Tooling.Send (Tooling.prefix_line iteration correlationID
                          ++ "FAILED payment - " ++ err);
          Tooling.Send (Tooling.prefix_line iteration correlationID
                          ++ "FAILED - Order: " ++ cor_ID orderResp)].
Proof.
  intros Hc Ha.
  assert (exists err, Tooling.triggerPayment (answers 0) = Some err
                      /\ Go.contains err "timeout" = false) as [err [He Hn]].
  { destruct Ha as [[code [-> Hne]]|[text [-> Ht]]]; cbn.
    - destruct (Z.eqb_spec code Go.StatusOK) as [->|_];
        [now destruct Hne|]. cbn.
      eexists. split; [reflexivity | apply status_error_is_no_timeout].
    - rewrite Ht. eexists. split; [reflexivity | exact Ht]. }
  exists err. split; [exact He|].
  unfold Tooling.runSimulationIteration. rewrite Hc.
  cbn [Tooling.payment_loop Z.ltb Z.compare]. rewrite He, Hn. reflexivity.
Qed.

Lemma only_timeouts_are_retried_witness :
  exists err,
    Tooling.triggerPayment (Httpclient.PostResponse 500) = Some err
    /\ Tooling.runSimulationIteration 7 "K3X9QA"
         (Tooling.CreateResponse (inr sample_created))
         (fun _ => Httpclient.PostResponse 500)
       = [Tooling.Sleep 100;
          Tooling.Trigger (cor_ID sample_created) (cor_Total sample_created);
          Tooling.Send (Tooling.prefix_line 7 "K3X9QA"
                          ++ "FAILED payment - " ++ err);
          Tooling.Send (Tooling.prefix_line 7 "K3X9QA"
                          ++ "FAILED - Order: " ++ cor_ID sample_created)].
Proof.
  apply (only_timeouts_are_retried 7 "K3X9QA"
           (Tooling.CreateResponse (inr sample_created)) sample_created
           (fun _ => Httpclient.PostResponse 500)).
  - reflexivity.
  - left. exists 500. split; [reflexivity | discriminate].
Defined.

(** X27. Whatever the answers, an iteration sends one or two lines and
    calls the payment service at most three times; when the order
    cannot be created it sends its single line at once, without
    sleeping and without calling the payment service. *)
Theorem iteration_bounds (iteration : Z) (correlationID : string)
    (created : Tooling.CreateAnswer) (answers : Z -> Httpclient.PostResult) :
  let run :=
    Tooling.runSimulationIteration iteration correlationID created answers in
  (1 <= List.length (Tooling.sent run) <= 2)%nat
  /\ (Tooling.calls run <= 3)%nat
  /\ (forall err,
        Tooling.createOrder created = inl err ->
        run = [Tooling.Send (Tooling.prefix_line iteration correlationID
                               ++ "FAILED to create order - " ++ err)]).
Proof.
  cbv zeta. unfold Tooling.runSimulationIteration.
  destruct (Tooling.createOrder created) as [err|orderResp].
  - cbn. repeat split; try lia. now intros e [= <-].
  - cbn [Tooling.payment_loop Z.ltb Z.compare Z.eqb Z.add Pos.compare
         Pos.compare_cont Pos.eqb Pos.add Pos.succ].
    assert (forall e, @inr string CreateOrderResponse orderResp <> inl e) as N
      by discriminate.
    destruct (Tooling.triggerPayment (answers 0)) as [e0|];
      [|cbn; repeat split; try lia; intros e He; now destruct (N e)].
    destruct (Go.contains e0 "timeout");
      [|cbn; repeat split; try lia; intros e He; now destruct (N e)].
    destruct (Tooling.triggerPayment (answers 1)) as [e1|];
      [|cbn; repeat split; try lia; intros e He; now destruct (N e)].
    destruct (Go.contains e1 "timeout");
      [|cbn; repeat split; try lia; intros e He; now destruct (N e)].
    destruct (Tooling.triggerPayment (answers 2)) as [e2|];
      [|cbn; repeat split; try lia; intros e He; now destruct (N e)].
    destruct (Go.contains e2 "timeout");
      cbn; repeat split; try lia; intros e He; now destruct (N e).
Qed.

Lemma iteration_bounds_witness :
  Tooling.runSimulationIteration 7 "K3X9QA"
    (Tooling.CreateTransportError "connection refused") always_timing_out
  = [Tooling.Send (Tooling.prefix_line 7 "K3X9QA"
                     ++ "FAILED to create order - " ++ "connection refused")].
Proof.
  apply (proj2 (proj2 (iteration_bounds 7 "K3X9QA"
                         (Tooling.CreateTransportError "connection refused")
                         always_timing_out))).
  reflexivity.
Defined.

Lemma prefix_app (sub b : string) : String.prefix sub (sub ++ b) = true.
Proof.
  induction sub as [|c sub IH]; cbn; [now destruct b|].
  destruct (ascii_dec c c) as [_|N]; [exact IH | now destruct N].
Qed.

Lemma contains_app (a sub b : string) : Go.contains (a ++ sub ++ b) sub = true.
Proof.
  induction a as [|c a IH]; cbn [append].
  - destruct (sub ++ b) as [|x rest] eqn:E; cbn [Go.contains];
      rewrite <- E, prefix_app; reflexivity.
  - cbn [Go.contains]. rewrite IH. now destruct (String.prefix _ _).
Qed.

Lemma success_line_is_counted (iteration : Z) (correlationID id : string)
    (total : Z) :
  Tooling.tally
    [Tooling.prefix_line iteration correlationID
       ++ "SUCCESS - Order: " ++ id ++ ", Amount: " ++ Go.itoa total]
  = (1, 0).
Proof.
  unfold Tooling.tally. cbn [fold_left].
  change (Tooling.prefix_line iteration correlationID
            ++ "SUCCESS - Order: " ++ id ++ ", Amount: " ++ Go.itoa total)
    with (Tooling.prefix_line iteration correlationID
            ++ "SUCCESS"
            ++ (" - Order: " ++ id ++ ", Amount: " ++ Go.itoa total)).
  now rewrite contains_app.
Qed.

(** X28. When the payment call times out in the rounds before round k
    (k being 0, 1 or 2) and succeeds in round k, the iteration has
    called the payment service k + 1 times, sends the single SUCCESS
    line with the order id and the total, and that line counts as one
    success and no timeout in the summary. *)
Theorem retry_then_success (iteration : Z) (correlationID : string)
    (created : Tooling.CreateAnswer) (orderResp : CreateOrderResponse)
    (answers : Z -> Httpclient.PostResult) (k : Z) :
  Tooling.createOrder created = inr orderResp ->
  0 <= k <= 2 ->
  (forall r, 0 <= r < k -> times_out (answers r)) ->
  Tooling.triggerPayment (answers k) = None ->
  let run :=
    Tooling.runSimulationIteration iteration correlationID created answers in
  Tooling.calls run = Z.to_nat (k + 1)
  /\ Tooling.sent run
     = [Tooling.prefix_line iteration correlationID
          ++ "SUCCESS - Order: " ++ cor_ID orderResp
          ++ ", Amount: " ++ Go.itoa (cor_Total orderResp)]
  /\ Tooling.tally (Tooling.sent run) = (1, 0).
Proof.
  intros Hc Hk Ht Hs. cbv zeta.
  assert (forall r, 0 <= r < k ->
                    Tooling.triggerPayment (answers r) = Some "timeout") as T
    by (intros r Hr; apply times_out_trigger, Ht, Hr).
  unfold Tooling.runSimulationIteration. rewrite Hc.
  cbn [Tooling.payment_loop Z.ltb Z.compare Z.eqb Z.add Pos.compare
       Pos.compare_cont Pos.eqb Pos.add Pos.succ].
  assert (k = 0 \/ k = 1 \/ k = 2) as [ -> | [ -> | -> ] ] by lia.
  - rewrite Hs. cbn. repeat split. apply success_line_is_counted.
  - rewrite (T 0) by lia. change (Go.contains "timeout" "timeout") with true.
    rewrite Hs. cbn. repeat split. apply success_line_is_counted.
  - rewrite (T 0), (T 1) by lia.
    change (Go.contains "timeout" "timeout") with true.
    rewrite Hs. cbn. repeat split. apply success_line_is_counted.
Qed.

Lemma retry_then_success_witness :
  let answers :=
    fun r => if r <? 2 then Httpclient.PostError "read tcp: i/o timeout"
             else Httpclient.PostResponse 200 in
  let run :=
    Tooling.runSimulationIteration 7 "K3X9QA"
      (Tooling.CreateResponse (inr sample_created)) answers in
  Tooling.calls run = Z.to_nat (2 + 1)
  /\ Tooling.sent run
     = [Tooling.prefix_line 7 "K3X9QA"
          ++ "SUCCESS - Order: " ++ cor_ID sample_created
          ++ ", Amount: " ++ Go.itoa (cor_Total sample_created)]
  /\ Tooling.tally (Tooling.sent run) = (1, 0).
Proof.
  apply (retry_then_success 7 "K3X9QA"
           (Tooling.CreateResponse (inr sample_created)) sample_created
           (fun r => if r <? 2 then Httpclient.PostError "read tcp: i/o timeout"
                     else Httpclient.PostResponse 200) 2).
  - reflexivity.
  - lia.
  - intros r Hr. destruct (Z.ltb_spec r 2) as [_|Hge]; [|lia].
    eexists. split; reflexivity.
  - reflexivity.
Defined.

(** ** Simulator: the summary *)

Lemma tally_from (lines : list string) : forall s0 t0,
  fold_left
    (fun '(successCount, timeoutCount) result =>
       if Go.contains result "SUCCESS" then (successCount + 1, timeoutCount)
       else if Go.contains result "TIMEOUT"
            then (successCount, timeoutCount + 1)
            else (successCount, timeoutCount))
    lines (s0, t0)
  = (s0 + Z.of_nat (List.length (filter counts_success lines)),
     t0 + Z.of_nat (List.length (filter counts_timeout lines))).
Proof.
  induction lines as [|l lines IH]; intros s0 t0; cbn [fold_left filter].
  - cbn. now rewrite !Z.add_0_r.
  - unfold counts_success at 1, counts_timeout at 1.
    destruct (Go.contains l "SUCCESS"); cbn [negb andb].
    + rewrite IH. cbn [List.length].
      apply pair_equal_spec. split; lia.
    + destruct (Go.contains l "TIMEOUT"); rewrite IH; cbn [List.length];
        apply pair_equal_spec; split; lia.
Qed.

Lemma count_permutation (p : string -> bool) (l l' : list string) :
  Permutation l l' ->
  List.length (filter p l) = List.length (filter p l').
Proof.
  induction 1 as [|x l l' _ IH|x y l|l l' l'' _ IH1 _ IH2]; cbn.
  - reflexivity.
  - destruct (p x); cbn; now rewrite IH.
  - destruct (p x), (p y); reflexivity.
  - now rewrite IH1.
Qed.

(** X29. The summary does not depend on the order in which the lines
    arrive on the channel: the success count is the number of lines
    that mention SUCCESS, the timeout count the number of the other
    lines that mention TIMEOUT, and the two together never exceed the
    number of lines received. *)
Theorem summary_ignores_arrival_order (lines lines' : list string) :
  Permutation lines lines' ->
  Tooling.tally lines = Tooling.tally lines'
  /\ Tooling.tally lines
     = (Z.of_nat (List.length (filter counts_success lines)),
        Z.of_nat (List.length (filter counts_timeout lines)))
  /\ fst (Tooling.tally lines) + snd (Tooling.tally lines)
     <= Z.of_nat (List.length lines).
Proof.
  intros P. unfold Tooling.tally. rewrite !tally_from, !Z.add_0_l.
  split.
  { now rewrite (count_permutation counts_success _ _ P),
      (count_permutation counts_timeout _ _ P). }
  split; [reflexivity|]. cbn [fst snd].
  clear P. induction lines as [|l lines IH]; cbn [filter List.length]; [lia|].
  unfold counts_success at 1, counts_timeout at 1.
  destruct (Go.contains l "SUCCESS"); cbn [negb andb List.length].
  - destruct (filter counts_timeout lines); cbn [List.length] in *; lia.
  - destruct (Go.contains l "TIMEOUT"); cbn [List.length]; lia.
Qed.

Lemma summary_ignores_arrival_order_witness :
  Tooling.tally
    ["Iteration 1 [AAAAAA]: SUCCESS - Order: a, Amount: 1100";
     "Iteration 2 [BBBBBB]: TIMEOUT after 3 retries - Order: b"]
  = Tooling.tally
      ["Iteration 2 [BBBBBB]: TIMEOUT after 3 retries - Order: b";
       "Iteration 1 [AAAAAA]: SUCCESS - Order: a, Amount: 1100"].
Proof.
  apply (summary_ignores_arrival_order
           ["Iteration 1 [AAAAAA]: SUCCESS - Order: a, Amount: 1100";
            "Iteration 2 [BBBBBB]: TIMEOUT after 3 retries - Order: b"]
           ["Iteration 2 [BBBBBB]: TIMEOUT after 3 retries - Order: b";
            "Iteration 1 [AAAAAA]: SUCCESS - Order: a, Amount: 1100"]).
  apply perm_swap.
Defined.

(** * The toggle of the Order Service and the requests it posts *)

(** A goroutine whose order is in the table and whose lookup goes
    through posts one request, for that order: no later statement of
    [processFulfillment] can stop it from reaching the call. *)
Lemma dispatch_posts_when_found e orderID cid db :
  has_order orderID db = true ->
  OrderService.d_select_fails e = false ->
  exists r,
    snd (OrderService.processFulfillment e orderID cid db) = Some r
    /\ efr_OrderID r = orderID.
Proof.
  intros Hh Hs.
  destruct (snd (OrderService.processFulfillment e orderID cid db))
    as [r|] eqn:P.
  - exists r. split; [reflexivity|].
    eapply dispatch_posts_for_task. exact P.
  - exfalso. revert P.
    unfold OrderService.processFulfillment, select_order. rewrite Hs.
    destruct (find _ (internal_orders db)) as [row|] eqn:F.
    + destruct (insert_attempt _ _ _ _ _ db) as [db1 err].
      destruct (OrderService.d_post e) as [t|code]; [discriminate|].
      destruct (code =? Go.StatusOK);
        [destruct (update_order_status _ _ _ db1)|]; discriminate.
    + intros _. unfold has_order in Hh.
      apply existsb_exists in Hh as [o [Hin Heq]].
      pose proof (find_none _ _ F o Hin) as N. cbv beta in N. congruence.
Qed.

Lemma outbound_calls_posted (o : string) (s s' : OrderService.Service)
    (sent : list ExternalFulfillmentRequest) :
  OrderService.posted s' = (OrderService.posted s ++ sent)%list ->
  outbound_calls o s'
  = (outbound_calls o s
     + List.length (filter (fun r => (efr_OrderID r =? o)%string) sent))%nat.
Proof.
  intros H. unfold outbound_calls. now rewrite H, filter_app, length_app.
Qed.

(** One step keeps the order in the table and the account of its
    goroutines exact, as long as the lookups of the goroutines go
    through. *)
Lemma step_balanced cfg (o : string) s ev :
  has_order o (OrderService.store s) = true ->
  finds_order ev ->
  balanced o s ->
  balanced o (OrderService.step cfg s ev).
Proof.
  unfold balanced, dispatches. intros Hh Hf Q.
  destruct ev as [e data|n e].
  - destruct (step_deliver cfg s e data) as [_ [Hp [Hd Hg]]].
    unfold outbound_calls in *. rewrite Hp, Hd, Hg, !for_order_app. lia.
  - destruct (nth_error (OrderService.goroutines s) n) as [t|] eqn:H;
      [|now rewrite step_schedule_idle].
    destruct (step_schedule cfg s n e t H) as [_ [Hp [Hd Hg]]].
    rewrite (outbound_calls_posted o _ _ _ Hp), Hd, Hg.
    pose proof (for_order_remove o _ n t H) as R.
    destruct (String.eqb_spec (OrderService.task_orderID t) o) as [E|E].
    + cbn [finds_order] in Hf.
      destruct (dispatch_posts_when_found e (OrderService.task_orderID t)
                  (OrderService.task_correlationID t) (OrderService.store s))
        as [r [P Hr]]; [now rewrite E | exact Hf |].
      rewrite P. cbn [filter]. rewrite Hr.
      destruct (String.eqb_spec (OrderService.task_orderID t) o);
        [|contradiction].
      cbn [List.length indicator] in *. lia.
    + destruct (snd (OrderService.processFulfillment e _ _ _)) as [r|] eqn:P;
        cbn [filter List.length indicator] in *; [|lia].
      apply dispatch_posts_for_task in P. rewrite P.
      destruct (String.eqb_spec (OrderService.task_orderID t) o);
        [contradiction|].
      cbn [List.length]. lia.
Qed.

Lemma run_balanced cfg (o : string) evs : forall s,
  has_order o (OrderService.store s) = true ->
  Forall finds_order evs ->
  balanced o s ->
  balanced o (OrderService.run cfg s evs).
Proof.
  unfold OrderService.run.
  induction evs as [|ev evs IH]; intros s Hh Hf Q; [exact Q|].
  cbn [fold_left]. inversion Hf as [|? ? Hev Hrest]; subst.
  apply IH; [| exact Hrest | now apply step_balanced].
  rewrite (has_order_kept o _ _ (step_kept cfg s ev)). exact Hh.
Qed.

(** ** C1: the client-side toggle *)

(** C1. Take an order of the table, any store and any run of the Order
    Service in which deliveries are handled one after the other and the
    goroutines run at any later point; let K be the number of
    deliveries carrying a message for the order. Provided the update,
    the insert and the count of the handler report no error: with the
    toggle on, at most one delivery starts the dispatch, namely the one
    that finds one attempt row for the order right after its insert,
    and exactly one does when the order starts without attempt rows and
    K >= 1; with the toggle off, all K deliveries start it. Provided
    also that the goroutines' lookup of the order reports no error,
    every started dispatch posts exactly one request to the external
    service when its goroutine runs: the requests posted for the order
    and the goroutines still waiting add up to the dispatches started,
    so that toggle on gives at most one outbound call and toggle off
    gives K of them once all have run. *)
Theorem C1_client_side_toggle (o : string) (db : DB)
    (evs : list OrderService.Event) :
  Forall healthy_event evs ->
  let on := OrderService.run true (OrderService.start db) evs in
  let off := OrderService.run false (OrderService.start db) evs in
  (dispatches o on <= 1)%nat
  /\ (outbound_calls o on <= dispatches o on)%nat
  /\ (attempts o db = 0%nat -> (1 <= deliveries o evs)%nat ->
      dispatches o on = 1%nat)
  /\ (forall e m db0,
        healthy e ->
        snd (OrderService.handlePaymentPaid true e (Some m) db0) <> None
        <-> attempts (ppm_OrderID m)
              (fst (OrderService.handlePaymentPaid true e (Some m) db0))
            = 1%nat)
  /\ dispatches o off = deliveries o evs
  /\ (has_order o db = true -> Forall finds_order evs ->
      (outbound_calls o on + for_order o (OrderService.goroutines on))%nat
      = dispatches o on
      /\ (outbound_calls o off + for_order o (OrderService.goroutines off))%nat
         = deliveries o evs
      /\ (for_order o (OrderService.goroutines on) = 0%nat ->
          attempts o db = 0%nat -> (1 <= deliveries o evs)%nat ->
          outbound_calls o on = 1%nat)
      /\ (for_order o (OrderService.goroutines off) = 0%nat ->
          outbound_calls o off = deliveries o evs)).
Proof.
  intros H. cbv zeta.
  assert (attempts o db = 0%nat ->
          dispatches o (OrderService.run true (OrderService.start db) evs)
          = indicator (negb (deliveries o evs =? 0)%nat)) as First.
  { intros A.
    now rewrite first_delivery_dispatches by (exact H || exact A || reflexivity). }
  assert (attempts o db = 0%nat -> (1 <= deliveries o evs)%nat ->
          dispatches o (OrderService.run true (OrderService.start db) evs)
          = 1%nat) as One.
  { intros A K. rewrite (First A).
    destruct (Nat.eqb_spec (deliveries o evs) 0); [lia | reflexivity]. }
  split; [|split; [|split; [|split; [|split]]]].
  - destruct (Nat.eq_dec (attempts o db) 0) as [A|A].
    + rewrite (First A). destruct (negb _); cbn; lia.
    + rewrite no_dispatch_after_attempt; [cbn; lia | exact H | cbn; lia].
  - pose proof (run_accounted true o evs (OrderService.start db)) as Q.
    unfold accounted in Q. cbn in Q. specialize (Q ltac:(lia)).
    unfold accounted in *. lia.
  - exact One.
  - intros e m db0 He.
    rewrite (handler_decision_on e m db0 He),
      (handler_attempts true e m db0 _ He), String.eqb_refl.
    cbn [indicator].
    destruct (Nat.eqb_spec (attempts (ppm_OrderID m) db0) 0) as [->|Hne].
    + split; [reflexivity | discriminate].
    + split; [congruence | lia].
  - now rewrite every_delivery_dispatches.
  - intros Hh Hf.
    pose proof (run_balanced true o evs (OrderService.start db) Hh Hf
                  eq_refl) as Bon.
    pose proof (run_balanced false o evs (OrderService.start db) Hh Hf
                  eq_refl) as Boff.
    unfold balanced in Bon, Boff.
    rewrite every_delivery_dispatches in Boff by exact H.
    change (dispatches o (OrderService.start db)) with 0%nat in Boff.
    rewrite Nat.add_0_l in Boff.
    split; [exact Bon|]. split; [exact Boff|]. split.
    + intros G A K. rewrite (One A K) in Bon. lia.
    + intros G. lia.
Qed.

Lemma C1_witness :
  let o := ppm_OrderID sample_message in
  let on := OrderService.run true (OrderService.start sample_store)
                             drained_run in
  let off := OrderService.run false (OrderService.start sample_store)
                              drained_run in
  dispatches o on = 1%nat /\ outbound_calls o on = 1%nat
  /\ deliveries o drained_run = 3%nat
  /\ dispatches o off = 3%nat /\ outbound_calls o off = 3%nat.
Proof.
  cbv zeta.
  assert (Forall healthy_event drained_run) as H by (repeat constructor).
  assert (Forall finds_order drained_run) as F by (repeat constructor).
  assert (has_order (ppm_OrderID sample_message) sample_store = true) as Hh
    by reflexivity.
  assert (attempts (ppm_OrderID sample_message) sample_store = 0%nat) as A
    by reflexivity.
  assert (deliveries (ppm_OrderID sample_message) drained_run = 3%nat) as K
    by reflexivity.
  destruct (C1_client_side_toggle (ppm_OrderID sample_message) sample_store
              drained_run H) as [_ [_ [One [_ [Off Posts]]]]].
  destruct (Posts Hh F) as [_ [_ [PostOn PostOff]]].
  split; [apply One; [exact A | rewrite K; repeat constructor]|].
  split; [apply PostOn;
          [reflexivity | exact A | rewrite K; repeat constructor]|].
  split; [exact K|].
  split; [rewrite Off; exact K|].
  rewrite PostOff; [exact K | reflexivity].
Defined.

(** Without the proviso on the handler's statements the claim fails.
    Toggle on, the insert of the attempt row failing on two deliveries
    of the same message: the count stays below 2, both deliveries start
    the dispatch and two requests are posted for the order. Toggle off,
    the update of the order failing on the first of two deliveries: the
    handler returns before the dispatch and only one of the two
    deliveries starts it. *)
Lemma C1_counterexample :
  let o := ppm_OrderID sample_message in
  let on := OrderService.run true (OrderService.start sample_store)
                             failing_insert_run in
  let off := OrderService.run false (OrderService.start sample_store)
                              failing_update_run in
  (deliveries o failing_insert_run = 2%nat
   /\ ~ (dispatches o on <= 1)%nat
   /\ ~ (outbound_calls o on <= 1)%nat)
  /\ (deliveries o failing_update_run = 2%nat
      /\ dispatches o off <> deliveries o failing_update_run).
Proof.
  cbv zeta.
  assert (dispatches (ppm_OrderID sample_message)
            (OrderService.run true (OrderService.start sample_store)
                              failing_insert_run) = 2%nat) as D
    by (vm_compute; reflexivity).
  assert (outbound_calls (ppm_OrderID sample_message)
            (OrderService.run true (OrderService.start sample_store)
                              failing_insert_run) = 2%nat) as P
    by (vm_compute; reflexivity).
  assert (dispatches (ppm_OrderID sample_message)
            (OrderService.run false (OrderService.start sample_store)
                              failing_update_run) = 1%nat) as D'
    by (vm_compute; reflexivity).
  assert (deliveries (ppm_OrderID sample_message) failing_update_run
          = 2%nat) as K' by (vm_compute; reflexivity).
  rewrite D, P, D', K'.
  split; [split; [vm_compute; reflexivity | split; lia] | split; [reflexivity | lia]].
Qed.

(** * The attempt numbers *)

(** With nothing in between, the statements of the goroutine are
    [processFulfillment]. *)
Lemma interleaved_undisturbed e orderID cid db :
  DispatchSteps.interleaved e orderID cid DispatchSteps.undisturbed
    DispatchSteps.undisturbed DispatchSteps.undisturbed db
  = OrderService.processFulfillment e orderID cid db.
Proof.
  unfold DispatchSteps.interleaved, DispatchSteps.request_of,
    DispatchSteps.number_of, DispatchSteps.record, DispatchSteps.conclude,
    DispatchSteps.undisturbed, OrderService.processFulfillment.
  destruct (select_order _ orderID db) as [[[i a] p]|]; [|reflexivity].
  cbv zeta.
  destruct (insert_attempt _ orderID _ _ _ db) as [db1 err]. cbn [fst].
  destruct (OrderService.d_post e) as [t|code]; [reflexivity|].
  destruct (code =? Go.StatusOK); [|reflexivity].
  now destruct (update_order_status _ _ orderID db1).
Qed.

Lemma conclude_attempts e orderID db :
  fulfillment_attempts (DispatchSteps.conclude e orderID db)
  = fulfillment_attempts db.
Proof.
  unfold DispatchSteps.conclude.
  destruct (OrderService.d_post e) as [t|code]; [reflexivity|].
  destruct (code =? Go.StatusOK); [|reflexivity].
  apply update_attempts.
Qed.

(** The number on the goroutine's row comes from the store its count
    saw, whatever the store is by the time of the insert. *)
Lemma interleaved_row e orderID cid others1 others2 db :
  select_order (OrderService.d_select_fails e) orderID db <> None ->
  OrderService.d_count_fails e = false ->
  OrderService.d_insert_fails e = false ->
  appended_attempt orderID (Z.of_nat (attempts orderID (others1 db)) + 1)
    (others2 (others1 db))
    (fst (DispatchSteps.interleaved e orderID cid others1 others2
            DispatchSteps.undisturbed db)).
Proof.
  intros Hsel Hc Hi.
  unfold DispatchSteps.interleaved, DispatchSteps.request_of.
  destruct (select_order _ orderID db) as [[[i a] p]|]; [|congruence].
  cbv zeta. cbn [fst]. unfold DispatchSteps.undisturbed.
  unfold appended_attempt. eexists. split.
  { rewrite conclude_attempts. unfold DispatchSteps.record. rewrite Hi.
    apply insert_attempt_rows. }
  split; [reflexivity|]. cbn [fa_AttemptNumber].
  unfold DispatchSteps.number_of, count_attempts. now rewrite Hc.
Qed.

(** C6. The row appended by the dispatch path, when its lookup, its
    count and its insert go through, carries the number of attempt rows
    that its count saw for the order, plus one. Count and insert are
    separate statements: the number is that of the rows present at the
    time of the insert plus one exactly when the order has as many rows
    at the insert as at the count, as it has when nothing runs in
    between. The row appended by the message handler, when its update
    and its insert go through, carries the literal 1. *)
Theorem C6_attempt_number_of_appended_row :
  (forall e orderID cid others1 others2 db,
     select_order (OrderService.d_select_fails e) orderID db <> None ->
     OrderService.d_count_fails e = false ->
     OrderService.d_insert_fails e = false ->
     let at_count := others1 db in
     let at_insert := others2 at_count in
     appended_attempt orderID (Z.of_nat (attempts orderID at_count) + 1)
       at_insert
       (fst (DispatchSteps.interleaved e orderID cid others1 others2
               DispatchSteps.undisturbed db))
     /\ (appended_attempt orderID (Z.of_nat (attempts orderID at_insert) + 1)
           at_insert
           (fst (DispatchSteps.interleaved e orderID cid others1 others2
                   DispatchSteps.undisturbed db))
         <-> attempts orderID at_insert = attempts orderID at_count))
  /\ (forall e orderID cid db,
        select_order (OrderService.d_select_fails e) orderID db <> None ->
        OrderService.d_count_fails e = false ->
        OrderService.d_insert_fails e = false ->
        appended_attempt orderID (Z.of_nat (attempts orderID db) + 1) db
          (fst (OrderService.processFulfillment e orderID cid db)))
  /\ (forall cfg e m db,
        OrderService.h_update_fails e = false ->
        OrderService.h_insert_fails e = false ->
        appended_attempt (ppm_OrderID m) 1 db
          (fst (OrderService.handlePaymentPaid cfg e (Some m) db))).
Proof.
  split; [|split].
  - intros e orderID cid others1 others2 db Hsel Hc Hi. cbv zeta.
    pose proof (interleaved_row e orderID cid others1 others2 db Hsel Hc Hi)
      as R.
    split; [exact R|]. split.
    + intros [row [Hrow [_ Hn]]]. destruct R as [row' [Hrow' [_ Hn']]].
      rewrite Hrow in Hrow'. apply app_inv_head in Hrow'.
      injection Hrow' as ->. lia.
    + intros E. rewrite E. exact R.
  - intros e orderID cid db Hsel Hc Hi.
    rewrite <- interleaved_undisturbed.
    exact (interleaved_row e orderID cid DispatchSteps.undisturbed
             DispatchSteps.undisturbed db Hsel Hc Hi).
  - intros cfg e m db Hu Hi. rewrite handler_store. cbv zeta.
    rewrite Hu, Hi. cbn [update_order_status snd fst].
    unfold appended_attempt. eexists. split.
    { rewrite insert_attempt_rows. reflexivity. }
    split; reflexivity.
Qed.

(** A goroutine for the sample order that counts after one delivery
    (one row) and inserts after a second delivery has been handled (two
    rows): its row carries 2, not 3. A goroutine that runs undisturbed
    after the two deliveries numbers its row 3. *)
Lemma C6_witness :
  attempts (ID sample_order) after_one_delivery = 1%nat
  /\ attempts (ID sample_order) after_two_deliveries = 2%nat
  /\ appended_attempt (ID sample_order) 2 after_two_deliveries
       (fst (DispatchSteps.interleaved sample_dispatch_env (ID sample_order)
               "K3X9QA" DispatchSteps.undisturbed delivery_in_between
               DispatchSteps.undisturbed after_one_delivery))
  /\ ~ appended_attempt (ID sample_order) 3 after_two_deliveries
         (fst (DispatchSteps.interleaved sample_dispatch_env
                 (ID sample_order) "K3X9QA" DispatchSteps.undisturbed
                 delivery_in_between DispatchSteps.undisturbed
                 after_one_delivery))
  /\ appended_attempt (ID sample_order) 3 after_two_deliveries
       (fst (OrderService.processFulfillment sample_dispatch_env
               (ID sample_order) "K3X9QA" after_two_deliveries))
  /\ appended_attempt (ppm_OrderID sample_message) 1 after_one_delivery
       (fst (OrderService.handlePaymentPaid true sample_handler_env
               (Some sample_message) after_one_delivery)).
Proof.
  destruct C6_attempt_number_of_appended_row as [I [D H]].
  assert (select_order (OrderService.d_select_fails sample_dispatch_env)
            (ID sample_order) after_one_delivery <> None) as S1
    by (vm_compute; discriminate).
  assert (select_order (OrderService.d_select_fails sample_dispatch_env)
            (ID sample_order) after_two_deliveries <> None) as S2
    by (vm_compute; discriminate).
  destruct (I sample_dispatch_env (ID sample_order) "K3X9QA"
              DispatchSteps.undisturbed delivery_in_between
              after_one_delivery S1 eq_refl eq_refl) as [R Q].
  split; [reflexivity|]. split; [reflexivity|].
  split; [exact R|].
  split; [intros N; apply Q in N; vm_compute in N; discriminate|].
  split; [exact (D sample_dispatch_env (ID sample_order) "K3X9QA"
                   after_two_deliveries S2 eq_refl eq_refl)|].
  apply H; reflexivity.
Defined.
